(** * xmm7360: ring-protocol engine of the XMM7360 PCI modem driver

    A shallow embedding of [xmm7360.c]: the command ring, the transfer
    descriptor (TD) rings, the queue-pair open/close/read/write paths, the
    control-page handshake and the probe sequence, together with the
    properties of the ring protocol that the driver relies on.

    Conventions of the embedding.
    - C integers are [Z]; every narrowing conversion the C code performs is
      written out with [u8], [u16], [u32], [u64] (wrap-around) or [s32],
      [s64] (two's complement reinterpretation).
    - C arrays are lists indexed with stdpp's [!!] and [<[ _ := _ ]>]; an
      access outside the array ends the run with [Oops].
    - A driver function is a computation in the monad [M]: it reads and
      updates the driver state [xmm_dev], emits the list of externally
      visible [event]s (stores to the memory shared with the modem, MMIO
      accesses, sleeps, kernel resources taken and released) in program
      order, and either returns a value or stops ([BUG_ON] fired, invalid
      access, the calling context went to sleep, loop budget exhausted).
    - The modem is quiescent while one driver function runs: words it owns
      (read pointers, status) keep the value they have in the state.  What
      the modem answers on MMIO reads is given by oracles. *)

From Stdlib Require Import ZArith Lia List.
From Stdlib Require Import Strings.Byte.
From stdpp Require Import base numbers list.

Open Scope Z_scope.

(** ** Machine integers *)

Definition u8 (x : Z) : Z := x mod 2 ^ 8.
Definition u16 (x : Z) : Z := x mod 2 ^ 16.
Definition u32 (x : Z) : Z := x mod 2 ^ 32.
Definition u64 (x : Z) : Z := x mod 2 ^ 64.

(** Reinterpretation of a 64-bit (32-bit) pattern as a signed value. *)
Definition s64 (x : Z) : Z :=
  let y := u64 x in if decide (y < 2 ^ 63) then y else y - 2 ^ 64.
Definition s32 (x : Z) : Z :=
  let y := u32 x in if decide (y < 2 ^ 31) then y else y - 2 ^ 32.

(** errno values used by the driver *)
Definition EAGAIN : Z := 11.
Definition ENOMEM : Z := 12.
Definition EBUSY : Z := 16.
Definition ENODEV : Z := 19.
Definition EINVAL : Z := 22.
Definition ENOSPC : Z := 28.
Definition ETIMEDOUT : Z := 110.
Definition ERESTARTSYS : Z := 512.

(** ** Constants of the device contract *)

Definition CMD_RING_OPEN : Z := 1.
Definition CMD_RING_CLOSE : Z := 3.
Definition CMD_WAKEUP : Z := 4.

Definition CMD_FLAG_DONE : Z := 1.
Definition CMD_FLAG_READY : Z := 2.

Definition TD_FLAG_COMPLETE : Z := 0x200.

Definition CMD_RING_SIZE : Z := 0x80.

Definition BAR0_MODE : Z := 0x0c.
Definition BAR0_DOORBELL : Z := 0x04.
Definition BAR0_WAKEUP : Z := 0x14.

Definition DOORBELL_TD : Z := 0.
Definition DOORBELL_CMD : Z := 1.

Definition BAR2_STATUS : Z := 0x00.
Definition BAR2_MODE : Z := 0x18.
Definition BAR2_CONTROL : Z := 0x19.
Definition BAR2_CONTROLH : Z := 0x1a.
Definition BAR2_BLANK0 : Z := 0x1b.
Definition BAR2_BLANK1 : Z := 0x1c.
Definition BAR2_BLANK2 : Z := 0x1d.
Definition BAR2_BLANK3 : Z := 0x1e.

(** ** Data model *)

(** [struct cmd_ring_entry] *)
Record cmd_ring_entry := {
  ptr : Z;      (* dma_addr_t *)
  len : Z;      (* u16 *)
  parm : Z;     (* u8 *)
  cmd : Z;      (* u8 *)
  extra : Z;    (* u32 *)
  unk : Z;      (* u32 *)
  flags : Z     (* u32 *)
}.

(** [struct td_ring_entry]; the fields carry a [td_] prefix because
    [length], [flags] and [unk] are taken. *)
Record td_ring_entry := {
  td_addr : Z;    (* dma_addr_t *)
  td_length : Z;  (* u16 *)
  td_flags : Z;   (* u16 *)
  td_unk : Z      (* u32 *)
}.

(** [struct control]: bus addresses of the parts of the control page *)
Record control := {
  ctl_status : Z;
  ctl_s_wptr : Z;
  ctl_s_rptr : Z;
  ctl_c_wptr : Z;
  ctl_c_rptr : Z;
  ctl_c_ring : Z;
  c_ring_size : Z
}.

(** [struct status], written by the modem *)
Record status := {
  code : Z;
  mode : Z;
  asleep : Z;
  pad : Z
}.

(** [struct control_page] *)
Record control_page := {
  ctl : control;
  cp_status : status;
  s_wptr : list Z;            (* u32 [16] *)
  s_rptr : list Z;            (* u32 [16] *)
  c_wptr : Z;                 (* u32 *)
  c_rptr : Z;                 (* u32 *)
  c_ring : list cmd_ring_entry  (* [CMD_RING_SIZE] *)
}.

(** [struct td_ring]; [tds] and [pages] hold the contents of the
    allocations the C fields point to. *)
Record td_ring := {
  size : Z;          (* u8 *)
  last_handled : Z;  (* u8 *)
  page_size : Z;     (* u16 *)
  tds : list td_ring_entry;
  tds_phys : Z;
  pages : list (list byte);
  pages_phys : list Z
}.

(** [struct queue_pair]: [qp_xmm] tells whether the back pointer [xmm] is
    set; the wait queue and the spin lock carry no data. *)
Record queue_pair := {
  qp_xmm : bool;
  num : Z;
  open : Z
}.

(** [struct xmm_dev].  [bar0], [bar2]: whether the register window is
    mapped.  [cp]: [None] is the NULL pointer.  The last two fields are
    not fields of the C struct but kernel state the driver code depends on:
    [dma_brk] is the next free bus address of the coherent allocator, kept
    here so that allocation is a function of the state, and [drvdata] tells
    whether [pci_set_drvdata] has recorded this structure in the PCI
    device, which is where [xmm7360_remove] looks for it. *)
Record xmm_dev := {
  bar0 : bool;
  bar2 : bool;
  irq : list Z;
  cp : option control_page;
  cp_phys : Z;
  td_ring_ : list td_ring;
  qp : list queue_pair;
  dma_brk : Z;
  drvdata : bool
}.

(** Field updates *)
Definition set_bar0 (v : bool) (x : xmm_dev) : xmm_dev :=
  {| bar0 := v; bar2 := bar2 x; irq := irq x; cp := cp x;
     cp_phys := cp_phys x; td_ring_ := td_ring_ x; qp := qp x;
     dma_brk := dma_brk x; drvdata := drvdata x |}.
Definition set_bar2 (v : bool) (x : xmm_dev) : xmm_dev :=
  {| bar0 := bar0 x; bar2 := v; irq := irq x; cp := cp x;
     cp_phys := cp_phys x; td_ring_ := td_ring_ x; qp := qp x;
     dma_brk := dma_brk x; drvdata := drvdata x |}.
Definition set_irq (v : list Z) (x : xmm_dev) : xmm_dev :=
  {| bar0 := bar0 x; bar2 := bar2 x; irq := v; cp := cp x;
     cp_phys := cp_phys x; td_ring_ := td_ring_ x; qp := qp x;
     dma_brk := dma_brk x; drvdata := drvdata x |}.
Definition set_cp (v : option control_page) (x : xmm_dev) : xmm_dev :=
  {| bar0 := bar0 x; bar2 := bar2 x; irq := irq x; cp := v;
     cp_phys := cp_phys x; td_ring_ := td_ring_ x; qp := qp x;
     dma_brk := dma_brk x; drvdata := drvdata x |}.
Definition set_cp_phys (v : Z) (x : xmm_dev) : xmm_dev :=
  {| bar0 := bar0 x; bar2 := bar2 x; irq := irq x; cp := cp x;
     cp_phys := v; td_ring_ := td_ring_ x; qp := qp x;
     dma_brk := dma_brk x; drvdata := drvdata x |}.
Definition set_td_ring (v : list td_ring) (x : xmm_dev) : xmm_dev :=
  {| bar0 := bar0 x; bar2 := bar2 x; irq := irq x; cp := cp x;
     cp_phys := cp_phys x; td_ring_ := v; qp := qp x;
     dma_brk := dma_brk x; drvdata := drvdata x |}.
Definition set_qp (v : list queue_pair) (x : xmm_dev) : xmm_dev :=
  {| bar0 := bar0 x; bar2 := bar2 x; irq := irq x; cp := cp x;
     cp_phys := cp_phys x; td_ring_ := td_ring_ x; qp := v;
     dma_brk := dma_brk x; drvdata := drvdata x |}.
Definition set_dma_brk (v : Z) (x : xmm_dev) : xmm_dev :=
  {| bar0 := bar0 x; bar2 := bar2 x; irq := irq x; cp := cp x;
     cp_phys := cp_phys x; td_ring_ := td_ring_ x; qp := qp x;
     dma_brk := v; drvdata := drvdata x |}.
Definition set_drvdata (v : bool) (x : xmm_dev) : xmm_dev :=
  {| bar0 := bar0 x; bar2 := bar2 x; irq := irq x; cp := cp x;
     cp_phys := cp_phys x; td_ring_ := td_ring_ x; qp := qp x;
     dma_brk := dma_brk x; drvdata := v |}.

Definition set_s_wptr (l : list Z) (c : control_page) : control_page :=
  {| ctl := ctl c; cp_status := cp_status c; s_wptr := l; s_rptr := s_rptr c;
     c_wptr := c_wptr c; c_rptr := c_rptr c; c_ring := c_ring c |}.
Definition set_s_rptr (l : list Z) (c : control_page) : control_page :=
  {| ctl := ctl c; cp_status := cp_status c; s_wptr := s_wptr c; s_rptr := l;
     c_wptr := c_wptr c; c_rptr := c_rptr c; c_ring := c_ring c |}.
Definition set_c_wptr (v : Z) (c : control_page) : control_page :=
  {| ctl := ctl c; cp_status := cp_status c; s_wptr := s_wptr c;
     s_rptr := s_rptr c; c_wptr := v; c_rptr := c_rptr c; c_ring := c_ring c |}.
Definition set_c_ring (l : list cmd_ring_entry) (c : control_page) : control_page :=
  {| ctl := ctl c; cp_status := cp_status c; s_wptr := s_wptr c;
     s_rptr := s_rptr c; c_wptr := c_wptr c; c_rptr := c_rptr c; c_ring := l |}.
Definition set_ctl (k : control) (c : control_page) : control_page :=
  {| ctl := k; cp_status := cp_status c; s_wptr := s_wptr c;
     s_rptr := s_rptr c; c_wptr := c_wptr c; c_rptr := c_rptr c;
     c_ring := c_ring c |}.

(** ** Events *)

Inductive cmd_field := F_ptr | F_cmd | F_parm | F_len | F_extra | F_unk | F_flags.
Inductive td_field := F_td_length | F_td_flags | F_td_unk | F_td_addr.

(** Words of memory shared with the modem *)
Inductive loc :=
| L_c_wptr
| L_c_ring (slot : Z) (f : cmd_field)
| L_s_wptr (ring : Z)
| L_s_rptr (ring : Z)
| L_td (ring slot : Z) (f : td_field).

(** Kernel resources held by the driver *)
Inductive resource :=
| R_xmm                 (* kzalloc'ed struct xmm_dev *)
| R_enabled             (* pci_enable_device *)
| R_region (bar : Z)    (* pci_request_region *)
| R_iomap (bar : Z)     (* pci_iomap *)
| R_irq_vectors         (* pci_alloc_irq_vectors *)
| R_irq (i : Z)         (* request_irq *)
| R_control_page        (* dma_alloc_coherent of the control page *)
| R_cdev (n : Z).       (* cdev_device_add *)

Inductive event :=
| Store (l : loc) (v : Z)              (* store to coherent memory *)
| StorePage (ring slot : Z) (data : list byte)  (* bytes copied into a buffer page *)
| CopyToUser (data : list byte)        (* bytes handed to the user buffer *)
| MmioWrite (bar reg v : Z)            (* xmm->barN[reg] = v *)
| MmioRead (bar reg v : Z)             (* v = xmm->barN[reg] *)
| Msleep (ms : Z)
| Mdelay (ms : Z)
| Acquire (r : resource)
| Release (r : resource).

(** ** The monad of driver code *)

Inductive bug :=
| Bug_ring_exists       (* BUG_ON(ring->size) in td_ring_create *)
| Bug_size_not_pow2     (* BUG_ON(size & (size-1)) *)
| Bug_ring_absent       (* BUG_ON(!ring->size) *)
| Bug_len_too_big       (* BUG_ON(len > ring->page_size) *)
| Bug_not_send_ring     (* BUG_ON(ring_id & 1) *)
| Bug_overrun.          (* BUG_ON(wptr == xmm->cp->s_rptr[ring_id]) *)

Inductive stop :=
| BUG (b : bug)   (* a BUG_ON fired *)
| Oops            (* NULL or out-of-bounds access *)
| Sleeping        (* the context sleeps in wait_event_interruptible *)
| Spinning.       (* a loop did not finish within the budget it was run with *)

Inductive res (A : Type) :=
| Ok (a : A)
| Stop (r : stop).
Arguments Ok {A} a.
Arguments Stop {A} r.

Definition M (A : Type) : Type := xmm_dev -> res A * xmm_dev * list event.

#[global] Instance M_ret : MRet M := fun A a s => (Ok a, s, []).
#[global] Instance M_bind : MBind M := fun A B f m s =>
  match m s with
  | (Ok a, s1, t1) => let '(r, s2, t2) := f a s1 in (r, s2, t1 ++ t2)
  | (Stop e, s1, t1) => (Stop e, s1, t1)
  end.

Definition get : M xmm_dev := fun s => (Ok s, s, []).
Definition put (s' : xmm_dev) : M unit := fun _ => (Ok tt, s', []).
Definition emit (e : event) : M unit := fun s => (Ok tt, s, [e]).
Definition halt {A} (r : stop) : M A := fun s => (Stop r, s, []).

(** [BUG_ON(c)] *)
Definition BUG_ON (c : bool) (b : bug) : M unit :=
  if c then halt (BUG b) else mret tt.

(** Dereference an array element or a pointer *)
Definition deref {A} (o : option A) : M A :=
  match o with Some a => mret a | None => halt Oops end.

(** [xmm->cp] *)
Definition get_cp : M control_page := s ← get; deref (cp s).
Definition put_cp (c : control_page) : M unit := s ← get; put (set_cp (Some c) s).

(** [xmm->barN[reg] = v] *)
Definition mmio_write (bar reg v : Z) : M unit :=
  s ← get;
  if (if decide (bar = 0) then bar0 s else bar2 s)
  then emit (MmioWrite bar reg v) else halt Oops.

(** ** Doorbell *)

(** [xmm7360_ding] *)
Definition xmm7360_ding (bell : Z) : M unit :=
  c ← get_cp;
  (if decide (asleep (cp_status c) = 0) then mret tt
   else mmio_write 0 BAR0_WAKEUP 1);;
  mmio_write 0 BAR0_DOORBELL bell.

(** ** Command ring *)

Definition set_cmd_field (f : cmd_field) (v : Z) (e : cmd_ring_entry) : cmd_ring_entry :=
  match f with
  | F_ptr => {| ptr := v; len := len e; parm := parm e; cmd := cmd e;
                extra := extra e; unk := unk e; flags := flags e |}
  | F_cmd => {| ptr := ptr e; len := len e; parm := parm e; cmd := v;
                extra := extra e; unk := unk e; flags := flags e |}
  | F_parm => {| ptr := ptr e; len := len e; parm := v; cmd := cmd e;
                 extra := extra e; unk := unk e; flags := flags e |}
  | F_len => {| ptr := ptr e; len := v; parm := parm e; cmd := cmd e;
                extra := extra e; unk := unk e; flags := flags e |}
  | F_extra => {| ptr := ptr e; len := len e; parm := parm e; cmd := cmd e;
                  extra := v; unk := unk e; flags := flags e |}
  | F_unk => {| ptr := ptr e; len := len e; parm := parm e; cmd := cmd e;
                extra := extra e; unk := v; flags := flags e |}
  | F_flags => {| ptr := ptr e; len := len e; parm := parm e; cmd := cmd e;
                  extra := extra e; unk := unk e; flags := v |}
  end.

(** [xmm->cp->c_ring[i].f = v] *)
Definition store_c_ring (i : Z) (f : cmd_field) (v : Z) : M unit :=
  c ← get_cp;
  e ← deref (c_ring c !! Z.to_nat i);
  put_cp (set_c_ring (<[Z.to_nat i := set_cmd_field f v e]> (c_ring c)) c);;
  emit (Store (L_c_ring i f) v).

(** [xmm->cp->c_wptr = v] *)
Definition store_c_wptr (v : Z) : M unit :=
  c ← get_cp;
  put_cp (set_c_wptr v c);;
  emit (Store L_c_wptr v).

(** [xmm7360_cmd_ring_submit].  The arguments arrive with the C parameter
    types [u8 cmd], [u8 parm], [u16 len], [dma_addr_t ptr], [u32 extra].
    The result is the C return value: [0] or [-EAGAIN]. *)
Definition xmm7360_cmd_ring_submit (cmd parm len ptr extra : Z) : M Z :=
  c ← get_cp;
  let wptr := u8 (c_wptr c) in
  let new_wptr := u8 ((wptr + 1) mod CMD_RING_SIZE) in
  if decide (new_wptr = c_rptr c) then mret (- EAGAIN)
  else
    store_c_ring wptr F_ptr ptr;;
    store_c_ring wptr F_cmd cmd;;
    store_c_ring wptr F_parm parm;;
    store_c_ring wptr F_len len;;
    store_c_ring wptr F_extra extra;;
    store_c_ring wptr F_unk 0;;
    store_c_ring wptr F_flags CMD_FLAG_READY;;
    store_c_wptr new_wptr;;
    mret 0.

(** Slots holding a command the modem has not consumed yet: the [k]-th
    slot after the read pointer, for [k] below the number of commands
    between the read and the write pointer. *)
Definition cmd_outstanding (c : control_page) (i : Z) : Prop :=
  exists k, 0 <= k < (c_wptr c - c_rptr c) mod CMD_RING_SIZE
            /\ i = (c_rptr c + k) mod CMD_RING_SIZE.

(** The entry [xmm7360_cmd_ring_submit] leaves in the slot it fills *)
Definition submitted_entry (cmd parm len ptr extra : Z) : cmd_ring_entry :=
  {| ptr := ptr; len := len; parm := parm; cmd := cmd; extra := extra;
     unk := 0; flags := CMD_FLAG_READY |}.

(** The state after a successful submit *)
Definition after_submit (cmd parm len ptr extra : Z) (c : control_page) : control_page :=
  set_c_wptr ((c_wptr c + 1) mod CMD_RING_SIZE)
    (set_c_ring (<[Z.to_nat (c_wptr c) := submitted_entry cmd parm len ptr extra]> (c_ring c)) c).

(** The stores of a successful submit, in program order *)
Definition submit_trace (w cmd parm len ptr extra : Z) : list event :=
  [ Store (L_c_ring w F_ptr) ptr;
    Store (L_c_ring w F_cmd) cmd;
    Store (L_c_ring w F_parm) parm;
    Store (L_c_ring w F_len) len;
    Store (L_c_ring w F_extra) extra;
    Store (L_c_ring w F_unk) 0;
    Store (L_c_ring w F_flags) CMD_FLAG_READY;
    Store L_c_wptr ((w + 1) mod CMD_RING_SIZE) ].

(** Well-formed command ring: 128 entries, host write pointer in range *)
Definition cmd_ring_wf (c : control_page) : Prop :=
  length (c_ring c) = Z.to_nat CMD_RING_SIZE /\ 0 <= c_wptr c < CMD_RING_SIZE.


(** ** Transfer-descriptor rings *)

Definition set_tds (l : list td_ring_entry) (r : td_ring) : td_ring :=
  {| size := size r; last_handled := last_handled r; page_size := page_size r;
     tds := l; tds_phys := tds_phys r; pages := pages r;
     pages_phys := pages_phys r |}.
Definition set_pages (l : list (list byte)) (r : td_ring) : td_ring :=
  {| size := size r; last_handled := last_handled r; page_size := page_size r;
     tds := tds r; tds_phys := tds_phys r; pages := l;
     pages_phys := pages_phys r |}.
Definition set_last_handled (v : Z) (r : td_ring) : td_ring :=
  {| size := size r; last_handled := v; page_size := page_size r;
     tds := tds r; tds_phys := tds_phys r; pages := pages r;
     pages_phys := pages_phys r |}.

Definition set_td_field (f : td_field) (v : Z) (e : td_ring_entry) : td_ring_entry :=
  match f with
  | F_td_addr => {| td_addr := v; td_length := td_length e;
                    td_flags := td_flags e; td_unk := td_unk e |}
  | F_td_length => {| td_addr := td_addr e; td_length := v;
                      td_flags := td_flags e; td_unk := td_unk e |}
  | F_td_flags => {| td_addr := td_addr e; td_length := td_length e;
                     td_flags := v; td_unk := td_unk e |}
  | F_td_unk => {| td_addr := td_addr e; td_length := td_length e;
                   td_flags := td_flags e; td_unk := v |}
  end.

(** [xmm->td_ring[ring_id]] *)
Definition get_ring (ring_id : Z) : M td_ring :=
  s ← get; deref (td_ring_ s !! Z.to_nat ring_id).
Definition put_ring (ring_id : Z) (r : td_ring) : M unit :=
  s ← get; put (set_td_ring (<[Z.to_nat ring_id := r]> (td_ring_ s)) s).

(** [xmm->cp->s_wptr[ring_id]], [xmm->cp->s_rptr[ring_id]] *)
Definition load_s_wptr (ring_id : Z) : M Z :=
  c ← get_cp; deref (s_wptr c !! Z.to_nat ring_id).
Definition load_s_rptr (ring_id : Z) : M Z :=
  c ← get_cp; deref (s_rptr c !! Z.to_nat ring_id).

(** [xmm->cp->s_wptr[ring_id] = v] *)
Definition store_s_wptr (ring_id v : Z) : M unit :=
  c ← get_cp;
  _ ← deref (s_wptr c !! Z.to_nat ring_id);
  put_cp (set_s_wptr (<[Z.to_nat ring_id := v]> (s_wptr c)) c);;
  emit (Store (L_s_wptr ring_id) v).

(** [xmm->cp->s_rptr[ring_id] = v] *)
Definition store_s_rptr (ring_id v : Z) : M unit :=
  c ← get_cp;
  _ ← deref (s_rptr c !! Z.to_nat ring_id);
  put_cp (set_s_rptr (<[Z.to_nat ring_id := v]> (s_rptr c)) c);;
  emit (Store (L_s_rptr ring_id) v).

(** [ring->tds[slot].f = v] *)
Definition store_td (ring_id slot : Z) (f : td_field) (v : Z) : M unit :=
  ring ← get_ring ring_id;
  e ← deref (tds ring !! Z.to_nat slot);
  put_ring ring_id (set_tds (<[Z.to_nat slot := set_td_field f v e]> (tds ring)) ring);;
  emit (Store (L_td ring_id slot f) v).

(** [dma_alloc_coherent(xmm->dev, n, &phys, GFP_KERNEL)]: the memory it
    returns is zeroed.  Which bus address an allocation gets is the
    kernel's choice; the model takes one choice, the next [n] addresses
    after the previous allocation.  The driver does not branch on an
    address and never relates two allocations to one another: it stores
    the address (in a descriptor, in a RING_OPEN command) or values
    computed from that one address (the fields of [struct control], the
    two control registers), so another choice changes the address values
    that appear in states and traces and nothing else.  Allocation failure
    is not modelled (the driver does not test for it). *)
Definition dma_alloc_coherent (n : Z) : M Z :=
  s ← get; put (set_dma_brk (dma_brk s + n) s);; mret (dma_brk s).

(** [sizeof(struct td_ring_entry)] *)
Definition sizeof_td_ring_entry : Z := 16.

(** The loop of [xmm7360_td_ring_create] that allocates one zeroed page per
    descriptor: returns the pages and their bus addresses, slot 0 first. *)
Fixpoint alloc_pages (n : nat) (page_size : Z) : M (list (list byte) * list Z) :=
  match n with
  | O => mret ([], [])
  | S n' =>
      phys ← dma_alloc_coherent page_size;
      rest ← alloc_pages n' page_size;
      mret (replicate (Z.to_nat page_size) x00 :: rest.1, phys :: rest.2)
  end.

(** [xmm7360_td_ring_create]; [nsize] is the C parameter [size].  The
    descriptor array and the pages are private to the host until the
    RING_OPEN command is submitted, so filling them emits no event. *)
Definition xmm7360_td_ring_create (ring_id nsize : Z) : M unit :=
  ring ← get_ring ring_id;
  BUG_ON (bool_decide (size ring <> 0)) Bug_ring_exists;;
  BUG_ON (bool_decide (Z.land nsize (nsize - 1) <> 0)) Bug_size_not_pow2;;
  tds_phys ← dma_alloc_coherent (sizeof_td_ring_entry * nsize);
  pg ← alloc_pages (Z.to_nat nsize) 0x1000;
  put_ring ring_id
    {| size := nsize; last_handled := 0; page_size := 0x1000;
       tds := (fun a => {| td_addr := a; td_length := 0; td_flags := 0; td_unk := 0 |}) <$> pg.2;
       tds_phys := tds_phys; pages := pg.1; pages_phys := pg.2 |};;
  store_s_wptr ring_id 0;;
  store_s_rptr ring_id 0;;
  _ ← xmm7360_cmd_ring_submit CMD_RING_OPEN ring_id nsize tds_phys 0x60;
  xmm7360_ding DOORBELL_CMD.

(** [xmm7360_td_ring_destroy].  After the frees the descriptor array and
    the pages are gone: the lists become empty, so that a later access
    through the stale pointers is an invalid access. *)
Definition xmm7360_td_ring_destroy (ring_id : Z) : M unit :=
  ring ← get_ring ring_id;
  if decide (size ring = 0) then mret tt   (* WARN_ON(1); pr_err; return *)
  else
    _ ← xmm7360_cmd_ring_submit CMD_RING_CLOSE ring_id 0 0 0;
    xmm7360_ding DOORBELL_CMD;;
    ring ← get_ring ring_id;
    put_ring ring_id
      {| size := 0; last_handled := last_handled ring;
         page_size := page_size ring; tds := []; tds_phys := tds_phys ring;
         pages := []; pages_phys := [] |}.

(** [memcpy(ring->pages[slot], buf, len)] and
    [copy_from_user(ring->pages[slot], buf, len)].  [buf] is the readable
    memory at the source address.  A length that is negative (huge as
    [size_t]) or exceeds the page runs off the page.  [memcpy] needs [len]
    readable bytes; [copy_from_user] zero-fills what it cannot read (its
    result is not tested by the driver). *)
Definition copy_to_page (user : bool) (ring_id slot : Z) (buf : list byte) (len : Z) : M unit :=
  ring ← get_ring ring_id;
  page ← deref (pages ring !! Z.to_nat slot);
  if decide (0 <= len <= Z.of_nat (length page)) then
    if decide (len <= Z.of_nat (length buf) \/ user = true) then
      let data := take (Z.to_nat len) buf
                  ++ replicate (Z.to_nat len - length buf) x00 in
      put_ring ring_id
        (set_pages (<[Z.to_nat slot := data ++ drop (Z.to_nat len) page]> (pages ring)) ring);;
      emit (StorePage ring_id slot data)
    else halt Oops
  else halt Oops.

(** [xmm7360_td_ring_write_user] ([size_t len]) *)
Definition xmm7360_td_ring_write_user (ring_id : Z) (buf : list byte) (len : Z) : M unit :=
  ring ← get_ring ring_id;
  w ← load_s_wptr ring_id;
  let wptr := u8 w in
  BUG_ON (bool_decide (size ring = 0)) Bug_ring_absent;;
  BUG_ON (bool_decide (len > page_size ring)) Bug_len_too_big;;
  BUG_ON (bool_decide (Z.land ring_id 1 <> 0)) Bug_not_send_ring;;
  copy_to_page true ring_id wptr buf len;;
  store_td ring_id wptr F_td_length (u16 len);;
  store_td ring_id wptr F_td_flags 0;;
  store_td ring_id wptr F_td_unk 0;;
  let wptr := u8 (Z.land (wptr + 1) (size ring - 1)) in
  r ← load_s_rptr ring_id;
  BUG_ON (bool_decide (wptr = r)) Bug_overrun;;
  store_s_wptr ring_id wptr.

(** [xmm7360_td_ring_write] ([int len], compared as a signed value) *)
Definition xmm7360_td_ring_write (ring_id : Z) (buf : list byte) (len : Z) : M unit :=
  ring ← get_ring ring_id;
  w ← load_s_wptr ring_id;
  let wptr := u8 w in
  BUG_ON (bool_decide (size ring = 0)) Bug_ring_absent;;
  BUG_ON (bool_decide (len > page_size ring)) Bug_len_too_big;;
  BUG_ON (bool_decide (Z.land ring_id 1 <> 0)) Bug_not_send_ring;;
  copy_to_page false ring_id wptr buf len;;
  store_td ring_id wptr F_td_length (u16 len);;
  store_td ring_id wptr F_td_flags 0;;
  store_td ring_id wptr F_td_unk 0;;
  let wptr := u8 (Z.land (wptr + 1) (size ring - 1)) in
  r ← load_s_rptr ring_id;
  BUG_ON (bool_decide (wptr = r)) Bug_overrun;;
  store_s_wptr ring_id wptr.

(** [xmm7360_td_ring_full]: the C [int] result, 1 or 0 *)
Definition xmm7360_td_ring_full (ring_id : Z) : M Z :=
  ring ← get_ring ring_id;
  w ← load_s_wptr ring_id;
  let wptr := u8 w in
  let wptr := u8 (Z.land (wptr + 1) (size ring - 1)) in
  r ← load_s_rptr ring_id;
  mret (if decide (wptr = r) then 1 else 0).

(** [xmm7360_td_ring_read]: hand the slot at the write pointer to the modem
    as an empty receive buffer *)
Definition xmm7360_td_ring_read (ring_id : Z) : M unit :=
  ring ← get_ring ring_id;
  w ← load_s_wptr ring_id;
  let wptr := u8 w in
  if decide (size ring = 0) then mret tt          (* pr_err; WARN_ON(1); return *)
  else if decide (Z.land ring_id 1 = 0) then mret tt   (* pr_err; WARN_ON(1); return *)
  else
    store_td ring_id wptr F_td_length (page_size ring);;
    store_td ring_id wptr F_td_flags 0;;
    store_td ring_id wptr F_td_unk 0;;
    let wptr := u8 (Z.land (wptr + 1) (size ring - 1)) in
    r ← load_s_rptr ring_id;
    BUG_ON (bool_decide (wptr = r)) Bug_overrun;;
    store_s_wptr ring_id wptr.

(** ** Queue pairs *)

Definition set_open (v : Z) (q : queue_pair) : queue_pair :=
  {| qp_xmm := qp_xmm q; num := num q; open := v |}.

(** [xmm->qp[id]]; a [struct queue_pair *] argument of the C code is the
    index [id] of the pair in [xmm->qp]. *)
Definition get_qp (id : Z) : M queue_pair :=
  s ← get; deref (qp s !! Z.to_nat id).
Definition put_qp (id : Z) (q : queue_pair) : M unit :=
  s ← get; put (set_qp (<[Z.to_nat id := q]> (qp s)) s).

(** The loop [while (!xmm7360_td_ring_full(xmm, r)) xmm7360_td_ring_read(xmm, r);]
    run for at most [budget] tests of the condition *)
Fixpoint post_until_full (budget : nat) (ring_id : Z) : M unit :=
  match budget with
  | O => halt Spinning
  | S budget' =>
      full ← xmm7360_td_ring_full ring_id;
      if decide (full = 0)
      then xmm7360_td_ring_read ring_id;; post_until_full budget' ring_id
      else mret tt
  end.

(** [xmm7360_qp_start].  The spin lock delimits the body and has no effect
    in a single context.  Ring ids are passed as [u8]. *)
Definition xmm7360_qp_start (budget : nat) (id : Z) : M Z :=
  q ← get_qp id;
  if decide (open q <> 0) then mret (- EBUSY)
  else
    put_qp id (set_open 1 q);;
    xmm7360_td_ring_create (u8 (num q * 2)) 8;;
    xmm7360_td_ring_create (u8 (num q * 2 + 1)) 8;;
    xmm7360_ding DOORBELL_CMD;;
    post_until_full budget (u8 (num q * 2 + 1));;
    xmm7360_ding DOORBELL_TD;;
    mret 0.

(** [xmm7360_qp_stop] *)
Definition xmm7360_qp_stop (id : Z) : M Z :=
  q ← get_qp id;
  if decide (open q = 0) then mret (- ENODEV)
  else
    put_qp id (set_open 0 q);;
    xmm7360_td_ring_destroy (u8 (num q * 2));;
    xmm7360_td_ring_destroy (u8 (num q * 2 + 1));;
    mret 0.

(** [xmm7360_qp_write_user]: the result has type [size_t] *)
Definition xmm7360_qp_write_user (id : Z) (buf : list byte) (nbytes : Z) : M Z :=
  q ← get_qp id;
  full ← xmm7360_td_ring_full (u8 (num q * 2));
  if decide (full <> 0) then mret (u64 (- ENOSPC))
  else
    xmm7360_td_ring_write_user (u8 (num q * 2)) buf nbytes;;
    xmm7360_ding DOORBELL_TD;;
    mret 0.

(** [wait_event_interruptible(wq, cond)]: 0 when the condition holds,
    [-ERESTARTSYS] when it does not and a signal is pending; otherwise the
    calling context sleeps, which ends the run. *)
Definition wait_event_interruptible (signal_pending : bool) (cond : M bool) : M Z :=
  b ← cond;
  if (b : bool) then mret 0
  else if signal_pending then mret (- ERESTARTSYS)
  else halt Sleeping.

(** [copy_to_user(buf, ring->pages[idx], nread)] *)
Definition copy_to_user (page : list byte) (nread : Z) : M unit :=
  if decide (0 <= nread <= Z.of_nat (length page))
  then emit (CopyToUser (take (Z.to_nat nread) page))
  else halt Oops.

(** [xmm7360_qp_read_user]: [nbytes] is the C parameter [size]; the result
    has type [size_t]. *)
Definition xmm7360_qp_read_user (signal_pending : bool) (id : Z) (nbytes : Z) : M Z :=
  q ← get_qp id;
  let rid := num q * 2 + 1 in
  ret ← wait_event_interruptible signal_pending
          (r ← load_s_rptr rid; ring ← get_ring rid;
           mret (bool_decide (r <> last_handled ring)) : M bool);
  if decide (ret <> 0) then mret (u64 ret)
  else
    ring ← get_ring rid;
    let idx := last_handled ring in
    td ← deref (tds ring !! Z.to_nat idx);
    let nread := td_length td in
    let nread := if decide (nread > nbytes) then s32 nbytes else nread in
    page ← deref (pages ring !! Z.to_nat idx);
    copy_to_user page nread;;
    xmm7360_td_ring_read (u8 rid);;
    xmm7360_ding DOORBELL_TD;;
    ring ← get_ring rid;
    put_ring rid (set_last_handled (u8 (Z.land (idx + 1) (size ring - 1))) ring);;
    mret (u64 nread).

(** [xmm7360_write]: returns the [ssize_t] result and the new [*offset] *)
Definition xmm7360_write (id : Z) (buf : list byte) (nbytes offset : Z) : M (Z * Z) :=
  r ← xmm7360_qp_write_user id buf nbytes;
  let ret := s32 r in                      (* int ret = (size_t) ... *)
  if decide (ret <> 0) then mret (ret, offset)
  else mret (s64 nbytes, s64 (offset + nbytes)).

(** [xmm7360_read]: returns the [ssize_t] result and the new [*offset].
    [ret] has type [size_t], so the test [ret < 0] compares an unsigned
    value ([u64] never yields a negative number). *)
Definition xmm7360_read (signal_pending : bool) (id : Z) (nbytes offset : Z) : M (Z * Z) :=
  r ← xmm7360_qp_read_user signal_pending id nbytes;
  let ret := u64 r in
  if decide (ret < 0) then mret (s64 ret, offset)
  else mret (s64 ret, s64 (offset + ret)).

(** [xmm7360_open], [xmm7360_release] *)
Definition xmm7360_open (budget : nat) (id : Z) : M Z := xmm7360_qp_start budget id.
Definition xmm7360_release (id : Z) : M Z := xmm7360_qp_stop id.

(** ** Control-page handshake *)

(** [v = xmm->barN[reg]]: the value [v] comes from the oracle of the caller *)
Definition mmio_read (bar reg v : Z) : M Z :=
  s ← get;
  if (if decide (bar = 0) then bar0 s else bar2 s)
  then emit (MmioRead bar reg (u32 v));; mret (u32 v) else halt Oops.

Definition msleep (ms : Z) : M unit := emit (Msleep ms).
Definition mdelay (ms : Z) : M unit := emit (Mdelay ms).

(** [xmm7360_cmd_ring_wait] *)
Definition xmm7360_cmd_ring_wait (signal_pending : bool) : M Z :=
  wait_event_interruptible signal_pending
    (c ← get_cp; mret (bool_decide (c_rptr c = c_wptr c)) : M bool).

(** Layout of [struct control_page] (LP64: 64-bit [dma_addr_t]) *)
Definition sizeof_control_page : Z := 3280.
Definition offsetof_status : Z := 56.
Definition offsetof_s_wptr : Z := 72.
Definition offsetof_s_rptr : Z := 136.
Definition offsetof_c_wptr : Z := 200.
Definition offsetof_c_rptr : Z := 204.
Definition offsetof_c_ring : Z := 208.

Definition zero_cmd_ring_entry : cmd_ring_entry :=
  {| ptr := 0; len := 0; parm := 0; cmd := 0; extra := 0; unk := 0; flags := 0 |}.

(** A freshly allocated (zeroed) control page *)
Definition zero_control_page : control_page :=
  {| ctl := {| ctl_status := 0; ctl_s_wptr := 0; ctl_s_rptr := 0;
               ctl_c_wptr := 0; ctl_c_rptr := 0; ctl_c_ring := 0;
               c_ring_size := 0 |};
     cp_status := {| code := 0; mode := 0; asleep := 0; pad := 0 |};
     s_wptr := replicate 16 0; s_rptr := replicate 16 0;
     c_wptr := 0; c_rptr := 0;
     c_ring := replicate (Z.to_nat CMD_RING_SIZE) zero_cmd_ring_entry |}.

Section Handshake.

(** [bar2_mode k]: what the [k]-th read of [xmm->bar2[BAR2_MODE]] in
    [xmm7360_cmd_ring_init] returns (counting from 0) *)
Variable bar2_mode : nat -> Z.

(** [while (xmm->bar2[BAR2_MODE] == 0 && --timeout) msleep(10);]
    Returns the final [timeout] and the number of reads made so far. *)
Fixpoint poll_mode_nonzero (budget k : nat) (timeout : Z) : M (Z * nat) :=
  match budget with
  | O => halt Spinning
  | S budget' =>
      v ← mmio_read 2 BAR2_MODE (bar2_mode k);
      if decide (v = 0) then
        let timeout := timeout - 1 in
        if decide (timeout <> 0)
        then msleep 10;; poll_mode_nonzero budget' (S k) timeout
        else mret (timeout, S k)
      else mret (timeout, S k)
  end.

(** [while (xmm->bar2[BAR2_MODE] != 2 && !--timeout) msleep(10);] *)
Fixpoint poll_mode_two (budget k : nat) (timeout : Z) : M (Z * nat) :=
  match budget with
  | O => halt Spinning
  | S budget' =>
      v ← mmio_read 2 BAR2_MODE (bar2_mode k);
      if decide (v <> 2) then
        let timeout := timeout - 1 in
        if decide (timeout = 0)
        then msleep 10;; poll_mode_two budget' (S k) timeout
        else mret (timeout, S k)
      else mret (timeout, S k)
  end.

(** [xmm7360_cmd_ring_init].  Both loops start with [timeout = 100]; a
    budget of 100 condition tests is what the first loop can use up. *)
Definition xmm7360_cmd_ring_init (signal_pending : bool) : M Z :=
  phys ← dma_alloc_coherent sizeof_control_page;
  emit (Acquire R_control_page);;
  s ← get;
  put (set_cp_phys phys (set_cp (Some zero_control_page) s));;
  c ← get_cp;
  put_cp (set_ctl {| ctl_status := phys + offsetof_status;
                     ctl_s_wptr := phys + offsetof_s_wptr;
                     ctl_s_rptr := phys + offsetof_s_rptr;
                     ctl_c_wptr := phys + offsetof_c_wptr;
                     ctl_c_rptr := phys + offsetof_c_rptr;
                     ctl_c_ring := phys + offsetof_c_ring;
                     c_ring_size := CMD_RING_SIZE |} c);;
  mmio_write 2 BAR2_CONTROL (u32 phys);;
  mmio_write 2 BAR2_CONTROLH (u32 (Z.shiftr phys 32));;
  mmio_write 0 BAR0_MODE 1;;
  p ← poll_mode_nonzero 100 0 100;
  if decide (p.1 = 0) then mret (- ETIMEDOUT)
  else
    mmio_write 2 BAR2_BLANK0 0;;
    mmio_write 2 BAR2_BLANK1 0;;
    mmio_write 2 BAR2_BLANK2 0;;
    mmio_write 2 BAR2_BLANK3 0;;
    mmio_write 0 BAR0_MODE 2;;
    p ← poll_mode_two 100 p.2 100;
    if decide (p.1 = 0) then mret (- ETIMEDOUT)
    else
      ret ← xmm7360_cmd_ring_submit CMD_WAKEUP 0 1 0 0;
      if decide (ret <> 0) then mret ret
      else
        ret ← xmm7360_cmd_ring_submit 0xf0 0x80 0 0 0;
        if decide (ret <> 0) then mret ret
        else
          xmm7360_ding DOORBELL_CMD;;
          ret ← xmm7360_cmd_ring_wait signal_pending;
          if decide (ret <> 0) then mret ret
          else mret 0.

End Handshake.

(** [xmm7360_cmd_ring_free] *)
Definition xmm7360_cmd_ring_free : M unit :=
  s ← get;
  (if bar0 s then mmio_write 0 BAR0_MODE 0 else mret tt);;
  match cp s with
  | Some _ => emit (Release R_control_page)
  | None => mret tt
  end;;
  s ← get;
  put (set_cp None s).

(** ** Probe and remove *)

(** Results of the kernel services whose failure the driver tests *)
Record kernel_calls := {
  pci_enable_device : Z;
  pci_request_region : Z -> Z;     (* by BAR *)
  pci_alloc_irq_vectors : Z;
  pci_irq_vector : Z -> Z;         (* by vector index *)
  request_irq : Z -> Z;            (* by vector index *)
  cdev_device_add : Z -> Z         (* by queue pair *)
}.

Definition zero_td_ring : td_ring :=
  {| size := 0; last_handled := 0; page_size := 0; tds := []; tds_phys := 0;
     pages := []; pages_phys := [] |}.

Definition zero_queue_pair : queue_pair :=
  {| qp_xmm := false; num := 0; open := 0 |}.

(** [kzalloc(sizeof(struct xmm_dev), GFP_KERNEL)]; the PCI device has no
    driver data yet. *)
Definition kzalloc_xmm_dev (brk : Z) : xmm_dev :=
  {| bar0 := false; bar2 := false; irq := replicate 4 0; cp := None;
     cp_phys := 0; td_ring_ := replicate 16 zero_td_ring;
     qp := replicate 8 zero_queue_pair; dma_brk := brk; drvdata := false |}.

(** The first loop of [xmm7360_remove], from queue pair [i] on *)
Fixpoint remove_cdevs (n : nat) (i : Z) : M unit :=
  match n with
  | O => mret tt
  | S n' =>
      q ← get_qp i;
      (if qp_xmm q then emit (Release (R_cdev i)) else mret tt);;
      remove_cdevs n' (i + 1)
  end.

(** The second loop of [xmm7360_remove] *)
Fixpoint free_irqs (n : nat) (i : Z) : M unit :=
  match n with
  | O => mret tt
  | S n' =>
      s ← get;
      v ← deref (irq s !! Z.to_nat i);
      (if decide (v <> 0) then emit (Release (R_irq i)) else mret tt);;
      free_irqs n' (i + 1)
  end.

(** [xmm7360_remove]: [pci_get_drvdata] yields NULL until [pci_set_drvdata]
    has run, and the first loop dereferences the pointer. *)
Definition xmm7360_remove : M unit :=
  s ← get;
  if drvdata s then
    remove_cdevs 8 0;;
    xmm7360_cmd_ring_free;;
    free_irqs 4 0;;
    emit (Release R_irq_vectors);;
    emit (Release (R_region 0));;
    emit (Release (R_region 2));;
    emit (Release R_enabled);;
    emit (Release R_xmm)
  else halt Oops.

(** [xmm7360_create_cdev] *)
Definition xmm7360_create_cdev (k : kernel_calls) (n : Z) : M Z :=
  put_qp n {| qp_xmm := true; num := n; open := 0 |};;
  let ret := cdev_device_add k n in
  if decide (ret <> 0) then mret ret
  else emit (Acquire (R_cdev n));; mret 0.

Section Probe.

Variable k : kernel_calls.
(** [bar2_status j]: what the [j]-th read of [xmm->bar2[0]] returns *)
Variable bar2_status : nat -> Z.
Variable bar2_mode : nat -> Z.
Variable signal_pending : bool.

(** The [request_irq] loop; the result is the last value of [ret] *)
Fixpoint request_irqs (n : nat) (i : Z) : M Z :=
  match n with
  | O => mret 0
  | S n' =>
      s ← get;
      put (set_irq (<[Z.to_nat i := pci_irq_vector k i]> (irq s)) s);;
      let ret := request_irq k i in
      if decide (ret <> 0) then mret ret
      else emit (Acquire (R_irq i));; request_irqs n' (i + 1)
  end.

(** The boot-wait loop, with [n] iterations left: [Some status] when the
    loop is left by [break] or by running out, [None] when it is left by
    [goto fail] (crash dump). *)
Fixpoint poll_status (n j : nat) (status : Z) : M (option Z) :=
  match n with
  | O => mret (Some status)
  | S n' =>
      status ← mmio_read 2 BAR2_STATUS (bar2_status j);
      if decide (status = 0x600df00d) then mret (Some status)
      else if decide (status = 0xbadc0ded) then mret None
      else mdelay 200;; poll_status n' (S j) status
  end.

(** The [create_cdev] loop *)
Fixpoint create_cdevs (n : nat) (i : Z) : M Z :=
  match n with
  | O => mret 0
  | S n' =>
      ret ← xmm7360_create_cdev k i;
      if decide (ret <> 0) then mret ret else create_cdevs n' (i + 1)
  end.

(** [fail: xmm7360_remove(dev); return ret;] *)
Definition fail (ret : Z) : M Z := xmm7360_remove;; mret ret.

(** [xmm7360_probe].  [kzalloc] and [pci_iomap] are taken to succeed. *)
Definition xmm7360_probe : M Z :=
  s ← get;
  put (kzalloc_xmm_dev (dma_brk s));;
  emit (Acquire R_xmm);;
  let ret := pci_enable_device k in
  if decide (ret <> 0) then fail ret
  else
    emit (Acquire R_enabled);;
    let ret := pci_request_region k 0 in
    if decide (ret <> 0) then fail ret
    else
      emit (Acquire (R_region 0));;
      s ← get; put (set_bar0 true s);;
      emit (Acquire (R_iomap 0));;
      let ret := pci_request_region k 2 in
      if decide (ret <> 0) then fail ret
      else
        emit (Acquire (R_region 2));;
        s ← get; put (set_bar2 true s);;
        emit (Acquire (R_iomap 2));;
        let ret := pci_alloc_irq_vectors k in
        if decide (ret < 0) then fail ret
        else
          emit (Acquire R_irq_vectors);;
          ret ← request_irqs 4 0;
          if decide (ret <> 0) then fail ret
          else
            s ← get; put (set_drvdata true s);;
            st ← poll_status 100 0 0;
            match st with
            | None => fail (- EINVAL)
            | Some status =>
                if decide (status <> 0x600df00d) then fail (- EINVAL)
                else
                  (* pci_set_dma_mask: [ret] is still 0 *)
                  ret ← xmm7360_cmd_ring_init bar2_mode signal_pending;
                  if decide (ret <> 0) then fail ret
                  else
                    ret ← create_cdevs 8 0;
                    if decide (ret <> 0) then fail ret
                    else mret ret
            end.

End Probe.

(** Resources held after a trace: taken and not released since *)
#[global] Instance resource_eq_dec : EqDecision resource.
Proof. solve_decision. Defined.

Definition held_step (acc : list resource) (e : event) : list resource :=
  match e with
  | Acquire r => acc ++ [r]
  | Release r => filter (fun x => x <> r) acc
  | _ => acc
  end.

Definition held (t : list event) : list resource := foldl held_step [] t.

(** * Vocabulary of the properties *)

(** ** Sample states *)

(** The device as [xmm7360_probe] leaves it once the modem has consumed the
    two initial commands: windows mapped, control page in place, no ring
    created, all queue pairs closed. *)
Definition attached_dev : xmm_dev :=
  {| bar0 := true; bar2 := true; irq := [33; 34; 35; 36];
     cp := Some zero_control_page; cp_phys := 0x100000;
     td_ring_ := replicate 16 zero_td_ring;
     qp := (fun n => {| qp_xmm := true; num := n; open := 0 |})
             <$> [0; 1; 2; 3; 4; 5; 6; 7];
     dma_brk := 0x101000; drvdata := true |}.

(** The control page and a ring of a state, for states that have them *)
Definition cp_of (s : xmm_dev) : control_page := default zero_control_page (cp s).
Definition ring_of (s : xmm_dev) (ring_id : Z) : td_ring :=
  default zero_td_ring (td_ring_ s !! Z.to_nat ring_id).

(** The final state and the trace of a run *)
Definition state_of {A} (x : res A * xmm_dev * list event) : xmm_dev := x.1.2.
Definition trace_of {A} (x : res A * xmm_dev * list event) : list event := x.2.
Definition result_of {A} (x : res A * xmm_dev * list event) : res A := x.1.1.

(** ** Invariants of the ring protocol *)

(** A ring capacity the driver accepts: a nonzero power of two that fits
    the [u8] field [size] *)
Definition pow2_size (n : Z) : Prop := exists k, 0 <= k <= 7 /\ n = 2 ^ k.

(** Number of descriptors handed to the other side and not yet taken back *)
Definition td_outstanding (n w r : Z) : Z := (w - r) mod n.

(** The view of TD ring [ring_id] in state [s]: the control page [c], the
    ring record, and the two pointers published in the control page *)
Record ring_at (s : xmm_dev) (ring_id : Z) (c : control_page) (ring : td_ring) (w r : Z) : Prop := {
  at_cp : cp s = Some c;
  at_ring : td_ring_ s !! Z.to_nat ring_id = Some ring;
  at_wptr : s_wptr c !! Z.to_nat ring_id = Some w;
  at_rptr : s_rptr c !! Z.to_nat ring_id = Some r
}.

(** A ring as [xmm7360_td_ring_create] builds it and the write, post and
    read paths keep it: power-of-two capacity, one descriptor and one page
    of [page_size] bytes per slot, write pointer and [last_handled] below
    the capacity. *)
Record ring_wf (ring : td_ring) (w : Z) : Prop := {
  wf_size : pow2_size (size ring);
  wf_tds : length (tds ring) = Z.to_nat (size ring);
  wf_pages : length (pages ring) = Z.to_nat (size ring);
  wf_page_len : Forall (fun p => length p = Z.to_nat (page_size ring)) (pages ring);
  wf_page_size : 0 <= page_size ring < 2 ^ 16;
  wf_wptr : 0 <= w < size ring;
  wf_last_handled : 0 <= last_handled ring < size ring
}.

(** State updates made by the ring operations *)
Definition with_ring (ring_id : Z) (ring : td_ring) (s : xmm_dev) : xmm_dev :=
  set_td_ring (<[Z.to_nat ring_id := ring]> (td_ring_ s)) s.
Definition with_s_wptr (ring_id v : Z) (c : control_page) (s : xmm_dev) : xmm_dev :=
  set_cp (Some (set_s_wptr (<[Z.to_nat ring_id := v]> (s_wptr c)) c)) s.

(** The descriptor a send leaves at the write slot *)
Definition sent_td (len : Z) (e : td_ring_entry) : td_ring_entry :=
  {| td_addr := td_addr e; td_length := len; td_flags := 0; td_unk := 0 |}.

(** The ring record after [data] has been sent through slot [w] *)
Definition ring_after_write (w : Z) (data : list byte) (ring : td_ring) : td_ring :=
  match tds ring !! Z.to_nat w, pages ring !! Z.to_nat w with
  | Some e, Some page =>
      set_tds (<[Z.to_nat w := sent_td (Z.of_nat (length data)) e]> (tds ring))
        (set_pages (<[Z.to_nat w := data ++ drop (length data) page]> (pages ring)) ring)
  | _, _ => ring
  end.

(** The ring record after slot [w] has been posted as a receive buffer *)
Definition ring_after_post (w : Z) (ring : td_ring) : td_ring :=
  match tds ring !! Z.to_nat w with
  | Some e => set_tds (<[Z.to_nat w := sent_td (page_size ring) e]> (tds ring)) ring
  | None => ring
  end.

(** The stores of a post of slot [w] of ring [ring_id] *)
Definition post_trace (ring_id w psize next : Z) : list event :=
  [ Store (L_td ring_id w F_td_length) psize;
    Store (L_td ring_id w F_td_flags) 0;
    Store (L_td ring_id w F_td_unk) 0;
    Store (L_s_wptr ring_id) next ].

(** [attached_dev] after queue pair 1 has been opened: rings 2 (send) and
    3 (receive) exist, seven receive slots are posted. *)
Definition opened_dev : xmm_dev := state_of (xmm7360_qp_start 8 1 attached_dev).

(** ** Expected effects of the compound operations *)

(** The MMIO writes of [xmm7360_ding] *)
Definition ding_trace (c : control_page) (bell : Z) : list event :=
  if decide (asleep (cp_status c) = 0) then [MmioWrite 0 BAR0_DOORBELL bell]
  else [MmioWrite 0 BAR0_WAKEUP 1; MmioWrite 0 BAR0_DOORBELL bell].

(** Bus addresses of [n] consecutive pages starting at [base] *)
Fixpoint page_addrs (n : nat) (base psize : Z) : list Z :=
  match n with
  | O => []
  | S n' => base :: page_addrs n' (base + psize) psize
  end.

(** The ring record [xmm7360_td_ring_create] builds when the allocator
    stands at [base] *)
Definition fresh_ring (nsize base : Z) : td_ring :=
  let addrs := page_addrs (Z.to_nat nsize) (base + sizeof_td_ring_entry * nsize) 0x1000 in
  {| size := nsize; last_handled := 0; page_size := 0x1000;
     tds := (fun a => {| td_addr := a; td_length := 0; td_flags := 0; td_unk := 0 |}) <$> addrs;
     tds_phys := base;
     pages := replicate (Z.to_nat nsize) (replicate (Z.to_nat 0x1000) x00);
     pages_phys := addrs |}.

(** The control page after both pointers of ring [rid] are reset *)
Definition reset_ptrs (rid : Z) (c : control_page) : control_page :=
  set_s_rptr (<[Z.to_nat rid := 0]> (s_rptr c))
    (set_s_wptr (<[Z.to_nat rid := 0]> (s_wptr c)) c).

(** State and trace of a [xmm7360_td_ring_create] whose RING_OPEN command
    finds room in the command ring *)
Definition after_create (rid nsize : Z) (c : control_page) (s : xmm_dev) : xmm_dev :=
  set_cp (Some (after_submit CMD_RING_OPEN rid nsize (dma_brk s) 0x60 (reset_ptrs rid c)))
    (with_ring rid (fresh_ring nsize (dma_brk s))
       (set_dma_brk (dma_brk s + sizeof_td_ring_entry * nsize
                     + Z.of_nat (Z.to_nat nsize) * 0x1000) s)).

Definition create_trace (rid nsize : Z) (c : control_page) (s : xmm_dev) : list event :=
  [Store (L_s_wptr rid) 0; Store (L_s_rptr rid) 0]
  ++ submit_trace (c_wptr c) CMD_RING_OPEN rid nsize (dma_brk s) 0x60
  ++ ding_trace c DOORBELL_CMD.

(** [k] consecutive posts starting at slot [w] *)
Fixpoint posted (k : nat) (w : Z) (ring : td_ring) : td_ring :=
  match k with
  | O => ring
  | S k' => posted k' ((w + 1) mod size ring) (ring_after_post w ring)
  end.

Fixpoint posts_trace (k : nat) (ring_id w psize n : Z) : list event :=
  match k with
  | O => []
  | S k' => post_trace ring_id w psize ((w + 1) mod n)
            ++ posts_trace k' ring_id ((w + 1) mod n) psize n
  end.


(** State reached by [xmm7360_qp_start] on closed pair [q] (entry [id] of
    [xmm->qp]) when both RING_OPEN commands find room *)
Definition after_qp_start (id : Z) (q : queue_pair) (c : control_page) (s : xmm_dev) : xmm_dev :=
  let s1 := set_qp (<[Z.to_nat id := set_open 1 q]> (qp s)) s in
  let s2 := after_create (num q * 2) 8 c s1 in
  let s3 := after_create (num q * 2 + 1) 8 (cp_of s2) s2 in
  with_s_wptr (num q * 2 + 1) 7 (cp_of s3)
    (with_ring (num q * 2 + 1) (posted 7 0 (fresh_ring 8 (dma_brk s2))) s3).

(** What one [xmm7360_td_ring_create rid 8] takes from the allocator: the
    descriptor array and eight pages *)
Definition ring_footprint : Z := sizeof_td_ring_entry * 8 + 8 * 0x1000.

(** State reached by [xmm7360_qp_read_user] that handles slot
    [last_handled] of receive ring [rx]: the slot at the write pointer [w]
    is posted, the write pointer moves to [last_handled], and
    [last_handled] moves on by one. *)
Definition after_qp_read (rx w : Z) (c : control_page) (ring : td_ring) (s : xmm_dev) : xmm_dev :=
  with_ring rx
    (set_last_handled ((last_handled ring + 1) mod size ring) (ring_after_post w ring))
    (with_s_wptr rx (last_handled ring) c (with_ring rx (ring_after_post w ring) s)).

(** ** More sample states *)

(** One step of the modem on receive ring [rid], used to build sample
    states: it fills slot [slot] with [data], marks the descriptor complete
    and moves the ring's read pointer past the slot. *)
Definition modem_delivers (rid slot : Z) (data : list byte) (s : xmm_dev) : xmm_dev :=
  let ring := ring_of s rid in
  let c := cp_of s in
  let e := default {| td_addr := 0; td_length := 0; td_flags := 0; td_unk := 0 |}
             (tds ring !! Z.to_nat slot) in
  let page := default [] (pages ring !! Z.to_nat slot) in
  let ring' :=
    set_tds (<[Z.to_nat slot := {| td_addr := td_addr e;
                                   td_length := Z.of_nat (length data);
                                   td_flags := TD_FLAG_COMPLETE;
                                   td_unk := td_unk e |}]> (tds ring))
      (set_pages (<[Z.to_nat slot := data ++ drop (length data) page]> (pages ring)) ring) in
  set_cp (Some (set_s_rptr (<[Z.to_nat rid := (slot + 1) mod size ring]> (s_rptr c)) c))
    (with_ring rid ring' s).

(** [opened_dev] after the modem has delivered four bytes into slot 0 of
    receive ring 3 *)
Definition delivered_dev : xmm_dev :=
  modem_delivers 3 0 [x4f; x4b; x0d; x0a] opened_dev.

(** [attached_dev] with a full command ring: 127 commands wait between the
    read pointer 6 and the write pointer 5 *)
Definition cmd_full_dev : xmm_dev :=
  set_cp (Some {| ctl := ctl zero_control_page;
                  cp_status := cp_status zero_control_page;
                  s_wptr := s_wptr zero_control_page;
                  s_rptr := s_rptr zero_control_page;
                  c_wptr := 5; c_rptr := 6;
                  c_ring := c_ring zero_control_page |}) attached_dev.

(** Stores into command ring entries *)
Definition is_cmd_ring_store (e : event) : bool :=
  match e with
  | Store (L_c_ring _ _) _ => true
  | _ => false
  end.

(** The descriptor and the page of the slot the modem filled *)
Definition delivered_td : td_ring_entry :=
  default {| td_addr := 0; td_length := 0; td_flags := 0; td_unk := 0 |}
    (tds (ring_of delivered_dev 3) !! 0%nat).
Definition delivered_page : list byte :=
  default [] (pages (ring_of delivered_dev 3) !! 0%nat).
Definition pair_1_open : queue_pair := {| qp_xmm := true; num := 1; open := 1 |}.
Definition pair_1_closed : queue_pair := {| qp_xmm := true; num := 1; open := 0 |}.

(** ** Bring-up: sample inputs and expected traces *)

(** Kernel services that all succeed; interrupt vector [i] gets number
    [33 + i]. *)
Definition kernel_ok : kernel_calls :=
  {| pci_enable_device := 0;
     pci_request_region := fun _ => 0;
     pci_alloc_irq_vectors := 4;
     pci_irq_vector := fun i => 33 + i;
     request_irq := fun _ => 0;
     cdev_device_add := fun _ => 0 |}.

(** The device structure when [xmm7360_probe] reaches the boot-wait loop *)
Definition probed_dev (k : kernel_calls) (brk : Z) : xmm_dev :=
  {| bar0 := true; bar2 := true;
     irq := [pci_irq_vector k 0; pci_irq_vector k 1; pci_irq_vector k 2;
             pci_irq_vector k 3];
     cp := None; cp_phys := 0; td_ring_ := replicate 16 zero_td_ring;
     qp := replicate 8 zero_queue_pair; dma_brk := brk; drvdata := true |}.

(** What [xmm7360_probe] does before the boot-wait loop when every kernel
    service succeeds *)
Definition probe_setup_trace : list event :=
  [ Acquire R_xmm; Acquire R_enabled;
    Acquire (R_region 0); Acquire (R_iomap 0);
    Acquire (R_region 2); Acquire (R_iomap 2);
    Acquire R_irq_vectors;
    Acquire (R_irq 0); Acquire (R_irq 1); Acquire (R_irq 2); Acquire (R_irq 3) ].

(** [n] polls of the status register that see neither sentinel, from read
    number [j] on: each is followed by [mdelay(200)] *)
Fixpoint boot_polls (bar2_status : nat -> Z) (n j : nat) : list event :=
  match n with
  | O => []
  | S n' => MmioRead 2 BAR2_STATUS (u32 (bar2_status j)) :: Mdelay 200
            :: boot_polls bar2_status n' (S j)
  end.

(** What [xmm7360_remove] does on [probed_dev] *)
Definition probe_teardown_trace : list event :=
  [ MmioWrite 0 BAR0_MODE 0;
    Release (R_irq 0); Release (R_irq 1); Release (R_irq 2); Release (R_irq 3);
    Release R_irq_vectors; Release (R_region 0); Release (R_region 2);
    Release R_enabled; Release R_xmm ].

(** The status word is neither of the two sentinels *)
Definition still_booting (v : Z) : Prop :=
  u32 v <> 0x600df00d /\ u32 v <> 0xbadc0ded.

(** Number of reads of a register, and of sleeps, in a trace *)
Definition is_read_of (reg : Z) (e : event) : bool :=
  match e with
  | MmioRead 2 r _ => bool_decide (r = reg)
  | _ => false
  end.
Definition is_sleep (e : event) : bool :=
  match e with
  | Msleep _ => true
  | Mdelay _ => true
  | _ => false
  end.
Definition count_events (p : event -> bool) (t : list event) : nat :=
  length (filter (fun e => p e = true) t).

(** Every kernel service the probe relies on succeeds, and the interrupt
    numbers are nonzero *)
Definition kernel_succeeds (k : kernel_calls) : Prop :=
  pci_enable_device k = 0
  /\ pci_request_region k 0 = 0
  /\ pci_request_region k 2 = 0
  /\ 0 <= pci_alloc_irq_vectors k
  /\ (forall i, 0 <= i < 4 -> request_irq k i = 0 /\ pci_irq_vector k i <> 0).

(** ** The write pointer stays inside the ring *)

(** Two ring records with the same capacity and as many descriptors and
    pages *)
Definition same_shape (r1 r2 : td_ring) : Prop :=
  size r1 = size r2
  /\ length (tds r1) = length (tds r2)
  /\ length (pages r1) = length (pages r2).

(** What a write, a user write or a post can leave behind on ring
    [ring_id], seen from the state [s] it started in: nothing changed; only
    the ring record changed (shape kept), write pointer not published; or
    the ring record changed (shape kept) and the advanced pointer [next]
    was published by a normal return. *)
Definition ring_op_outcome (s : xmm_dev) (ring_id : Z) (c : control_page)
    (ring : td_ring) (next : Z) (x : res unit * xmm_dev * list event) : Prop :=
  state_of x = s
  \/ (exists ring', same_shape ring' ring
        /\ state_of x = with_ring ring_id ring' s
        /\ result_of x <> Ok tt)
  \/ (exists ring', same_shape ring' ring
        /\ state_of x = with_s_wptr ring_id next c (with_ring ring_id ring' s)
        /\ result_of x = Ok tt).

(** The write pointer of ring [ring_id] published in state [s'] *)
Definition published_wptr (s' : xmm_dev) (ring_id : Z) : option Z :=
  c ← cp s'; s_wptr c !! Z.to_nat ring_id.

(** A command ring holding three unconsumed commands in slots 5, 6, 7 *)
Definition cp_three_pending : control_page :=
  set_c_wptr 8 (set_c_ring (replicate 128 zero_cmd_ring_entry)
    {| ctl := ctl zero_control_page; cp_status := cp_status zero_control_page;
       s_wptr := s_wptr zero_control_page; s_rptr := s_rptr zero_control_page;
       c_wptr := 0; c_rptr := 5; c_ring := [] |}).

(** * Further parts of the driver *)

(** ** Interrupt handlers *)

(** [xmm7360_dump]: prints the status code, the sleep flag, the command
    ring pointers and the pointers of rings 2 and 3.  It changes nothing,
    but every value is read through [xmm->cp].  Where the control page is
    in place the call has no effect at all, which is why the calls made by
    [xmm7360_cmd_ring_init] after it has installed the page do not show in
    its embedding. *)
Definition xmm7360_dump : M unit :=
  _ ← get_cp;
  _ ← load_s_rptr 2;
  _ ← load_s_wptr 2;
  _ ← load_s_rptr 3;
  _ ← load_s_wptr 3;
  mret tt.

(** The wait queues of the driver: [xmm->wq] and [xmm->qp[id].wq] *)
Inductive wait_queue :=
| WQ_xmm
| WQ_qp (id : Z).

Definition IRQ_HANDLED : Z := 1.

(** The loop of [xmm7360_irq0] over the queue pairs, with [n] pairs left
    from index [id] on: how it ends and the queues it has woken, in
    order *)
Fixpoint wake_open_pairs (n : nat) (id : Z) (s : xmm_dev) : res unit * list wait_queue :=
  match n with
  | O => (Ok tt, [])
  | S n' =>
      match qp s !! Z.to_nat id with
      | None => (Stop Oops, [])
      | Some q =>
          let '(r, woken) := wake_open_pairs n' (id + 1) s in
          (r, if decide (open q <> 0) then WQ_qp id :: woken else woken)
      end
  end.

(** [xmm7360_irq0]: the C result and the wait queues woken, in order.  The
    handler changes nothing in the driver state.  The test
    [if (xmm->td_ring)] is on the address of an array member and always
    true. *)
Definition xmm7360_irq0 (s : xmm_dev) : res Z * list wait_queue :=
  match xmm7360_dump s with
  | (Ok _, _, _) =>
      let '(r, woken) := wake_open_pairs 8 0 s in
      (match r with Ok _ => Ok IRQ_HANDLED | Stop e => Stop e end, WQ_xmm :: woken)
  | (Stop e, _, _) => (Stop e, [WQ_xmm])
  end.

(** [xmm7360_irq], the handler of the other three vectors: it logs its
    arguments and returns *)
Definition xmm7360_irq (irq : Z) : Z := IRQ_HANDLED.


(** ** Vocabulary of the further properties *)

(** Number of commands queued in the command ring and not yet consumed *)
Definition cmd_pending (c : control_page) : Z :=
  td_outstanding CMD_RING_SIZE (c_wptr c) (c_rptr c).

(** The ring record [xmm7360_td_ring_destroy] leaves behind *)
Definition ring_after_destroy (ring : td_ring) : td_ring :=
  {| size := 0; last_handled := last_handled ring; page_size := page_size ring;
     tds := []; tds_phys := tds_phys ring; pages := []; pages_phys := [] |}.

(** State reached by [xmm7360_qp_stop] on open pair [q] (entry [id] of
    [xmm->qp]) with rings [ra] (send) and [rb] (receive) when both
    RING_CLOSE commands find room *)
Definition after_qp_stop (id : Z) (q : queue_pair) (c : control_page)
    (ra rb : td_ring) (s : xmm_dev) : xmm_dev :=
  let c1 := after_submit CMD_RING_CLOSE (num q * 2) 0 0 0 c in
  let c2 := after_submit CMD_RING_CLOSE (num q * 2 + 1) 0 0 0 c1 in
  with_ring (num q * 2 + 1) (ring_after_destroy rb)
    (with_ring (num q * 2) (ring_after_destroy ra)
       (set_cp (Some c2) (set_qp (<[Z.to_nat id := set_open 0 q]> (qp s)) s))).

(** The shape in which the open and read paths keep a receive ring: well
    formed, with the write pointer one slot behind [last_handled] *)
Definition rx_invariant (s : xmm_dev) (rx : Z) : Prop :=
  exists c ring w r,
    ring_at s rx c ring w r /\ ring_wf ring w
    /\ (w + 1) mod size ring = last_handled ring.

(** Send ring 2 of [opened_dev] with its write pointer moved to slot 7, one
    slot behind the read pointer: the ring is full *)
Definition send_full_dev : xmm_dev := with_s_wptr 2 7 (cp_of opened_dev) opened_dev.

(** [delivered_dev] with the length field of the delivered descriptor
    raised to 0xffff, above the page size *)
Definition overlong_dev : xmm_dev :=
  with_ring 3
    (set_tds (<[0%nat := {| td_addr := td_addr delivered_td; td_length := 0xffff;
                            td_flags := TD_FLAG_COMPLETE; td_unk := td_unk delivered_td |}]>
                (tds (ring_of delivered_dev 3)))
       (ring_of delivered_dev 3))
    delivered_dev.

(** ** Handshake: expected states and traces *)

(** The control page as [xmm7360_cmd_ring_init] publishes it: zeroed, with
    the table of bus addresses filled in for a page at [phys] *)
Definition init_control_page (phys : Z) : control_page :=
  set_ctl {| ctl_status := phys + offsetof_status;
             ctl_s_wptr := phys + offsetof_s_wptr;
             ctl_s_rptr := phys + offsetof_s_rptr;
             ctl_c_wptr := phys + offsetof_c_wptr;
             ctl_c_rptr := phys + offsetof_c_rptr;
             ctl_c_ring := phys + offsetof_c_ring;
             c_ring_size := CMD_RING_SIZE |} zero_control_page.

(** The device once the control page is allocated at the allocator's next
    address and installed *)
Definition with_control_page (c : control_page) (s : xmm_dev) : xmm_dev :=
  set_cp (Some c)
    (set_cp_phys (dma_brk s) (set_dma_brk (dma_brk s + sizeof_control_page) s)).

(** What [xmm7360_cmd_ring_init] does before its first poll *)
Definition init_setup_trace (phys : Z) : list event :=
  [ Acquire R_control_page;
    MmioWrite 2 BAR2_CONTROL (u32 phys);
    MmioWrite 2 BAR2_CONTROLH (u32 (Z.shiftr phys 32));
    MmioWrite 0 BAR0_MODE 1 ].

(** [n] reads of the mode register that are each followed by
    [msleep(10)], from read number [k] on *)
Fixpoint mode_polls (bar2_mode : nat -> Z) (n k : nat) : list event :=
  match n with
  | O => []
  | S n' => MmioRead 2 BAR2_MODE (u32 (bar2_mode k)) :: Msleep 10
            :: mode_polls bar2_mode n' (S k)
  end.

(** What [xmm7360_cmd_ring_init] does between its two polls *)
Definition init_enable_trace : list event :=
  [ MmioWrite 2 BAR2_BLANK0 0; MmioWrite 2 BAR2_BLANK1 0;
    MmioWrite 2 BAR2_BLANK2 0; MmioWrite 2 BAR2_BLANK3 0;
    MmioWrite 0 BAR0_MODE 2 ].

(** The control page with the two commands [xmm7360_cmd_ring_init] queues *)
Definition init_commands (c : control_page) : control_page :=
  after_submit 0xf0 0x80 0 0 0 (after_submit CMD_WAKEUP 0 1 0 0 c).

(** ** Teardown: expected traces *)

(** The releases the first loop of [xmm7360_remove] makes for the pairs
    [l], the first of which has index [i] *)
Fixpoint cdev_releases (l : list queue_pair) (i : Z) : list event :=
  match l with
  | [] => []
  | q :: l' => (if qp_xmm q then [Release (R_cdev i)] else [])
               ++ cdev_releases l' (i + 1)
  end.

(** The releases its second loop makes for the interrupt numbers [l] *)
Fixpoint irq_releases (l : list Z) (i : Z) : list event :=
  match l with
  | [] => []
  | v :: l' => (if decide (v <> 0) then [Release (R_irq i)] else [])
               ++ irq_releases l' (i + 1)
  end.

(** The releases that end [xmm7360_remove] *)
Definition remove_tail_trace : list event :=
  [ Release R_irq_vectors; Release (R_region 0); Release (R_region 2);
    Release R_enabled; Release R_xmm ].

(** ** Character devices: expected states and traces *)

(** The queue pair [xmm7360_create_cdev] sets up for index [n] *)
Definition fresh_pair (n : Z) : queue_pair :=
  {| qp_xmm := true; num := n; open := 0 |}.

(** The pairs after [n] consecutive [xmm7360_create_cdev] calls from index
    [i] on *)
Fixpoint init_pairs (n : nat) (i : Z) (l : list queue_pair) : list queue_pair :=
  match n with
  | O => l
  | S n' => init_pairs n' (i + 1) (<[Z.to_nat i := fresh_pair i]> l)
  end.

(** The acquisitions of [n] successful [cdev_device_add] calls *)
Fixpoint cdev_acquires (n : nat) (i : Z) : list event :=
  match n with
  | O => []
  | S n' => Acquire (R_cdev i) :: cdev_acquires n' (i + 1)
  end.

(** ** Bring-up: more sample inputs *)

(** Kernel services of which the first, [pci_enable_device], fails *)
Definition kernel_no_device : kernel_calls :=
  {| pci_enable_device := - ENODEV;
     pci_request_region := fun _ => 0;
     pci_alloc_irq_vectors := 4;
     pci_irq_vector := fun i => 33 + i;
     request_irq := fun _ => 0;
     cdev_device_add := fun _ => 0 |}.

(** Kernel services that succeed except [cdev_device_add] for pair 2 *)
Definition kernel_cdev_2_fails : kernel_calls :=
  {| pci_enable_device := 0;
     pci_request_region := fun _ => 0;
     pci_alloc_irq_vectors := 4;
     pci_irq_vector := fun i => 33 + i;
     request_irq := fun _ => 0;
     cdev_device_add := fun n => if decide (n = 2) then - ENOMEM else 0 |}.

(** ** Independence of the queue pairs *)

(** What belongs to the queue pairs other than entry [id] of [xmm->qp],
    whose rings are [2n] and [2n+1], is the same in [s] and [s']: the
    other entries of [xmm->qp], the other rings, and the pointers of the
    other rings in the control page *)
Definition others_untouched (id n : Z) (s s' : xmm_dev) : Prop :=
  (forall i : nat, i <> Z.to_nat id -> qp s' !! i = qp s !! i)
  /\ (forall rid : nat,
        rid <> Z.to_nat (n * 2) -> rid <> Z.to_nat (n * 2 + 1) ->
        td_ring_ s' !! rid = td_ring_ s !! rid
        /\ s_wptr (cp_of s') !! rid = s_wptr (cp_of s) !! rid
        /\ s_rptr (cp_of s') !! rid = s_rptr (cp_of s) !! rid).

(** * Properties *)

(** ** Tactics for running driver code *)

Ltac munfold :=
  unfold store_td, store_s_wptr, store_s_rptr, load_s_wptr, load_s_rptr,
    mmio_write, mmio_read, msleep, mdelay, BUG_ON,
    get_cp, put_cp, get_ring, put_ring, get_qp, put_qp, deref,
    get, put, emit, halt, mbind, M_bind, mret, M_ret.

Ltac mreduce :=
  cbn [set_cp set_td_ring set_qp set_dma_brk set_bar0 set_bar2 set_irq
       set_cp_phys set_drvdata
       cp td_ring_ qp bar0 bar2 irq dma_brk drvdata cp_phys
       set_s_wptr set_s_rptr set_c_wptr set_c_ring set_ctl
       s_wptr s_rptr c_wptr c_rptr c_ring cp_status ctl
       set_tds set_pages set_last_handled
       size last_handled page_size tds pages tds_phys pages_phys
       fst snd app state_of trace_of result_of with_ring with_s_wptr].

Ltac msimpl := munfold; mreduce.

(** Closed goals about sample states: evaluate, then read off the result *)
Ltac by_compute :=
  vm_compute;
  repeat match goal with |- _ /\ _ => split end;
  first [ reflexivity | exact I | let H := fresh in intros H; discriminate H ].


Lemma u8_small x : 0 <= x < 2 ^ 8 -> u8 x = x.
Proof. intros H. unfold u8. apply Z.mod_small. exact H. Qed.

Lemma u8_mod_128 x : u8 (x mod CMD_RING_SIZE) = x mod CMD_RING_SIZE.
Proof.
  apply u8_small. unfold CMD_RING_SIZE.
  pose proof (Z.mod_pos_bound x 128). lia.
Qed.

Lemma store_c_ring_run s c i f v e :
  cp s = Some c -> c_ring c !! Z.to_nat i = Some e ->
  store_c_ring i f v s =
    (Ok tt, set_cp (Some (set_c_ring (<[Z.to_nat i := set_cmd_field f v e]> (c_ring c)) c)) s,
     [Store (L_c_ring i f) v]).
Proof.
  intros Hc He. unfold store_c_ring, get_cp, put_cp, get, put, emit, deref.
  unfold mbind, M_bind, mret, M_ret. rewrite Hc. simpl. rewrite He. simpl.
  reflexivity.
Qed.

Lemma cmd_outstanding_not_wptr c i :
  0 <= c_wptr c < CMD_RING_SIZE -> cmd_outstanding c i -> i <> c_wptr c.
Proof.
  unfold cmd_outstanding, CMD_RING_SIZE. intros Hw (k & Hk & ->) Heq.
  set (w := c_wptr c) in *. set (r := c_rptr c) in *.
  assert (Hm : (w - r) mod 128 = k mod 128).
  { pose proof (Z.div_mod (r + k) 128 ltac:(lia)) as Hd.
    replace (w - r) with (k + (- ((r + k) / 128)) * 128) by lia.
    apply Z_mod_plus_full. }
  pose proof (Z.mod_pos_bound (w - r) 128 ltac:(lia)).
  rewrite (Z.mod_small k 128) in Hm by lia. lia.
Qed.

Lemma store_c_wptr_run s c v :
  cp s = Some c ->
  store_c_wptr v s = (Ok tt, set_cp (Some (set_c_wptr v c)) s, [Store L_c_wptr v]).
Proof.
  intros Hc. unfold store_c_wptr, get_cp, put_cp, get, put, emit, deref.
  unfold mbind, M_bind, mret, M_ret. rewrite Hc. reflexivity.
Qed.

(** Running a computation after one whose outcome is known *)
Lemma bind_ok {A B} (m : M A) (f : A -> M B) s a s1 t1 :
  m s = (Ok a, s1, t1) ->
  (m ≫= f) s = (let '(r, s2, t2) := f a s1 in (r, s2, t1 ++ t2)).
Proof. intros H. unfold mbind, M_bind. rewrite H. reflexivity. Qed.

Lemma bind_stop {A B} (m : M A) (f : A -> M B) s e s1 t1 :
  m s = (Stop e, s1, t1) -> (m ≫= f) s = (Stop e, s1, t1).
Proof. intros H. unfold mbind, M_bind. rewrite H. reflexivity. Qed.

Lemma get_cp_run s c : cp s = Some c -> get_cp s = (Ok c, s, []).
Proof.
  intros Hc. unfold get_cp, get, deref, mbind, M_bind, mret, M_ret.
  rewrite Hc. reflexivity.
Qed.

Lemma submit_full s c cmd parm len ptr extra :
  cp s = Some c ->
  (c_wptr c + 1) mod CMD_RING_SIZE = c_rptr c ->
  xmm7360_cmd_ring_submit cmd parm len ptr extra s = (Ok (- EAGAIN), s, []).
Proof.
  intros Hc Hfull. unfold xmm7360_cmd_ring_submit.
  rewrite (bind_ok _ _ _ _ _ _ (get_cp_run s c Hc)).
  assert (Hn : u8 ((u8 (c_wptr c) + 1) mod CMD_RING_SIZE) = c_rptr c).
  { rewrite u8_mod_128. unfold u8, CMD_RING_SIZE in *.
    rewrite <- Hfull. 
    rewrite <- (Zplus_mod_idemp_l (c_wptr c) 1 128).
    rewrite <- (Zplus_mod_idemp_l (c_wptr c mod 2 ^ 8) 1 128).
    f_equal. f_equal.
    apply Z.mod_mod_divide. exists 2. reflexivity. }
  destruct (decide _) as [_ | Hne]; [reflexivity | contradiction].
Qed.

Lemma submit_ok s c cmd parm len ptr extra :
  cp s = Some c -> cmd_ring_wf c ->
  (c_wptr c + 1) mod CMD_RING_SIZE <> c_rptr c ->
  xmm7360_cmd_ring_submit cmd parm len ptr extra s =
    (Ok 0, set_cp (Some (after_submit cmd parm len ptr extra c)) s,
     submit_trace (c_wptr c) cmd parm len ptr extra).
Proof.
  intros Hc [Hlen Hw] Hroom. unfold xmm7360_cmd_ring_submit.
  rewrite (bind_ok _ _ _ _ _ _ (get_cp_run s c Hc)).
  assert (Hu : u8 (c_wptr c) = c_wptr c)
    by (apply u8_small; unfold CMD_RING_SIZE in Hw; lia).
  rewrite Hu, u8_mod_128.
  destruct (decide _) as [Heq | _]; [contradiction |].
  assert (Hin : (Z.to_nat (c_wptr c) < length (c_ring c))%nat)
    by (rewrite Hlen; unfold CMD_RING_SIZE in *; lia).
  destruct (lookup_lt_is_Some_2 _ _ Hin) as [e0 He0].
  unfold store_c_ring, store_c_wptr, get_cp, put_cp, get, put, emit, deref.
  unfold mbind, M_bind, mret, M_ret.
  rewrite Hc. simpl. rewrite He0. simpl.
  repeat (rewrite list_lookup_insert_eq by (rewrite ?length_insert; exact Hin); simpl).
  unfold after_submit, submit_trace, submitted_entry.
  rewrite !list_insert_insert_eq.
  destruct s; reflexivity.
Qed.

(** ** Command ring *)

(** C1.  On a well-formed command ring (128 entries, host write pointer
    below 128), [xmm7360_cmd_ring_submit] computes
    [next = (c_wptr + 1) mod 128].  If [next] equals the read pointer it
    returns [-EAGAIN] at once: no store is made and the state, write pointer
    included, is unchanged.  Otherwise it returns 0 after storing, in this
    order, the fields [ptr], [cmd], [parm], [len], [extra], [unk] and
    [flags = READY] of the entry at the old write pointer and, as the last
    store, the new write pointer; the entry at the old write pointer holds
    the submitted command, every other entry is unchanged, and so is every
    entry the modem has not consumed yet. *)
Theorem cmd_ring_submit_spec (s : xmm_dev) (c : control_page) (cmd parm len ptr extra : Z) :
  cp s = Some c -> cmd_ring_wf c ->
  let next := (c_wptr c + 1) mod CMD_RING_SIZE in
  let w := c_wptr c in
  let run := xmm7360_cmd_ring_submit cmd parm len ptr extra s in
  (next = c_rptr c -> run = (Ok (- EAGAIN), s, []))
  /\ (next <> c_rptr c ->
      exists c',
        run = (Ok 0, set_cp (Some c') s,
               [ Store (L_c_ring w F_ptr) ptr;
                 Store (L_c_ring w F_cmd) cmd;
                 Store (L_c_ring w F_parm) parm;
                 Store (L_c_ring w F_len) len;
                 Store (L_c_ring w F_extra) extra;
                 Store (L_c_ring w F_unk) 0;
                 Store (L_c_ring w F_flags) CMD_FLAG_READY;
                 Store L_c_wptr next ])
        /\ c_wptr c' = next
        /\ c_rptr c' = c_rptr c
        /\ cmd_ring_wf c'
        /\ c_ring c' !! Z.to_nat w = Some (submitted_entry cmd parm len ptr extra)
        /\ (forall i : nat, i <> Z.to_nat w -> c_ring c' !! i = c_ring c !! i)
        /\ (forall i : Z, cmd_outstanding c i ->
               c_ring c' !! Z.to_nat i = c_ring c !! Z.to_nat i)).
Proof.
  intros Hc Hwf next w run. split.
  - intros Hfull. apply (submit_full s c); assumption.
  - intros Hroom. exists (after_submit cmd parm len ptr extra c).
    destruct Hwf as [Hlen Hw].
    assert (Hin : (Z.to_nat w < length (c_ring c))%nat)
      by (rewrite Hlen; unfold w, CMD_RING_SIZE in *; lia).
    split; [ apply submit_ok; [assumption | split; assumption | assumption] |].
    split; [reflexivity |]. split; [reflexivity |].
    split.
    { split; simpl; [ rewrite length_insert; exact Hlen |].
      apply Z.mod_pos_bound. reflexivity. }
    split; [ simpl; apply list_lookup_insert_eq; exact Hin |].
    split.
    { intros i Hi. simpl. apply list_lookup_insert_ne. lia. }
    intros i Hout. simpl. apply list_lookup_insert_ne.
    pose proof (cmd_outstanding_not_wptr c i Hw Hout) as Hne.
    destruct Hout as (k & Hk & ->). fold w in Hne. 
    pose proof (Z.mod_pos_bound (c_rptr c + k) CMD_RING_SIZE ltac:(reflexivity)).
    unfold w in *. lia.
Qed.

Lemma cmd_ring_submit_spec_witness :
  cp (set_cp (Some cp_three_pending) attached_dev) = Some cp_three_pending
  /\ cmd_ring_wf cp_three_pending
  /\ result_of (xmm7360_cmd_ring_submit CMD_RING_OPEN 2 8 0x1000 0x60
                  (set_cp (Some cp_three_pending) attached_dev)) = Ok 0.
Proof.
  assert (H1 : cp (set_cp (Some cp_three_pending) attached_dev) = Some cp_three_pending)
    by reflexivity.
  assert (H2 : cmd_ring_wf cp_three_pending)
    by (split; by_compute).
  split; [exact H1 | split; [exact H2 |]].
  destruct (cmd_ring_submit_spec _ _ CMD_RING_OPEN 2 8 0x1000 0x60 H1 H2) as [_ Hok].
  destruct Hok as (c' & Hrun & _); [by_compute |].
  rewrite Hrun. reflexivity.
Defined.

(** ** TD rings: pointer arithmetic *)

Lemma pow2_size_pos n : pow2_size n -> 1 <= n <= 128.
Proof.
  intros (k & Hk & ->). split.
  - change 1 with (2 ^ 0). apply Z.pow_le_mono_r; lia.
  - change 128 with (2 ^ 7). apply Z.pow_le_mono_r; lia.
Qed.

Lemma land_pow2_mod a n : pow2_size n -> Z.land a (n - 1) = a mod n.
Proof.
  intros (k & Hk & ->). rewrite <- Z.land_ones by lia.
  rewrite Z.ones_equiv. reflexivity.
Qed.

Lemma pow2_size_divides_256 n : pow2_size n -> (n | 2 ^ 8).
Proof.
  intros (k & Hk & ->). exists (2 ^ (8 - k)).
  rewrite <- Z.pow_add_r by lia. f_equal. lia.
Qed.

(** The pointer advance written in the four ring functions is addition of
    one modulo the capacity, whatever 32-bit value the pointer holds *)
Lemma advance_is_mod n w :
  pow2_size n -> u8 (Z.land (u8 w + 1) (n - 1)) = (w + 1) mod n.
Proof.
  intros Hn. pose proof (pow2_size_pos n Hn) as Hpos.
  rewrite land_pow2_mod by assumption.
  assert (E : (u8 w + 1) mod n = (w + 1) mod n).
  { rewrite <- (Zplus_mod_idemp_l (u8 w)), <- (Zplus_mod_idemp_l w).
    f_equal. f_equal. unfold u8. apply Z.mod_mod_divide.
    apply pow2_size_divides_256. assumption. }
  rewrite E. apply u8_small.
  pose proof (Z.mod_pos_bound (w + 1) n ltac:(lia)). lia.
Qed.

Lemma advance_small_is_mod n i :
  pow2_size n -> 0 <= i < 2 ^ 8 -> u8 (Z.land (i + 1) (n - 1)) = (i + 1) mod n.
Proof.
  intros Hn Hi. rewrite <- (advance_is_mod n i Hn).
  rewrite (u8_small i) by exact Hi. reflexivity.
Qed.

Lemma full_iff_outstanding n w r :
  0 < n -> 0 <= w < n -> 0 <= r < n ->
  (w + 1) mod n = r <-> td_outstanding n w r = n - 1.
Proof.
  intros Hn Hw Hr. unfold td_outstanding.
  destruct (decide (w + 1 = n)) as [E | E].
  - replace (w + 1) with n by lia. rewrite Z.mod_same by lia.
    split; intros H.
    + subst r. rewrite Z.sub_0_r. rewrite Z.mod_small by lia. lia.
    + destruct (decide (r = 0)) as [-> | Hr0]; [reflexivity |].
      exfalso. rewrite Z.mod_small in H by lia. lia.
  - rewrite (Z.mod_small (w + 1)) by lia.
    split; intros H.
    + subst r. replace (w - (w + 1)) with (n - 1 + (-1) * n) by lia.
      rewrite Z_mod_plus_full. apply Z.mod_small. lia.
    + destruct (decide (r <= w)) as [Hle | Hgt].
      * rewrite Z.mod_small in H by lia. lia.
      * replace (w - r) with (w - r + n + (-1) * n) in H by lia.
        rewrite Z_mod_plus_full, Z.mod_small in H by lia. lia.
Qed.

Lemma outstanding_advance n w r :
  0 < n -> 0 <= w < n -> 0 <= r < n -> (w + 1) mod n <> r ->
  td_outstanding n ((w + 1) mod n) r = td_outstanding n w r + 1
  /\ td_outstanding n w r + 1 <= n - 1.
Proof.
  intros Hn Hw Hr Hnf.
  assert (Hlt : td_outstanding n w r < n - 1).
  { pose proof (full_iff_outstanding n w r Hn Hw Hr) as Hiff.
    pose proof (Z.mod_pos_bound (w - r) n Hn). unfold td_outstanding in *.
    destruct (decide ((w - r) mod n = n - 1)); [tauto | lia]. }
  split; [| lia]. unfold td_outstanding in *.
  rewrite Zminus_mod_idemp_l.
  replace (w + 1 - r) with ((w - r) + 1) by lia.
  rewrite <- Zplus_mod_idemp_l.
  apply Z.mod_small. pose proof (Z.mod_pos_bound (w - r) n Hn). lia.
Qed.

(** ** TD rings: running the operations *)

Section RingRuns.

Variables (s : xmm_dev) (ring_id : Z) (c : control_page) (ring : td_ring) (w r : Z).
Hypothesis Hat : ring_at s ring_id c ring w r.

Lemma td_ring_full_run :
  xmm7360_td_ring_full ring_id s =
    (Ok (if decide (u8 (Z.land (u8 w + 1) (size ring - 1)) = r) then 1 else 0), s, []).
Proof.
  destruct Hat as [Hc Hr Hw Hrp].
  unfold xmm7360_td_ring_full. msimpl. rewrite Hr. msimpl.
  rewrite Hc. msimpl. rewrite Hw. msimpl. rewrite Hc. msimpl. rewrite Hrp.
  msimpl. reflexivity.
Qed.

(** Three descriptor stores at one slot amount to one update; [k] is
    the rest of the function *)
Lemma fill_td_run {B} (k : M B) (s0 : xmm_dev) (ring0 : td_ring) (slot v : Z) (e : td_ring_entry) :
  td_ring_ s0 !! Z.to_nat ring_id = Some ring0 ->
  tds ring0 !! Z.to_nat slot = Some e ->
  (store_td ring_id slot F_td_length v;;
   store_td ring_id slot F_td_flags 0;;
   store_td ring_id slot F_td_unk 0;; k) s0 =
    (let '(res, s2, t2) :=
       k (with_ring ring_id
            (set_tds (<[Z.to_nat slot := sent_td v e]> (tds ring0)) ring0) s0) in
     (res, s2,
      [ Store (L_td ring_id slot F_td_length) v;
        Store (L_td ring_id slot F_td_flags) 0;
        Store (L_td ring_id slot F_td_unk) 0 ] ++ t2)).
Proof.
  intros Hr He.
  assert (Hi : (Z.to_nat ring_id < length (td_ring_ s0))%nat)
    by (apply lookup_lt_is_Some; eauto).
  assert (Hj : (Z.to_nat slot < length (tds ring0))%nat)
    by (apply lookup_lt_is_Some; eauto).
  msimpl. rewrite Hr. mreduce. rewrite He. mreduce.
  rewrite list_lookup_insert_eq by exact Hi. mreduce.
  rewrite list_lookup_insert_eq by exact Hj. mreduce.
  rewrite list_lookup_insert_eq by (rewrite length_insert; exact Hi). mreduce.
  rewrite list_lookup_insert_eq by (rewrite length_insert; exact Hj). mreduce.
  rewrite !list_insert_insert_eq.
  unfold sent_td, set_td_field. mreduce.
  destruct (k _) as [[res s2] t2]. reflexivity.
Qed.

(** The pointer check and publish that end a write or a post *)
Lemma publish_run (s0 : xmm_dev) (next : Z) :
  cp s0 = Some c -> next <> r ->
  (r0 ← load_s_rptr ring_id;
   BUG_ON (bool_decide (next = r0)) Bug_overrun;;
   store_s_wptr ring_id next) s0 =
    (Ok tt, with_s_wptr ring_id next c s0, [Store (L_s_wptr ring_id) next]).
Proof.
  intros Hc0 Hne. destruct Hat as [_ _ Hw Hrp].
  msimpl. rewrite Hc0. mreduce. rewrite Hrp. mreduce.
  rewrite bool_decide_false by exact Hne. mreduce.
  rewrite Hc0. mreduce. rewrite Hw. mreduce. reflexivity.
Qed.

(** When the advanced pointer meets the read pointer the assertion fires
    and the pointer is not published *)
Lemma publish_overrun (s0 : xmm_dev) :
  cp s0 = Some c ->
  (r0 ← load_s_rptr ring_id;
   BUG_ON (bool_decide (r = r0)) Bug_overrun;;
   store_s_wptr ring_id r) s0 = (Stop (BUG Bug_overrun), s0, []).
Proof.
  intros Hc0. destruct Hat as [_ _ Hw Hrp].
  msimpl. rewrite Hc0. mreduce. rewrite Hrp. mreduce.
  rewrite bool_decide_true by reflexivity. reflexivity.
Qed.

(** [xmm7360_td_ring_read] on an existing receive ring whose advanced
    write pointer differs from the read pointer *)
Lemma td_ring_read_run (e : td_ring_entry) :
  size ring <> 0 -> Z.land ring_id 1 <> 0 ->
  tds ring !! Z.to_nat (u8 w) = Some e ->
  u8 (Z.land (u8 w + 1) (size ring - 1)) <> r ->
  xmm7360_td_ring_read ring_id s =
    (Ok tt,
     with_s_wptr ring_id (u8 (Z.land (u8 w + 1) (size ring - 1))) c
       (with_ring ring_id
          (set_tds (<[Z.to_nat (u8 w) := sent_td (page_size ring) e]> (tds ring)) ring) s),
     post_trace ring_id (u8 w) (page_size ring)
       (u8 (Z.land (u8 w + 1) (size ring - 1)))).
Proof.
  intros Hsz Hodd He Hnf. pose proof Hat as [Hc Hr Hw Hrp].
  unfold xmm7360_td_ring_read.
  rewrite (bind_ok (get_ring ring_id) _ s ring s [])
    by (msimpl; rewrite Hr; reflexivity).
  rewrite (bind_ok (load_s_wptr ring_id) _ s w s [])
    by (msimpl; rewrite Hc; mreduce; rewrite Hw; reflexivity).
  rewrite decide_False by exact Hsz. rewrite decide_False by exact Hodd.
  rewrite (fill_td_run _ s ring (u8 w) (page_size ring) e Hr He).
  rewrite publish_run by (first [exact Hnf | exact Hc]).
  reflexivity.
Qed.

Lemma copy_to_page_run {B} (k : M B) (user : bool) (slot : Z) (data page : list byte) :
  pages ring !! Z.to_nat slot = Some page ->
  (length data <= length page)%nat ->
  (copy_to_page user ring_id slot data (Z.of_nat (length data));; k) s =
    (let '(res, s2, t2) :=
       k (with_ring ring_id
            (set_pages (<[Z.to_nat slot := data ++ drop (length data) page]> (pages ring)) ring) s) in
     (res, s2, StorePage ring_id slot data :: t2)).
Proof.
  intros Hp Hlen. destruct Hat as [Hc Hr Hw Hrp].
  unfold copy_to_page. msimpl. rewrite Hr. mreduce. rewrite Hp. mreduce.
  rewrite decide_True by lia. rewrite decide_True by (left; lia).
  rewrite Nat2Z.id, Nat.sub_diag, firstn_all. cbn [replicate].
  rewrite app_nil_r. mreduce.
  destruct (k _) as [[res s2] t2]. reflexivity.
Qed.

End RingRuns.

Lemma with_ring_twice ring_id r1 r2 s :
  with_ring ring_id r2 (with_ring ring_id r1 s) = with_ring ring_id r2 s.
Proof.
  unfold with_ring. mreduce. rewrite list_insert_insert_eq. reflexivity.
Qed.

Lemma ring_at_with_ring s ring_id c ring w r ring' :
  ring_at s ring_id c ring w r ->
  ring_at (with_ring ring_id ring' s) ring_id c ring' w r.
Proof.
  intros [Hc Hr Hw Hrp]. split; mreduce; try assumption.
  apply list_lookup_insert_eq. apply lookup_lt_is_Some. eauto.
Qed.

(** Both send paths, on a well-formed ring that is not full *)
Lemma td_ring_write_run (user : bool) s ring_id c ring w r (data : list byte) :
  ring_at s ring_id c ring w r -> ring_wf ring w ->
  Z.of_nat (length data) <= page_size ring ->
  Z.land ring_id 1 = 0 ->
  (w + 1) mod size ring <> r ->
  (if user then xmm7360_td_ring_write_user else xmm7360_td_ring_write)
    ring_id data (Z.of_nat (length data)) s =
    (Ok tt,
     with_s_wptr ring_id ((w + 1) mod size ring) c
       (with_ring ring_id (ring_after_write w data ring) s),
     StorePage ring_id w data ::
     post_trace ring_id w (Z.of_nat (length data)) ((w + 1) mod size ring)).
Proof.
  intros Hat Hwf Hlen Heven Hnf. pose proof Hat as [Hc Hr Hw Hrp].
  destruct Hwf as [Hsz Htds Hpages Hplen Hps Hwr Hlh].
  pose proof (pow2_size_pos _ Hsz) as Hpos.
  assert (Hu : u8 w = w) by (apply u8_small; lia).
  destruct (lookup_lt_is_Some_2 (tds ring) (Z.to_nat w) ltac:(lia)) as [e He].
  destruct (lookup_lt_is_Some_2 (pages ring) (Z.to_nat w) ltac:(lia)) as [page Hp].
  pose proof (Forall_lookup_1 _ _ _ _ Hplen Hp) as Hpl. cbv beta in Hpl.
  assert (Hrun : forall f,
    (f = xmm7360_td_ring_write_user \/ f = xmm7360_td_ring_write) ->
    f ring_id data (Z.of_nat (length data)) s =
    (Ok tt,
     with_s_wptr ring_id ((w + 1) mod size ring) c
       (with_ring ring_id (ring_after_write w data ring) s),
     StorePage ring_id w data ::
     post_trace ring_id w (Z.of_nat (length data)) ((w + 1) mod size ring))).
  { intros f [-> | ->].
    all: unfold xmm7360_td_ring_write_user, xmm7360_td_ring_write.
    all: rewrite (bind_ok (get_ring ring_id) _ s ring s [])
           by (msimpl; rewrite Hr; reflexivity).
    all: rewrite (bind_ok (load_s_wptr ring_id) _ s w s [])
           by (msimpl; rewrite Hc; mreduce; rewrite Hw; reflexivity).
    all: cbv zeta; rewrite advance_is_mod by exact Hsz; rewrite !Hu.
    all: rewrite (bind_ok (BUG_ON (bool_decide (size ring = 0)) _) _ s tt s [])
           by (rewrite bool_decide_false by lia; reflexivity).
    all: rewrite (bind_ok (BUG_ON (bool_decide (_ > page_size ring)) _) _ s tt s [])
           by (rewrite bool_decide_false by lia; reflexivity).
    all: rewrite (bind_ok (BUG_ON (bool_decide (Z.land ring_id 1 <> 0)) _) _ s tt s [])
           by (rewrite bool_decide_false by (intros H; apply H; exact Heven); reflexivity).
    all: rewrite (copy_to_page_run s ring_id c ring w r Hat _ _ w data page Hp) by lia.
    all: erewrite (fill_td_run ring_id);
           [ | mreduce; apply list_lookup_insert_eq; apply lookup_lt_is_Some; eauto
             | mreduce; exact He ].
    all: rewrite (publish_run s ring_id c ring w r Hat)
           by (first [exact Hnf | mreduce; exact Hc]).
    all: rewrite with_ring_twice.
    all: unfold ring_after_write, post_trace; rewrite He, Hp.
    all: cbn [app]; unfold u16.
    all: rewrite (Z.mod_small (Z.of_nat (length data))) by lia; reflexivity. }
  destruct user; apply Hrun; auto.
Qed.

(** ** TD rings: fullness *)

(** C2.  For a TD ring whose capacity [C] is a power of two and any values
    of the two pointers, [xmm7360_td_ring_full] returns 1 exactly when
    [(w + 1) mod C = r], and changes nothing.  For pointers inside the ring
    this is the case exactly when [C - 1] descriptors are outstanding; the
    number outstanding never exceeds [C - 1], and advancing the write
    pointer of a ring that is not full raises it by one without passing
    [C - 1]. *)
Theorem td_ring_full_spec (s : xmm_dev) (ring_id : Z) (c : control_page) (ring : td_ring) (w r : Z) :
  ring_at s ring_id c ring w r -> pow2_size (size ring) ->
  let C := size ring in
  xmm7360_td_ring_full ring_id s =
    (Ok (if decide ((w + 1) mod C = r) then 1 else 0), s, [])
  /\ (0 <= w < C -> 0 <= r < C ->
      ((w + 1) mod C = r <-> td_outstanding C w r = C - 1)
      /\ td_outstanding C w r <= C - 1
      /\ ((w + 1) mod C <> r ->
          td_outstanding C ((w + 1) mod C) r = td_outstanding C w r + 1
          /\ td_outstanding C ((w + 1) mod C) r <= C - 1)).
Proof.
  intros Hat Hpow C. pose proof (pow2_size_pos _ Hpow) as Hpos.
  split.
  - rewrite (td_ring_full_run s ring_id c ring w r Hat).
    rewrite advance_is_mod by exact Hpow. reflexivity.
  - intros Hw Hr. split; [apply full_iff_outstanding; lia |].
    split.
    + unfold td_outstanding. pose proof (Z.mod_pos_bound (w - r) C ltac:(lia)). lia.
    + intros Hnf.
      destruct (outstanding_advance C w r ltac:(lia) Hw Hr Hnf) as [E B].
      split; [exact E | lia].
Qed.

Lemma opened_dev_ring_at_2 :
  ring_at opened_dev 2 (cp_of opened_dev) (ring_of opened_dev 2) 0 0.
Proof. split; vm_compute; reflexivity. Qed.

Lemma opened_dev_ring_at_3 :
  ring_at opened_dev 3 (cp_of opened_dev) (ring_of opened_dev 3) 7 0.
Proof. split; vm_compute; reflexivity. Qed.

Lemma pow2_size_8 : pow2_size 8.
Proof. exists 3. split; [lia | reflexivity]. Qed.

Lemma opened_dev_ring_wf_2 : ring_wf (ring_of opened_dev 2) 0.
Proof.
  split.
  - exact pow2_size_8.
  - by_compute.
  - by_compute.
  - refine (bool_decide_unpack _ _). vm_compute. exact I.
  - by_compute.
  - by_compute.
  - by_compute.
Qed.

Lemma td_ring_full_spec_witness :
  ring_at opened_dev 3 (cp_of opened_dev) (ring_of opened_dev 3) 7 0
  /\ pow2_size (size (ring_of opened_dev 3))
  /\ result_of (xmm7360_td_ring_full 3 opened_dev) = Ok 1.
Proof.
  split; [exact opened_dev_ring_at_3 |]. split; [exact pow2_size_8 |].
  destruct (td_ring_full_spec opened_dev 3 _ _ 7 0 opened_dev_ring_at_3 pow2_size_8)
    as [Hrun _].
  rewrite Hrun. reflexivity.
Defined.

(** ** TD rings: sending *)

(** C3.  Let ring [ring_id] exist and be well formed (power-of-two
    capacity, one descriptor and one page per slot, write pointer inside
    the ring), let the data fit a page, the ring id be even and the ring
    not be full ([xmm7360_td_ring_full] returns 0).  Then
    [xmm7360_td_ring_write] and [xmm7360_td_ring_write_user] both return
    normally, so none of their four [BUG_ON]s fires, the overrun check
    after the advance included.  They copy the data to the start of the
    page of the write slot, set that descriptor's length to the data
    length and its flags to 0, and as the last store publish the write
    pointer [(w + 1) mod C]. *)
Theorem td_ring_write_spec (s : xmm_dev) (ring_id : Z) (c : control_page) (ring : td_ring)
    (w r : Z) (data : list byte) :
  ring_at s ring_id c ring w r -> ring_wf ring w ->
  size ring <> 0 ->
  Z.of_nat (length data) <= page_size ring ->
  Z.land ring_id 1 = 0 ->
  result_of (xmm7360_td_ring_full ring_id s) = Ok 0 ->
  let next := (w + 1) mod size ring in
  let len := Z.of_nat (length data) in
  let s' := with_s_wptr ring_id next c
              (with_ring ring_id (ring_after_write w data ring) s) in
  let t := [ StorePage ring_id w data;
             Store (L_td ring_id w F_td_length) len;
             Store (L_td ring_id w F_td_flags) 0;
             Store (L_td ring_id w F_td_unk) 0;
             Store (L_s_wptr ring_id) next ] in
  xmm7360_td_ring_write ring_id data len s = (Ok tt, s', t)
  /\ xmm7360_td_ring_write_user ring_id data len s = (Ok tt, s', t)
  /\ next <> r
  /\ (exists e page,
        tds ring !! Z.to_nat w = Some e /\ pages ring !! Z.to_nat w = Some page
        /\ tds (ring_of s' ring_id) !! Z.to_nat w
             = Some {| td_addr := td_addr e; td_length := len; td_flags := 0; td_unk := 0 |}
        /\ pages (ring_of s' ring_id) !! Z.to_nat w
             = Some (data ++ drop (length data) page))
  /\ s_wptr (cp_of s') !! Z.to_nat ring_id = Some next.
Proof.
  intros Hat Hwf Hsz Hlen Heven Hfull next len s' t.
  pose proof Hat as [Hc Hr Hw Hrp].
  pose proof Hwf as [Hpow Htds Hpages Hplen Hps Hwr Hlh].
  assert (Hnf : next <> r).
  { rewrite (td_ring_full_run s ring_id c ring w r Hat) in Hfull.
    rewrite advance_is_mod in Hfull by exact Hpow.
    unfold result_of in Hfull. cbn [fst] in Hfull.
    destruct (decide ((w + 1) mod size ring = r)); [discriminate | assumption]. }
  split; [exact (td_ring_write_run false s ring_id c ring w r data Hat Hwf Hlen Heven Hnf) |].
  split; [exact (td_ring_write_run true s ring_id c ring w r data Hat Hwf Hlen Heven Hnf) |].
  split; [exact Hnf |].
  destruct (lookup_lt_is_Some_2 (tds ring) (Z.to_nat w) ltac:(lia)) as [e He].
  destruct (lookup_lt_is_Some_2 (pages ring) (Z.to_nat w) ltac:(lia)) as [page Hp].
  assert (Hi : (Z.to_nat ring_id < length (td_ring_ s))%nat)
    by (apply lookup_lt_is_Some; eauto).
  split.
  - exists e, page. split; [exact He |]. split; [exact Hp |].
    unfold s', ring_of, ring_after_write. mreduce. rewrite He, Hp.
    rewrite list_lookup_insert_eq by exact Hi. cbn [default from_option]. mreduce.
    split; apply list_lookup_insert_eq; lia.
  - unfold s', cp_of. mreduce. cbn [default from_option]. mreduce.
    apply list_lookup_insert_eq. apply lookup_lt_is_Some. eauto.
Qed.

Lemma td_ring_write_spec_witness :
  ring_at opened_dev 2 (cp_of opened_dev) (ring_of opened_dev 2) 0 0
  /\ ring_wf (ring_of opened_dev 2) 0
  /\ size (ring_of opened_dev 2) <> 0
  /\ Z.of_nat (length [x41; x54; x0d]) <= page_size (ring_of opened_dev 2)
  /\ Z.land 2 1 = 0
  /\ result_of (xmm7360_td_ring_full 2 opened_dev) = Ok 0
  /\ result_of (xmm7360_td_ring_write_user 2 [x41; x54; x0d] 3 opened_dev) = Ok tt.
Proof.
  assert (H3 : size (ring_of opened_dev 2) <> 0) by by_compute.
  assert (H4 : Z.of_nat (length [x41; x54; x0d]) <= page_size (ring_of opened_dev 2))
    by by_compute.
  assert (H5 : Z.land 2 1 = 0) by reflexivity.
  assert (H6 : result_of (xmm7360_td_ring_full 2 opened_dev) = Ok 0)
    by by_compute.
  repeat (split; [first [ exact opened_dev_ring_at_2 | exact opened_dev_ring_wf_2
                        | exact H3 | exact H4 | exact H5 | exact H6 ] |]).
  destruct (td_ring_write_spec opened_dev 2 _ _ 0 0 [x41; x54; x0d]
              opened_dev_ring_at_2 opened_dev_ring_wf_2 H3 H4 H5 H6)
    as (_ & Hrun & _).
  change (Z.of_nat (length [x41; x54; x0d])) with 3 in Hrun.
  rewrite Hrun. reflexivity.
Defined.

(** ** Doorbell and ring creation *)

Lemma ding_run {B} (k : M B) s c bell :
  cp s = Some c -> bar0 s = true ->
  (xmm7360_ding bell;; k) s =
    (let '(res, s2, t2) := k s in (res, s2, ding_trace c bell ++ t2)).
Proof.
  intros Hc Hb. unfold xmm7360_ding, ding_trace. msimpl. rewrite Hc. mreduce.
  destruct (decide (asleep (cp_status c) = 0)); mreduce;
    repeat (first [rewrite (decide_True (P := 0 = 0)) by reflexivity | rewrite Hb];
            mreduce);
    destruct (k s) as [[res s2] t2]; reflexivity.
Qed.

Lemma ding_run_end s c bell :
  cp s = Some c -> bar0 s = true ->
  xmm7360_ding bell s = (Ok tt, s, ding_trace c bell).
Proof.
  intros Hc Hb. unfold xmm7360_ding, ding_trace. msimpl. rewrite Hc. mreduce.
  destruct (decide (asleep (cp_status c) = 0)); mreduce;
    repeat (first [rewrite (decide_True (P := 0 = 0)) by reflexivity | rewrite Hb];
            mreduce);
    reflexivity.
Qed.

Lemma alloc_pages_run n psize s :
  alloc_pages n psize s =
    (Ok (replicate n (replicate (Z.to_nat psize) x00), page_addrs n (dma_brk s) psize),
     set_dma_brk (dma_brk s + Z.of_nat n * psize) s, []).
Proof.
  revert s. induction n as [| n IH]; intros s.
  - cbn [alloc_pages page_addrs replicate]. msimpl.
    rewrite Z.mul_0_l, Z.add_0_r. destruct s; reflexivity.
  - cbn [alloc_pages]. unfold dma_alloc_coherent. msimpl.
    rewrite IH. mreduce. cbn [replicate page_addrs].
    replace (dma_brk s + psize + Z.of_nat n * psize)
      with (dma_brk s + Z.of_nat (S n) * psize) by lia.
    reflexivity.
Qed.

Lemma td_ring_create_run s c rid ring0 :
  cp s = Some c -> bar0 s = true -> cmd_ring_wf c ->
  (c_wptr c + 1) mod CMD_RING_SIZE <> c_rptr c ->
  td_ring_ s !! Z.to_nat rid = Some ring0 -> size ring0 = 0 ->
  (Z.to_nat rid < length (s_wptr c))%nat ->
  (Z.to_nat rid < length (s_rptr c))%nat ->
  xmm7360_td_ring_create rid 8 s =
    (Ok tt, after_create rid 8 c s, create_trace rid 8 c s).
Proof.
  intros Hc Hb Hwf Hroom Hr Hsz Hlw Hlr.
  destruct (lookup_lt_is_Some_2 _ _ Hlw) as [w0 Hw0].
  destruct (lookup_lt_is_Some_2 _ _ Hlr) as [r0 Hr0].
  unfold xmm7360_td_ring_create, dma_alloc_coherent. msimpl.
  rewrite Hr. mreduce.
  rewrite bool_decide_false by (intros H; apply H; exact Hsz).
  rewrite bool_decide_false by (intros H; apply H; reflexivity).
  mreduce. rewrite alloc_pages_run. mreduce.
  rewrite Hc. mreduce. rewrite Hw0. mreduce. rewrite Hr0. mreduce.
  erewrite submit_ok; [ | mreduce; reflexivity | exact Hwf | exact Hroom ].
  mreduce.
  erewrite ding_run_end; [ | mreduce; reflexivity | mreduce; exact Hb ].
  unfold after_create, create_trace, reset_ptrs, fresh_ring, with_ring, ding_trace.
  mreduce. cbn [cp_status after_submit set_c_wptr set_c_ring].
  reflexivity.
Qed.

(** ** Posting receive slots *)

Lemma with_ring_same rid ring s :
  td_ring_ s !! Z.to_nat rid = Some ring -> with_ring rid ring s = s.
Proof.
  intros H. unfold with_ring. rewrite list_insert_id by exact H.
  destruct s; reflexivity.
Qed.

Lemma with_s_wptr_same rid w c s :
  cp s = Some c -> s_wptr c !! Z.to_nat rid = Some w -> with_s_wptr rid w c s = s.
Proof.
  intros Hc H. unfold with_s_wptr. rewrite list_insert_id by exact H.
  destruct s as [? ? ? cp0 ? ? ? ? ?]. cbn [cp] in Hc. subst cp0.
  destruct c; reflexivity.
Qed.

Lemma with_collapse rid v1 v2 c r1 r2 s :
  with_s_wptr rid v2 (set_s_wptr (<[Z.to_nat rid := v1]> (s_wptr c)) c)
    (with_ring rid r2 (with_s_wptr rid v1 c (with_ring rid r1 s)))
  = with_s_wptr rid v2 c (with_ring rid r2 s).
Proof.
  unfold with_s_wptr, with_ring. mreduce.
  rewrite !list_insert_insert_eq. reflexivity.
Qed.

Lemma ring_at_advanced s rid c ring w r v ring' :
  ring_at s rid c ring w r ->
  ring_at (with_s_wptr rid v c (with_ring rid ring' s)) rid
          (set_s_wptr (<[Z.to_nat rid := v]> (s_wptr c)) c) ring' v r.
Proof.
  intros [Hc Hr Hw Hrp]. split; mreduce.
  - reflexivity.
  - apply list_lookup_insert_eq, lookup_lt_is_Some. eauto.
  - apply list_lookup_insert_eq, lookup_lt_is_Some. eauto.
  - exact Hrp.
Qed.

Lemma ring_after_post_eq w ring e :
  tds ring !! Z.to_nat w = Some e ->
  ring_after_post w ring
  = set_tds (<[Z.to_nat w := sent_td (page_size ring) e]> (tds ring)) ring.
Proof. intros H. unfold ring_after_post. rewrite H. reflexivity. Qed.

Lemma ring_after_post_size w ring : size (ring_after_post w ring) = size ring.
Proof. unfold ring_after_post. destruct (tds ring !! Z.to_nat w); reflexivity. Qed.

Lemma ring_after_post_page_size w ring :
  page_size (ring_after_post w ring) = page_size ring.
Proof. unfold ring_after_post. destruct (tds ring !! Z.to_nat w); reflexivity. Qed.

Lemma ring_after_post_last_handled w ring :
  last_handled (ring_after_post w ring) = last_handled ring.
Proof. unfold ring_after_post. destruct (tds ring !! Z.to_nat w); reflexivity. Qed.

Lemma ring_after_post_pages w ring : pages (ring_after_post w ring) = pages ring.
Proof. unfold ring_after_post. destruct (tds ring !! Z.to_nat w); reflexivity. Qed.

Lemma ring_after_post_tds_phys w ring :
  tds_phys (ring_after_post w ring) = tds_phys ring.
Proof. unfold ring_after_post. destruct (tds ring !! Z.to_nat w); reflexivity. Qed.

Lemma posted_tds_phys k : forall w ring, tds_phys (posted k w ring) = tds_phys ring.
Proof.
  induction k as [| k IH]; intros w ring; [reflexivity |].
  cbn [posted]. rewrite IH. apply ring_after_post_tds_phys.
Qed.

Lemma ring_wf_after_post ring w :
  ring_wf ring w -> ring_wf (ring_after_post w ring) ((w + 1) mod size ring).
Proof.
  intros [Hpow Htds Hpages Hplen Hps Hw Hlh].
  pose proof (pow2_size_pos _ Hpow) as Hpos.
  split; rewrite ?ring_after_post_size, ?ring_after_post_page_size,
           ?ring_after_post_last_handled, ?ring_after_post_pages; try assumption.
  - unfold ring_after_post. destruct (tds ring !! Z.to_nat w); mreduce;
      rewrite ?length_insert; exact Htds.
  - apply Z.mod_pos_bound. lia.
Qed.

Lemma post_until_full_run (rid : Z) (k : nat) :
  forall s c ring w r budget,
    ring_at s rid c ring w r -> ring_wf ring w ->
    Z.land rid 1 <> 0 -> 0 <= r < size ring ->
    td_outstanding (size ring) w r + Z.of_nat k = size ring - 1 ->
    (k < budget)%nat ->
    post_until_full budget rid s =
      (Ok tt,
       with_s_wptr rid ((w + Z.of_nat k) mod size ring) c
         (with_ring rid (posted k w ring) s),
       posts_trace k rid w (page_size ring) (size ring)).
Proof.
  induction k as [| k IH]; intros s c ring w r budget Hat Hwf Hodd Hr Hout Hb.
  - pose proof Hat as [Hc Hrg Hw Hrp]. pose proof Hwf as [Hpow _ _ _ _ Hwr _].
    pose proof (pow2_size_pos _ Hpow) as Hpos.
    destruct budget as [| budget]; [lia |]. cbn [post_until_full posted posts_trace].
    rewrite (bind_ok _ _ _ _ _ _ (td_ring_full_run s rid c ring w r Hat)).
    rewrite advance_is_mod by exact Hpow.
    assert (Hfull : (w + 1) mod size ring = r)
      by (apply full_iff_outstanding; lia).
    rewrite (decide_True (P := (w + 1) mod size ring = r)) by exact Hfull.
    rewrite decide_False by discriminate.
    rewrite Z.add_0_r, Z.mod_small by lia.
    rewrite with_ring_same by exact Hrg.
    rewrite with_s_wptr_same by assumption. reflexivity.
  - pose proof Hat as [Hc Hrg Hw Hrp].
    pose proof Hwf as [Hpow Htds Hpages Hplen Hps Hwr Hlh].
    pose proof (pow2_size_pos _ Hpow) as Hpos.
    destruct budget as [| budget]; [lia |]. cbn [post_until_full posted posts_trace].
    rewrite (bind_ok _ _ _ _ _ _ (td_ring_full_run s rid c ring w r Hat)).
    rewrite advance_is_mod by exact Hpow.
    assert (Hnf : (w + 1) mod size ring <> r).
    { intros Hfull. apply full_iff_outstanding in Hfull; lia. }
    rewrite (decide_False (P := (w + 1) mod size ring = r)) by exact Hnf.
    rewrite decide_True by reflexivity.
    destruct (lookup_lt_is_Some_2 (tds ring) (Z.to_nat w) ltac:(lia)) as [e He].
    assert (Hu : u8 w = w) by (apply u8_small; lia).
    assert (He' : tds ring !! Z.to_nat (u8 w) = Some e) by (rewrite Hu; exact He).
    assert (Hnf' : u8 (Z.land (u8 w + 1) (size ring - 1)) <> r)
      by (rewrite advance_is_mod by exact Hpow; exact Hnf).
    pose proof (td_ring_read_run s rid c ring w r Hat e ltac:(lia) Hodd He' Hnf') as Hread.
    rewrite advance_is_mod in Hread by exact Hpow. rewrite !Hu in Hread.
    rewrite <- (ring_after_post_eq _ _ _ He) in Hread.
    cbn [app].
    rewrite (bind_ok _ _ _ _ _ _ Hread).
    destruct (outstanding_advance (size ring) w r ltac:(lia) Hwr Hr Hnf) as [Hadv _].
    rewrite (IH _ _ _ _ r budget
               (ring_at_advanced s rid c ring w r _ (ring_after_post w ring) Hat)
               (ring_wf_after_post ring w Hwf) Hodd).
    + rewrite with_collapse, ring_after_post_size, ring_after_post_page_size.
      rewrite Zplus_mod_idemp_l.
      replace (w + 1 + Z.of_nat k) with (w + Z.of_nat (S k)) by lia.
      reflexivity.
    + rewrite ring_after_post_size. exact Hr.
    + rewrite ring_after_post_size, Hadv. lia.
    + lia.
Qed.

(** ** Opening a queue pair *)

Lemma odd_ring_id n : Z.land (n * 2 + 1) 1 <> 0.
Proof.
  replace (Z.land (n * 2 + 1) 1) with ((n * 2 + 1) mod 2).
  - rewrite Z.add_comm, Z_mod_plus_full. discriminate.
  - symmetry. apply (land_pow2_mod _ 2). exists 1. split; [lia | reflexivity].
Qed.

Lemma fresh_ring_wf base : ring_wf (fresh_ring 8 base) 0.
Proof.
  split.
  - exact pow2_size_8.
  - reflexivity.
  - reflexivity.
  - cbn [fresh_ring pages page_size]. apply Forall_replicate.
    apply length_replicate.
  - cbn [fresh_ring page_size]. lia.
  - cbn [fresh_ring size]. lia.
  - cbn [fresh_ring size last_handled]. lia.
Qed.

Lemma qp_start_run (s : xmm_dev) (c : control_page) (id : Z) (q : queue_pair)
    (ra rb : td_ring) (budget : nat) :
  qp s !! Z.to_nat id = Some q -> open q = 0 -> 0 <= num q < 8 ->
  bar0 s = true -> cp s = Some c -> cmd_ring_wf c ->
  length (s_wptr c) = 16%nat -> length (s_rptr c) = 16%nat ->
  td_ring_ s !! Z.to_nat (num q * 2) = Some ra -> size ra = 0 ->
  td_ring_ s !! Z.to_nat (num q * 2 + 1) = Some rb -> size rb = 0 ->
  (c_wptr c + 1) mod CMD_RING_SIZE <> c_rptr c ->
  (c_wptr c + 2) mod CMD_RING_SIZE <> c_rptr c ->
  (8 <= budget)%nat ->
  xmm7360_qp_start budget id s =
    (Ok 0, after_qp_start id q c s,
     ([Store (L_s_wptr (num q * 2)) 0; Store (L_s_rptr (num q * 2)) 0]
      ++ submit_trace (c_wptr c) CMD_RING_OPEN (num q * 2) 8 (dma_brk s) 0x60
      ++ ding_trace c DOORBELL_CMD)
     ++ ([Store (L_s_wptr (num q * 2 + 1)) 0; Store (L_s_rptr (num q * 2 + 1)) 0]
         ++ submit_trace ((c_wptr c + 1) mod CMD_RING_SIZE) CMD_RING_OPEN
              (num q * 2 + 1) 8 (dma_brk s + ring_footprint) 0x60
         ++ ding_trace c DOORBELL_CMD)
     ++ ding_trace c DOORBELL_CMD
     ++ posts_trace 7 (num q * 2 + 1) 0 0x1000 8
     ++ ding_trace c DOORBELL_TD).
Proof.
  intros Hq Hopen Hn Hb Hc Hwf Hlw Hlr Hra Hsa Hrb Hsb Hroom1 Hroom2 Hbud.
  set (n := num q) in *.
  assert (Hu0 : u8 (n * 2) = n * 2) by (apply u8_small; lia).
  assert (Hu1 : u8 (n * 2 + 1) = n * 2 + 1) by (apply u8_small; lia).
  assert (Hodd : Z.land (n * 2 + 1) 1 <> 0).
  { apply odd_ring_id. }
  unfold xmm7360_qp_start.
  rewrite (bind_ok (get_qp id) _ s q s []) by (msimpl; rewrite Hq; reflexivity).
  rewrite decide_False by (intros H; apply H; exact Hopen).
  fold n. rewrite Hu0, Hu1.
  set (s1 := set_qp (<[Z.to_nat id := set_open 1 q]> (qp s)) s).
  rewrite (bind_ok (put_qp id (set_open 1 q)) _ s tt s1 []) by reflexivity.
  (* first ring *)
  assert (Hcreate1 : xmm7360_td_ring_create (n * 2) 8 s1
                     = (Ok tt, after_create (n * 2) 8 c s1, create_trace (n * 2) 8 c s1)).
  { apply (td_ring_create_run s1 c (n * 2) ra); try assumption; lia. }
  rewrite (bind_ok _ _ _ _ _ _ Hcreate1).
  set (s2 := after_create (n * 2) 8 c s1) in *.
  set (c2 := after_submit CMD_RING_OPEN (n * 2) 8 (dma_brk s1) 0x60 (reset_ptrs (n * 2) c)).
  assert (Hc2 : cp s2 = Some c2) by reflexivity.
  assert (Hwf2 : cmd_ring_wf c2).
  { destruct Hwf as [Hl Hw]. split.
    - unfold c2, after_submit, reset_ptrs. mreduce. rewrite length_insert. exact Hl.
    - unfold c2, after_submit, reset_ptrs. mreduce.
      apply Z.mod_pos_bound. reflexivity. }
  assert (Hw2 : c_wptr c2 = (c_wptr c + 1) mod CMD_RING_SIZE) by reflexivity.
  assert (Hr2 : c_rptr c2 = c_rptr c) by reflexivity.
  assert (Hcreate2 : xmm7360_td_ring_create (n * 2 + 1) 8 s2
                     = (Ok tt, after_create (n * 2 + 1) 8 c2 s2,
                        create_trace (n * 2 + 1) 8 c2 s2)).
  { apply (td_ring_create_run s2 c2 (n * 2 + 1) rb); try assumption.
    - rewrite Hw2, Hr2, Zplus_mod_idemp_l.
      replace (c_wptr c + 1 + 1) with (c_wptr c + 2) by lia. exact Hroom2.
    - unfold s2, after_create, with_ring. mreduce.
      rewrite list_lookup_insert_ne by lia. exact Hrb.
    - unfold c2, after_submit, reset_ptrs. mreduce. rewrite length_insert. lia.
    - unfold c2, after_submit, reset_ptrs. mreduce. rewrite length_insert. lia. }
  rewrite (bind_ok _ _ _ _ _ _ Hcreate2).
  set (s3 := after_create (n * 2 + 1) 8 c2 s2) in *.
  set (c3 := after_submit CMD_RING_OPEN (n * 2 + 1) 8 (dma_brk s2) 0x60
               (reset_ptrs (n * 2 + 1) c2)).
  assert (Hc3 : cp s3 = Some c3) by reflexivity.
  rewrite (ding_run _ s3 c3 DOORBELL_CMD Hc3 Hb).
  (* the receive ring after creation *)
  assert (Hlen3 : (Z.to_nat (n * 2 + 1) < length (td_ring_ s2))%nat).
  { unfold s2, after_create, with_ring. mreduce. rewrite length_insert.
    apply lookup_lt_is_Some. eauto. }
  assert (Hat3 : ring_at s3 (n * 2 + 1) c3 (fresh_ring 8 (dma_brk s2)) 0 0).
  { split.
    - exact Hc3.
    - unfold s3, after_create, with_ring. mreduce.
      apply list_lookup_insert_eq. exact Hlen3.
    - unfold c3, after_submit, reset_ptrs. mreduce.
      apply list_lookup_insert_eq.
      unfold c2, after_submit, reset_ptrs. mreduce. rewrite ?length_insert. lia.
    - unfold c3, after_submit, reset_ptrs. mreduce.
      apply list_lookup_insert_eq.
      unfold c2, after_submit, reset_ptrs. mreduce. rewrite ?length_insert. lia. }
  pose proof (post_until_full_run (n * 2 + 1) 7 s3 c3 _ 0 0 budget Hat3
                (fresh_ring_wf _) Hodd) as Hpost.
  cbn [fresh_ring size page_size] in Hpost.
  specialize (Hpost ltac:(lia) ltac:(reflexivity) ltac:(lia)).
  rewrite (bind_ok _ _ _ _ _ _ Hpost).
  erewrite ding_run; [ | reflexivity | exact Hb ].
  unfold mret, M_ret.
  assert (Hbrk : dma_brk s2 = dma_brk s + ring_footprint).
  { unfold s2, s1, after_create, with_ring, ring_footprint, sizeof_td_ring_entry.
    mreduce. change (Z.of_nat (Z.to_nat 8)) with 8. lia. }
  rewrite <- Hbrk. rewrite app_nil_r.
  reflexivity.
Qed.

(** X21.  Open with room in the command ring.  Let queue pair [id] be
    closed, its two rings absent, the register window mapped, the command
    ring well formed with room for two more commands, and let the loop have
    a budget of at least 8 condition tests.  Then [xmm7360_qp_start]
    returns 0 and
    - sets up the send ring [2n] and the receive ring [2n+1] with capacity
      8, resets their pointers, and queues a RING_OPEN command for each (at
      the write slot and the slot after it), carrying the ring id, the
      capacity and the bus address [tds_phys] of that ring's descriptor
      array, whatever address the allocation returned;
    - rings the command doorbell after each RING_OPEN and once more after
      both are queued;
    - then posts exactly the seven receive slots 0..6, which leaves the
      receive ring's write pointer at 7, its read pointer at 0 and
      [xmm7360_td_ring_full] returning 1;
    - then rings the data doorbell, and the pair is marked open. *)
Theorem qp_start_opens (s : xmm_dev) (c : control_page) (id : Z) (q : queue_pair)
    (ra rb : td_ring) (budget : nat) :
  qp s !! Z.to_nat id = Some q -> open q = 0 -> 0 <= num q < 8 ->
  bar0 s = true -> cp s = Some c -> cmd_ring_wf c ->
  length (s_wptr c) = 16%nat -> length (s_rptr c) = 16%nat ->
  td_ring_ s !! Z.to_nat (num q * 2) = Some ra -> size ra = 0 ->
  td_ring_ s !! Z.to_nat (num q * 2 + 1) = Some rb -> size rb = 0 ->
  (c_wptr c + 1) mod CMD_RING_SIZE <> c_rptr c ->
  (c_wptr c + 2) mod CMD_RING_SIZE <> c_rptr c ->
  (8 <= budget)%nat ->
  let tx := num q * 2 in
  let rx := num q * 2 + 1 in
  let w := c_wptr c in
  let w' := (c_wptr c + 1) mod CMD_RING_SIZE in
  exists s',
    xmm7360_qp_start budget id s =
      (Ok 0, s',
       ([Store (L_s_wptr tx) 0; Store (L_s_rptr tx) 0]
        ++ submit_trace w CMD_RING_OPEN tx 8 (tds_phys (ring_of s' tx)) 0x60
        ++ ding_trace c DOORBELL_CMD)
       ++ ([Store (L_s_wptr rx) 0; Store (L_s_rptr rx) 0]
           ++ submit_trace w' CMD_RING_OPEN rx 8 (tds_phys (ring_of s' rx)) 0x60
           ++ ding_trace c DOORBELL_CMD)
       ++ ding_trace c DOORBELL_CMD
       ++ posts_trace 7 rx 0 0x1000 8
       ++ ding_trace c DOORBELL_TD)
    /\ qp s' !! Z.to_nat id = Some {| qp_xmm := qp_xmm q; num := num q; open := 1 |}
    /\ size (ring_of s' tx) = 8 /\ size (ring_of s' rx) = 8
    /\ s_wptr (cp_of s') !! Z.to_nat tx = Some 0
    /\ s_rptr (cp_of s') !! Z.to_nat tx = Some 0
    /\ s_wptr (cp_of s') !! Z.to_nat rx = Some 7
    /\ s_rptr (cp_of s') !! Z.to_nat rx = Some 0
    /\ xmm7360_td_ring_full rx s' = (Ok 1, s', [])
    /\ c_ring (cp_of s') !! Z.to_nat w
         = Some (submitted_entry CMD_RING_OPEN tx 8 (tds_phys (ring_of s' tx)) 0x60)
    /\ c_ring (cp_of s') !! Z.to_nat w'
         = Some (submitted_entry CMD_RING_OPEN rx 8 (tds_phys (ring_of s' rx)) 0x60)
    /\ c_wptr (cp_of s') = (c_wptr c + 2) mod CMD_RING_SIZE.
Proof.
  intros Hq Hopen Hn Hb Hc Hwf Hlw Hlr Hra Hsa Hrb Hsb Hroom1 Hroom2 Hbud tx rx w w'.
  pose proof (qp_start_run s c id q ra rb budget Hq Hopen Hn Hb Hc Hwf Hlw Hlr
                Hra Hsa Hrb Hsb Hroom1 Hroom2 Hbud) as Hrun.
  exists (after_qp_start id q c s).
  destruct Hwf as [Hlc Hw].
  assert (Hlt : (Z.to_nat tx < length (td_ring_ s))%nat)
    by (apply lookup_lt_is_Some; eauto).
  assert (Hlt' : (Z.to_nat rx < length (td_ring_ s))%nat)
    by (apply lookup_lt_is_Some; eauto).
  assert (Hw' : 0 <= w' < CMD_RING_SIZE) by (apply Z.mod_pos_bound; reflexivity).
  assert (Hww : w' <> w).
  { unfold w', w, CMD_RING_SIZE in *.
    destruct (decide (c_wptr c + 1 = 128)) as [E | E].
    - rewrite E, Z.mod_same by lia. lia.
    - rewrite Z.mod_small by lia. lia. }
  assert (Hbrk : dma_brk s + sizeof_td_ring_entry * 8 + Z.of_nat (Z.to_nat 8) * 4096
                 = dma_brk s + ring_footprint).
  { unfold ring_footprint, sizeof_td_ring_entry.
    change (Z.of_nat (Z.to_nat 8)) with 8. lia. }
  set (s' := after_qp_start id q c s) in *.
  set (base' := dma_brk s + sizeof_td_ring_entry * 8 + Z.of_nat (Z.to_nat 8) * 4096) in *.
  assert (Eqp : qp s' = <[Z.to_nat id := set_open 1 q]> (qp s)) by reflexivity.
  assert (Erings : td_ring_ s'
                   = <[Z.to_nat rx := posted 7 0 (fresh_ring 8 base')]>
                       (<[Z.to_nat rx := fresh_ring 8 base']>
                          (<[Z.to_nat tx := fresh_ring 8 (dma_brk s)]> (td_ring_ s))))
    by reflexivity.
  assert (Ew : s_wptr (cp_of s')
               = <[Z.to_nat rx := 7]>
                   (<[Z.to_nat rx := 0]> (<[Z.to_nat tx := 0]> (s_wptr c))))
    by reflexivity.
  assert (Er : s_rptr (cp_of s')
               = <[Z.to_nat rx := 0]> (<[Z.to_nat tx := 0]> (s_rptr c)))
    by reflexivity.
  assert (Ering : c_ring (cp_of s')
                  = <[Z.to_nat w' := submitted_entry CMD_RING_OPEN rx 8 base' 0x60]>
                      (<[Z.to_nat w := submitted_entry CMD_RING_OPEN tx 8 (dma_brk s) 0x60]>
                         (c_ring c)))
    by reflexivity.
  assert (Ecw : c_wptr (cp_of s') = (w' + 1) mod CMD_RING_SIZE) by reflexivity.
  assert (Ecp : cp s' = Some (cp_of s')) by reflexivity.
  assert (Hne : Z.to_nat rx <> Z.to_nat tx) by (unfold tx, rx; lia).
  assert (Hrx : td_ring_ s' !! Z.to_nat rx = Some (posted 7 0 (fresh_ring 8 base'))).
  { rewrite Erings. apply list_lookup_insert_eq. rewrite !length_insert. exact Hlt'. }
  assert (Htx : td_ring_ s' !! Z.to_nat tx = Some (fresh_ring 8 (dma_brk s))).
  { rewrite Erings. rewrite !list_lookup_insert_ne by exact Hne.
    apply list_lookup_insert_eq. exact Hlt. }
  assert (Hw7 : s_wptr (cp_of s') !! Z.to_nat rx = Some 7).
  { rewrite Ew. apply list_lookup_insert_eq. rewrite !length_insert.
    unfold rx. lia. }
  assert (Hr0 : s_rptr (cp_of s') !! Z.to_nat rx = Some 0).
  { rewrite Er. apply list_lookup_insert_eq. rewrite !length_insert.
    unfold rx. lia. }
  assert (Hpa : tds_phys (ring_of s' tx) = dma_brk s).
  { unfold ring_of. rewrite Htx. reflexivity. }
  assert (Hpb : tds_phys (ring_of s' rx) = dma_brk s + ring_footprint).
  { unfold ring_of. rewrite Hrx. cbn [default from_option].
    unfold Datatypes.id. rewrite posted_tds_phys. cbn [fresh_ring tds_phys]. exact Hbrk. }
  rewrite Hpa, Hpb.
  clearbody s'.
  split; [exact Hrun |].
  repeat split.
  - rewrite Eqp. apply list_lookup_insert_eq, lookup_lt_is_Some. eauto.
  - unfold ring_of. rewrite Htx. reflexivity.
  - unfold ring_of. rewrite Hrx. reflexivity.
  - rewrite Ew. rewrite !list_lookup_insert_ne by exact Hne.
    apply list_lookup_insert_eq. unfold tx. lia.
  - rewrite Er. rewrite !list_lookup_insert_ne by exact Hne.
    apply list_lookup_insert_eq. unfold tx. lia.
  - exact Hw7.
  - exact Hr0.
  - rewrite (td_ring_full_run s' rx (cp_of s') _ 7 0
               (Build_ring_at _ _ _ _ _ _ Ecp Hrx Hw7 Hr0)).
    reflexivity.
  - rewrite Ering. rewrite list_lookup_insert_ne by lia.
    apply list_lookup_insert_eq. unfold w, CMD_RING_SIZE in *. lia.
  - rewrite Ering, <- Hbrk.
    apply list_lookup_insert_eq. rewrite length_insert.
    unfold CMD_RING_SIZE in *. lia.
  - rewrite Ecw. unfold w'. rewrite Zplus_mod_idemp_l. f_equal. lia.
Qed.

(** ** Reading from a queue pair *)

Lemma s32_small x : 0 <= x < 2 ^ 31 -> s32 x = x.
Proof.
  intros H. unfold s32, u32. rewrite Z.mod_small by lia.
  rewrite decide_True by lia. reflexivity.
Qed.

Lemma u64_small x : 0 <= x < 2 ^ 64 -> u64 x = x.
Proof. intros H. unfold u64. apply Z.mod_small. exact H. Qed.

Lemma qp_read_user_run (s : xmm_dev) (c : control_page) (id : Z) (q : queue_pair)
    (ring : td_ring) (w r : Z) (td : td_ring_entry) (page : list byte)
    (nbytes : Z) (signal_pending : bool) :
  qp s !! Z.to_nat id = Some q -> 0 <= num q < 8 -> bar0 s = true ->
  ring_at s (num q * 2 + 1) c ring w r -> ring_wf ring w ->
  r <> last_handled ring ->
  (w + 1) mod size ring = last_handled ring ->
  tds ring !! Z.to_nat (last_handled ring) = Some td ->
  pages ring !! Z.to_nat (last_handled ring) = Some page ->
  0 <= td_length td <= page_size ring -> 0 <= nbytes < 2 ^ 64 ->
  xmm7360_qp_read_user signal_pending id nbytes s =
    (Ok (Z.min (td_length td) nbytes),
     after_qp_read (num q * 2 + 1) w c ring s,
     [CopyToUser (take (Z.to_nat (Z.min (td_length td) nbytes)) page)]
     ++ post_trace (num q * 2 + 1) w (page_size ring) (last_handled ring)
     ++ ding_trace c DOORBELL_TD).
Proof.
  intros Hq Hn Hb Hat Hwf Hdata Hinv Htd Hpage Hlen Hnb.
  pose proof Hat as [Hc Hrg Hw Hrp].
  pose proof Hwf as [Hpow Htds Hpages Hplen Hps Hwr Hlh].
  pose proof (pow2_size_pos _ Hpow) as Hpos.
  set (rx := num q * 2 + 1) in *.
  assert (Hu1 : u8 rx = rx) by (apply u8_small; unfold rx; lia).
  assert (Hu : u8 w = w) by (apply u8_small; lia).
  pose proof (Forall_lookup_1 _ _ _ _ Hplen Hpage) as Hpl. cbv beta in Hpl.
  destruct (lookup_lt_is_Some_2 (tds ring) (Z.to_nat w) ltac:(lia)) as [e He].
  assert (Hnread : (if decide (td_length td > nbytes) then s32 nbytes else td_length td)
                   = Z.min (td_length td) nbytes).
  { destruct (decide (td_length td > nbytes)).
    - rewrite s32_small by lia. lia.
    - lia. }
  unfold xmm7360_qp_read_user.
  rewrite (bind_ok (get_qp id) _ s q s []) by (msimpl; rewrite Hq; reflexivity).
  fold rx. cbv zeta. rewrite Hu1.
  rewrite (bind_ok (wait_event_interruptible _ _) _ s 0 s []).
  2:{ unfold wait_event_interruptible. msimpl. rewrite Hc. mreduce. rewrite Hrp.
      mreduce. rewrite Hrg. mreduce.
      rewrite bool_decide_true by exact Hdata. reflexivity. }
  rewrite decide_False by (intros H; apply H; reflexivity).
  rewrite (bind_ok (get_ring rx) _ s ring s []) by (msimpl; rewrite Hrg; reflexivity).
  rewrite (bind_ok (deref (tds ring !! _)) _ s td s []) by (rewrite Htd; reflexivity).
  rewrite (bind_ok (deref (pages ring !! _)) _ s page s []) by (rewrite Hpage; reflexivity).
  rewrite Hnread.
  rewrite (bind_ok (copy_to_user page _) _ s tt s
             [CopyToUser (take (Z.to_nat (Z.min (td_length td) nbytes)) page)]).
  2:{ unfold copy_to_user. rewrite decide_True by lia. reflexivity. }
  assert (He' : tds ring !! Z.to_nat (u8 w) = Some e) by (rewrite Hu; exact He).
  assert (Hnf' : u8 (Z.land (u8 w + 1) (size ring - 1)) <> r).
  { rewrite advance_is_mod by exact Hpow. rewrite Hinv. congruence. }
  pose proof (td_ring_read_run s rx c ring w r Hat e ltac:(lia) (odd_ring_id _) He' Hnf')
    as Hread.
  rewrite advance_is_mod in Hread by exact Hpow. rewrite !Hu, Hinv in Hread.
  rewrite <- (ring_after_post_eq _ _ _ He) in Hread.
  rewrite (bind_ok _ _ _ _ _ _ Hread).
  erewrite ding_run; [ | reflexivity | exact Hb ].
  erewrite (bind_ok (get_ring rx));
    [ | msimpl; rewrite list_lookup_insert_eq by (apply lookup_lt_is_Some; eauto);
        reflexivity ].
  rewrite ring_after_post_size.
  rewrite advance_small_is_mod by (first [exact Hpow | lia]).
  unfold mret, M_ret, put_ring. msimpl.
  rewrite u64_small by lia.
  unfold after_qp_read, with_ring, with_s_wptr, post_trace, ding_trace. mreduce.
  cbn [cp_status]. rewrite app_nil_r. reflexivity.
Qed.

(** C5 (as amended).  Let the receive ring [rx = 2n+1] of pair [id] be
    well formed with its write pointer one slot behind [last_handled] (as
    opening the pair leaves it), let the read pointer differ from
    [last_handled], and let the length the modem delivered in that slot fit
    a page.  Then [xmm7360_qp_read_user] copies
    [min (delivered length, nbytes)] bytes from the start of the page of
    slot [last_handled] to the caller (the rest of the delivery is not kept
    for a later read), posts the slot at the write pointer [w] as an empty
    buffer of a full page with flags cleared and moves the write pointer to
    [last_handled], rings the data doorbell, advances [last_handled] by one
    modulo the capacity and returns the number of bytes copied;
    [xmm7360_read] returns the same count and adds it to the offset.  In a
    ring of two or more slots the slot posted is not the slot just handled,
    whose descriptor is left as the modem wrote it. *)
Theorem qp_read_user_spec (s : xmm_dev) (c : control_page) (id : Z) (q : queue_pair)
    (ring : td_ring) (w r : Z) (td : td_ring_entry) (page : list byte)
    (nbytes offset : Z) (signal_pending : bool) :
  qp s !! Z.to_nat id = Some q -> 0 <= num q < 8 -> bar0 s = true ->
  let rx := num q * 2 + 1 in
  let idx := last_handled ring in
  let C := size ring in
  ring_at s rx c ring w r -> ring_wf ring w ->
  r <> idx ->
  (w + 1) mod C = idx ->
  tds ring !! Z.to_nat idx = Some td ->
  pages ring !! Z.to_nat idx = Some page ->
  0 <= td_length td <= page_size ring -> 0 <= nbytes < 2 ^ 64 ->
  0 <= offset < 2 ^ 62 ->
  let nread := Z.min (td_length td) nbytes in
  let s' := after_qp_read rx w c ring s in
  let t := [CopyToUser (take (Z.to_nat nread) page)]
           ++ [ Store (L_td rx w F_td_length) (page_size ring);
                Store (L_td rx w F_td_flags) 0;
                Store (L_td rx w F_td_unk) 0;
                Store (L_s_wptr rx) idx ]
           ++ ding_trace c DOORBELL_TD in
  xmm7360_qp_read_user signal_pending id nbytes s = (Ok nread, s', t)
  /\ xmm7360_read signal_pending id nbytes offset s = (Ok (nread, offset + nread), s', t)
  /\ (exists e, tds ring !! Z.to_nat w = Some e
        /\ tds (ring_of s' rx) !! Z.to_nat w
           = Some {| td_addr := td_addr e; td_length := page_size ring;
                     td_flags := 0; td_unk := 0 |})
  /\ s_wptr (cp_of s') !! Z.to_nat rx = Some idx
  /\ last_handled (ring_of s' rx) = (idx + 1) mod C
  /\ size (ring_of s' rx) = C
  /\ pages (ring_of s' rx) = pages ring
  /\ (2 <= C -> w <> idx /\ tds (ring_of s' rx) !! Z.to_nat idx = Some td).
Proof.
  intros Hq Hn Hb rx idx C Hat Hwf Hdata Hinv Htd Hpage Hlen Hnb Hoff nread s' t.
  pose proof Hat as [Hc Hrg Hw Hrp].
  pose proof Hwf as [Hpow Htds Hpages Hplen Hps Hwr Hlh].
  pose proof (pow2_size_pos _ Hpow) as Hpos.
  assert (Hrun : xmm7360_qp_read_user signal_pending id nbytes s = (Ok nread, s', t)).
  { exact (qp_read_user_run s c id q ring w r td page nbytes signal_pending
             Hq Hn Hb Hat Hwf Hdata Hinv Htd Hpage Hlen Hnb). }
  destruct (lookup_lt_is_Some_2 (tds ring) (Z.to_nat w) ltac:(lia)) as [e He].
  assert (Hi : (Z.to_nat rx < length (td_ring_ s))%nat)
    by (apply lookup_lt_is_Some; eauto).
  assert (Ering : ring_of s' rx
                  = set_last_handled ((idx + 1) mod C)
                      (set_tds (<[Z.to_nat w := sent_td (page_size ring) e]> (tds ring)) ring)).
  { unfold s', after_qp_read, ring_of, with_ring, with_s_wptr. mreduce.
    rewrite list_lookup_insert_eq by (rewrite length_insert; exact Hi).
    rewrite (ring_after_post_eq _ _ _ He). reflexivity. }
  split; [exact Hrun |].
  split.
  { unfold xmm7360_read. rewrite (bind_ok _ _ _ _ _ _ Hrun).
    cbv zeta. rewrite (u64_small nread) by (unfold nread; lia).
    rewrite decide_False by (unfold nread; lia).
    unfold mret, M_ret, s64. rewrite !u64_small by (unfold nread; lia).
    rewrite !decide_True by (unfold nread; lia).
    rewrite app_nil_r. reflexivity. }
  split.
  { exists e. split; [exact He |]. rewrite Ering. mreduce.
    apply list_lookup_insert_eq. lia. }
  split.
  { assert (E : s_wptr (cp_of s') = <[Z.to_nat rx := idx]> (s_wptr c)) by reflexivity.
    rewrite E. apply list_lookup_insert_eq, lookup_lt_is_Some. eauto. }
  split; [rewrite Ering; reflexivity |].
  split; [rewrite Ering; reflexivity |].
  split; [rewrite Ering; reflexivity |].
  intros HC.
  assert (Hne : w <> idx).
  { intros E. rewrite <- E in Hinv. fold C in Hwr.
    destruct (decide (w + 1 = C)) as [E1 | E1].
    - rewrite E1, Z.mod_same in Hinv by lia. lia.
    - rewrite Z.mod_small in Hinv by lia. lia. }
  split; [exact Hne |].
  rewrite Ering. mreduce. rewrite list_lookup_insert_ne by (unfold idx in *; lia).
  exact Htd.
Qed.

Lemma qp_read_user_spec_witness :
  qp delivered_dev !! Z.to_nat 1 = Some pair_1_open /\ 0 <= num pair_1_open < 8
  /\ bar0 delivered_dev = true
  /\ ring_at delivered_dev (num pair_1_open * 2 + 1) (cp_of delivered_dev)
       (ring_of delivered_dev 3) 7 1
  /\ ring_wf (ring_of delivered_dev 3) 7
  /\ 1 <> last_handled (ring_of delivered_dev 3)
  /\ (7 + 1) mod size (ring_of delivered_dev 3) = last_handled (ring_of delivered_dev 3)
  /\ tds (ring_of delivered_dev 3) !! Z.to_nat (last_handled (ring_of delivered_dev 3))
     = Some delivered_td
  /\ pages (ring_of delivered_dev 3) !! Z.to_nat (last_handled (ring_of delivered_dev 3))
     = Some delivered_page
  /\ 0 <= td_length delivered_td <= page_size (ring_of delivered_dev 3)
  /\ 0 <= 100 < 2 ^ 64
  /\ 0 <= 0 < 2 ^ 62
  /\ result_of (xmm7360_read false 1 100 0 delivered_dev) = Ok (4, 4).
Proof.
  assert (H1 : qp delivered_dev !! Z.to_nat 1 = Some pair_1_open)
    by by_compute.
  assert (H2 : 0 <= num pair_1_open < 8) by by_compute.
  assert (H3 : bar0 delivered_dev = true) by by_compute.
  assert (H4 : ring_at delivered_dev (num pair_1_open * 2 + 1) (cp_of delivered_dev)
                 (ring_of delivered_dev 3) 7 1)
    by (split; by_compute).
  assert (H5 : ring_wf (ring_of delivered_dev 3) 7).
  { split.
    - exact pow2_size_8.
    - by_compute.
    - by_compute.
    - refine (bool_decide_unpack _ _). vm_compute. exact I.
    - by_compute.
    - by_compute.
    - by_compute. }
  assert (H6 : 1 <> last_handled (ring_of delivered_dev 3))
    by by_compute.
  assert (H7 : (7 + 1) mod size (ring_of delivered_dev 3)
               = last_handled (ring_of delivered_dev 3))
    by by_compute.
  assert (H8 : tds (ring_of delivered_dev 3)
                 !! Z.to_nat (last_handled (ring_of delivered_dev 3))
               = Some delivered_td)
    by by_compute.
  assert (H9 : pages (ring_of delivered_dev 3)
                 !! Z.to_nat (last_handled (ring_of delivered_dev 3))
               = Some delivered_page)
    by by_compute.
  assert (H10 : 0 <= td_length delivered_td <= page_size (ring_of delivered_dev 3))
    by by_compute.
  assert (H11 : 0 <= 100 < 2 ^ 64) by lia.
  assert (H12 : 0 <= 0 < 2 ^ 62) by lia.
  destruct (qp_read_user_spec delivered_dev (cp_of delivered_dev) 1 pair_1_open
              (ring_of delivered_dev 3) 7 1 delivered_td delivered_page 100 0 false
              H1 H2 H3 H4 H5 H6 H7 H8 H9 H10 H11 H12) as (_ & Hrun & _).
  assert (H13 : result_of (xmm7360_read false 1 100 0 delivered_dev) = Ok (4, 4))
    by (rewrite Hrun; vm_compute; reflexivity).
  exact (conj H1 (conj H2 (conj H3 (conj H4 (conj H5 (conj H6 (conj H7 (conj H8
          (conj H9 (conj H10 (conj H11 (conj H12 H13)))))))))))).
Defined.

(** C5 as stated fails: after the modem has delivered four bytes into slot
    0 of receive ring 3 ([last_handled = 0]), a read of pair 1 returns the
    four bytes, but slot 0 is not posted again: its descriptor still has
    the delivered length 4 and the COMPLETE flag.  The slot that is posted
    with a full page and cleared flags is slot 7, at the write pointer. *)
Lemma qp_read_reposts_other_slot :
  let run := xmm7360_qp_read_user false 1 100 delivered_dev in
  last_handled (ring_of delivered_dev 3) = 0
  /\ result_of run = Ok 4
  /\ td_length <$> (tds (ring_of (state_of run) 3) !! 0%nat) = Some 4
  /\ td_flags <$> (tds (ring_of (state_of run) 3) !! 0%nat) = Some TD_FLAG_COMPLETE
  /\ page_size (ring_of (state_of run) 3) = 4096
  /\ td_length <$> (tds (ring_of delivered_dev 3) !! 7%nat) = Some 0
  /\ td_length <$> (tds (ring_of (state_of run) 3) !! 7%nat) = Some 4096
  /\ td_flags <$> (tds (ring_of (state_of run) 3) !! 7%nat) = Some 0.
Proof. vm_compute. repeat split; reflexivity. Qed.

Lemma qp_start_opens_witness :
  qp attached_dev !! Z.to_nat 1 = Some pair_1_closed
  /\ open pair_1_closed = 0 /\ 0 <= num pair_1_closed < 8
  /\ bar0 attached_dev = true /\ cp attached_dev = Some zero_control_page
  /\ cmd_ring_wf zero_control_page
  /\ length (s_wptr zero_control_page) = 16%nat
  /\ length (s_rptr zero_control_page) = 16%nat
  /\ td_ring_ attached_dev !! Z.to_nat (num pair_1_closed * 2) = Some zero_td_ring
  /\ size zero_td_ring = 0
  /\ td_ring_ attached_dev !! Z.to_nat (num pair_1_closed * 2 + 1) = Some zero_td_ring
  /\ size zero_td_ring = 0
  /\ (c_wptr zero_control_page + 1) mod CMD_RING_SIZE <> c_rptr zero_control_page
  /\ (c_wptr zero_control_page + 2) mod CMD_RING_SIZE <> c_rptr zero_control_page
  /\ (8 <= 8)%nat
  /\ result_of (xmm7360_qp_start 8 1 attached_dev) = Ok 0.
Proof.
  assert (H1 : qp attached_dev !! Z.to_nat 1 = Some pair_1_closed) by reflexivity.
  assert (H2 : open pair_1_closed = 0) by reflexivity.
  assert (H3 : 0 <= num pair_1_closed < 8) by by_compute.
  assert (H4 : bar0 attached_dev = true) by reflexivity.
  assert (H5 : cp attached_dev = Some zero_control_page) by reflexivity.
  assert (H6 : cmd_ring_wf zero_control_page)
    by (split; by_compute).
  assert (H7 : length (s_wptr zero_control_page) = 16%nat) by reflexivity.
  assert (H8 : length (s_rptr zero_control_page) = 16%nat) by reflexivity.
  assert (H9 : td_ring_ attached_dev !! Z.to_nat (num pair_1_closed * 2)
               = Some zero_td_ring) by reflexivity.
  assert (H10 : size zero_td_ring = 0) by reflexivity.
  assert (H11 : td_ring_ attached_dev !! Z.to_nat (num pair_1_closed * 2 + 1)
                = Some zero_td_ring) by reflexivity.
  assert (H12 : (c_wptr zero_control_page + 1) mod CMD_RING_SIZE
                <> c_rptr zero_control_page) by by_compute.
  assert (H13 : (c_wptr zero_control_page + 2) mod CMD_RING_SIZE
                <> c_rptr zero_control_page) by by_compute.
  assert (H14 : (8 <= 8)%nat) by lia.
  destruct (qp_start_opens attached_dev zero_control_page 1 pair_1_closed
              zero_td_ring zero_td_ring 8
              H1 H2 H3 H4 H5 H6 H7 H8 H9 H10 H11 H10 H12 H13 H14) as (s' & Hrun & _).
  assert (H15 : result_of (xmm7360_qp_start 8 1 attached_dev) = Ok 0)
    by (rewrite Hrun; reflexivity).
  exact (conj H1 (conj H2 (conj H3 (conj H4 (conj H5 (conj H6 (conj H7 (conj H8
          (conj H9 (conj H10 (conj H11 (conj H10 (conj H12 (conj H13
          (conj H14 H15))))))))))))))).
Defined.

(** C4.  Open on a full command ring: a defect of the code.
    [xmm7360_td_ring_create] calls [xmm7360_cmd_ring_submit] and does not
    look at its result, where [xmm7360_cmd_ring_init] tests the result of
    the same function and fails on it.  On [cmd_full_dev] (pair 1 closed,
    127 commands waiting) the submit reports [-EAGAIN], yet
    [xmm7360_qp_start] returns 0 and marks the pair open, the doorbells are
    rung and seven receive slots are posted; no RING_OPEN command is
    queued for either ring: the command ring and its write pointer are as
    before and no store into a command ring entry is made. *)
Lemma qp_start_cmd_ring_full_queues_nothing :
  let run := xmm7360_qp_start 8 1 cmd_full_dev in
  open <$> (qp cmd_full_dev !! 1%nat) = Some 0
  /\ result_of (xmm7360_cmd_ring_submit CMD_RING_OPEN 2 8 (dma_brk cmd_full_dev) 0x60
                  cmd_full_dev) = Ok (- EAGAIN)
  /\ result_of run = Ok 0
  /\ open <$> (qp (state_of run) !! 1%nat) = Some 1
  /\ c_wptr (cp_of (state_of run)) = c_wptr (cp_of cmd_full_dev)
  /\ c_ring (cp_of (state_of run)) = c_ring (cp_of cmd_full_dev)
  /\ forallb (fun e => negb (cmd e =? CMD_RING_OPEN)) (c_ring (cp_of (state_of run))) = true
  /\ existsb is_cmd_ring_store (trace_of run) = false
  /\ s_wptr (cp_of (state_of run)) !! 3%nat = Some 7.
Proof. vm_compute. repeat split; reflexivity. Qed.

(** ** Open and close on a pair in the wrong state *)

(** C7.  [xmm7360_qp_start] (and [xmm7360_open]) on a pair whose open flag
    is set returns [-EBUSY]; [xmm7360_qp_stop] (and [xmm7360_release]) on a
    pair whose open flag is clear returns [-ENODEV].  In both cases the
    whole driver state is returned as it was found (open flag, rings,
    control page) and no event is emitted: no ring is created or
    destroyed, no slot posted, no doorbell rung. *)
Theorem qp_wrong_state_errors (s : xmm_dev) (id : Z) (q : queue_pair) (budget : nat) :
  qp s !! Z.to_nat id = Some q ->
  (open q <> 0 ->
     xmm7360_qp_start budget id s = (Ok (- EBUSY), s, [])
     /\ xmm7360_open budget id s = (Ok (- EBUSY), s, []))
  /\ (open q = 0 ->
     xmm7360_qp_stop id s = (Ok (- ENODEV), s, [])
     /\ xmm7360_release id s = (Ok (- ENODEV), s, [])).
Proof.
  intros Hq. split; intros Ho.
  - assert (H : xmm7360_qp_start budget id s = (Ok (- EBUSY), s, [])).
    { unfold xmm7360_qp_start.
      rewrite (bind_ok (get_qp id) _ s q s []) by (msimpl; rewrite Hq; reflexivity).
      rewrite decide_True by exact Ho. reflexivity. }
    split; [exact H | exact H].
  - assert (H : xmm7360_qp_stop id s = (Ok (- ENODEV), s, [])).
    { unfold xmm7360_qp_stop.
      rewrite (bind_ok (get_qp id) _ s q s []) by (msimpl; rewrite Hq; reflexivity).
      rewrite decide_True by exact Ho. reflexivity. }
    split; [exact H | exact H].
Qed.

Lemma qp_wrong_state_errors_witness :
  qp opened_dev !! Z.to_nat 1 = Some {| qp_xmm := true; num := 1; open := 1 |}
  /\ xmm7360_qp_start 8 1 opened_dev = (Ok (- EBUSY), opened_dev, [])
  /\ qp opened_dev !! Z.to_nat 0 = Some {| qp_xmm := true; num := 0; open := 0 |}
  /\ xmm7360_qp_stop 0 opened_dev = (Ok (- ENODEV), opened_dev, []).
Proof.
  assert (H1 : qp opened_dev !! Z.to_nat 1
               = Some {| qp_xmm := true; num := 1; open := 1 |})
    by by_compute.
  assert (H0 : qp opened_dev !! Z.to_nat 0
               = Some {| qp_xmm := true; num := 0; open := 0 |})
    by by_compute.
  split; [exact H1 |].
  split; [apply (qp_wrong_state_errors opened_dev 1 _ 8 H1); discriminate |].
  split; [exact H0 |].
  apply (qp_wrong_state_errors opened_dev 0 _ 8 H0); reflexivity.
Defined.

(** ** An interrupted read *)

(** C8.  When no data is available on the receive ring of pair [id] (its
    read pointer equals [last_handled]) and a signal is pending, the wait
    in [xmm7360_qp_read_user] is interrupted: [xmm7360_read] returns the
    negative value [-ERESTARTSYS], not a byte count, emits no event and
    leaves the driver state (receive ring, its pointers, [last_handled])
    exactly as it was.  The value travels through the unsigned
    [size_t] result of [xmm7360_qp_read_user] and is also added to the file
    offset. *)
Theorem read_interrupted (s : xmm_dev) (c : control_page) (id : Z) (q : queue_pair)
    (ring : td_ring) (r nbytes offset : Z) :
  qp s !! Z.to_nat id = Some q -> cp s = Some c ->
  s_rptr c !! Z.to_nat (num q * 2 + 1) = Some r ->
  td_ring_ s !! Z.to_nat (num q * 2 + 1) = Some ring ->
  r = last_handled ring ->
  xmm7360_qp_read_user true id nbytes s = (Ok (2 ^ 64 - ERESTARTSYS), s, [])
  /\ xmm7360_read true id nbytes offset s
     = (Ok (- ERESTARTSYS, s64 (offset + (2 ^ 64 - ERESTARTSYS))), s, [])
  /\ - ERESTARTSYS < 0.
Proof.
  intros Hq Hc Hrp Hrg Hno.
  assert (Hrun : xmm7360_qp_read_user true id nbytes s
                 = (Ok (2 ^ 64 - ERESTARTSYS), s, [])).
  { unfold xmm7360_qp_read_user.
    rewrite (bind_ok (get_qp id) _ s q s []) by (msimpl; rewrite Hq; reflexivity).
    cbv zeta.
    rewrite (bind_ok (wait_event_interruptible _ _) _ s (- ERESTARTSYS) s []).
    2:{ unfold wait_event_interruptible. msimpl. rewrite Hc. mreduce. rewrite Hrp.
        mreduce. rewrite Hrg. mreduce.
        rewrite bool_decide_false by (intros H; apply H; exact Hno). reflexivity. }
    rewrite decide_True by discriminate. reflexivity. }
  split; [exact Hrun |]. split; [| reflexivity].
  unfold xmm7360_read. rewrite (bind_ok _ _ _ _ _ _ Hrun). reflexivity.
Qed.

Lemma read_interrupted_witness :
  qp opened_dev !! Z.to_nat 1 = Some {| qp_xmm := true; num := 1; open := 1 |}
  /\ cp opened_dev = Some (cp_of opened_dev)
  /\ s_rptr (cp_of opened_dev) !! Z.to_nat (1 * 2 + 1) = Some 0
  /\ td_ring_ opened_dev !! Z.to_nat (1 * 2 + 1) = Some (ring_of opened_dev 3)
  /\ 0 = last_handled (ring_of opened_dev 3)
  /\ xmm7360_read true 1 100 0 opened_dev
     = (Ok (- ERESTARTSYS, - ERESTARTSYS), opened_dev, []).
Proof.
  assert (H1 : qp opened_dev !! Z.to_nat 1
               = Some {| qp_xmm := true; num := 1; open := 1 |})
    by by_compute.
  assert (H2 : cp opened_dev = Some (cp_of opened_dev)) by by_compute.
  assert (H3 : s_rptr (cp_of opened_dev) !! Z.to_nat (1 * 2 + 1) = Some 0)
    by by_compute.
  assert (H4 : td_ring_ opened_dev !! Z.to_nat (1 * 2 + 1) = Some (ring_of opened_dev 3))
    by by_compute.
  assert (H5 : 0 = last_handled (ring_of opened_dev 3)) by by_compute.
  destruct (read_interrupted opened_dev (cp_of opened_dev) 1 _ (ring_of opened_dev 3)
              0 100 0 H1 H2 H3 H4 H5) as (_ & Hrun & _).
  exact (conj H1 (conj H2 (conj H3 (conj H4 (conj H5 Hrun))))).
Defined.

(** ** Control-page handshake *)

(** The second poll loop of [xmm7360_cmd_ring_init] reads the mode register
    once and leaves [timeout] at 100 or 99, whatever the register shows *)
Lemma poll_mode_two_once (bar2_mode : nat -> Z) (budget k : nat) (s : xmm_dev) :
  bar2 s = true ->
  poll_mode_two bar2_mode (S budget) k 100 s =
    (Ok (if decide (u32 (bar2_mode k) <> 2) then 99 else 100, S k), s,
     [MmioRead 2 BAR2_MODE (u32 (bar2_mode k))]).
Proof.
  intros Hb. cbn [poll_mode_two]. msimpl.
  rewrite decide_False by discriminate. rewrite Hb. mreduce.
  destruct (decide (u32 (bar2_mode k) <> 2)) as [Hne | He].
  - rewrite decide_False by discriminate. reflexivity.
  - reflexivity.
Qed.

(** The first poll loop always returns within the budget it is given in
    [xmm7360_cmd_ring_init]; it leaves [timeout = 0] only if every read it
    made returned 0 *)
Lemma poll_mode_nonzero_returns (bar2_mode : nat -> Z) (budget : nat) :
  forall (k : nat) (timeout : Z) (s : xmm_dev),
    bar2 s = true -> 0 < timeout <= Z.of_nat budget ->
    exists t' k' tr,
      poll_mode_nonzero bar2_mode budget k timeout s = (Ok (t', k'), s, tr)
      /\ 0 <= t' <= timeout
      /\ (t' = 0 -> forall i, (i < Z.to_nat timeout)%nat -> u32 (bar2_mode (k + i)%nat) = 0).
Proof.
  induction budget as [| budget IH]; intros k timeout s Hb Ht; [lia |].
  cbn [poll_mode_nonzero].
  rewrite (bind_ok (mmio_read 2 BAR2_MODE _) _ s (u32 (bar2_mode k)) s
             [MmioRead 2 BAR2_MODE (u32 (bar2_mode k))]).
  2:{ msimpl. rewrite decide_False by discriminate. rewrite Hb. reflexivity. }
  destruct (decide (u32 (bar2_mode k) = 0)) as [Hz | Hnz].
  - cbv zeta. destruct (decide (timeout - 1 <> 0)) as [Hmore | Hlast].
    + rewrite (bind_ok (msleep 10) _ s tt s [Msleep 10]) by reflexivity.
      destruct (IH (S k) (timeout - 1) s Hb ltac:(lia)) as (t' & k' & tr & Hrun & Hr & Hall).
      rewrite Hrun. eexists _, _, _. split; [reflexivity |]. split; [lia |].
      intros Ht0 i Hi. destruct i as [| i].
      * rewrite Nat.add_0_r. exact Hz.
      * replace (k + S i)%nat with (S k + i)%nat by lia. apply Hall; [exact Ht0 | lia].
    + eexists _, _, _. split; [reflexivity |]. split; [lia |].
      intros _ i Hi. assert (i = 0%nat) as -> by lia.
      rewrite Nat.add_0_r. exact Hz.
  - eexists _, _, _. split; [reflexivity |]. split; [lia |].
    intros Ht0. lia.
Qed.

(** C6 (defect in the code).  On a modem whose mode
    register answers 1 to the first handshake and never shows the
    acknowledgment value 2, [xmm7360_cmd_ring_init] reads the register
    once after writing enable mode 2, does not sleep, does not return
    [-ETIMEDOUT], and goes on to submit the WAKEUP and configuration
    commands and to ring the command doorbell (the run ends asleep in
    [xmm7360_cmd_ring_wait]).  The first loop, on a register that stays 0,
    does use its budget: 100 reads, 99 sleeps of 10 ms, [-ETIMEDOUT]. *)
Theorem cmd_ring_init_no_ack_no_timeout :
  let never_acks := fun _ : nat => 1 in
  let run := xmm7360_cmd_ring_init never_acks false (probed_dev kernel_ok 0x100000) in
  result_of run = Stop Sleeping
  /\ result_of run <> Ok (- ETIMEDOUT)
  /\ count_events (is_read_of BAR2_MODE) (trace_of run) = 2%nat
  /\ count_events is_sleep (trace_of run) = 0%nat
  /\ trace_of run =
       [ Acquire R_control_page;
         MmioWrite 2 BAR2_CONTROL 0x100000; MmioWrite 2 BAR2_CONTROLH 0;
         MmioWrite 0 BAR0_MODE 1;
         MmioRead 2 BAR2_MODE 1;
         MmioWrite 2 BAR2_BLANK0 0; MmioWrite 2 BAR2_BLANK1 0;
         MmioWrite 2 BAR2_BLANK2 0; MmioWrite 2 BAR2_BLANK3 0;
         MmioWrite 0 BAR0_MODE 2;
         MmioRead 2 BAR2_MODE 1 ]
       ++ submit_trace 0 CMD_WAKEUP 0 1 0 0
       ++ submit_trace 1 0xf0 0x80 0 0 0
       ++ [ MmioWrite 0 BAR0_DOORBELL DOORBELL_CMD ]
  /\ (let dead := xmm7360_cmd_ring_init (fun _ => 0) false (probed_dev kernel_ok 0x100000) in
      result_of dead = Ok (- ETIMEDOUT)
      /\ count_events (is_read_of BAR2_MODE) (trace_of dead) = 100%nat
      /\ count_events is_sleep (trace_of dead) = 99%nat).
Proof.
  vm_compute.
  repeat match goal with |- _ /\ _ => split end;
    first [ reflexivity | let H := fresh in intros H; discriminate H ].
Qed.

(** Whatever the mode register shows, once the first handshake is
    acknowledged [xmm7360_cmd_ring_init] cannot return [-ETIMEDOUT] from
    its second poll: the loop makes one read and no sleep. *)
Lemma cmd_ring_init_second_poll_is_single (bar2_mode : nat -> Z) (k : nat) (s : xmm_dev) :
  bar2 s = true ->
  exists timeout,
    poll_mode_two bar2_mode 100 k 100 s
    = (Ok (timeout, S k), s, [MmioRead 2 BAR2_MODE (u32 (bar2_mode k))])
    /\ timeout <> 0.
Proof.
  intros Hb. rewrite (poll_mode_two_once bar2_mode 99 k s Hb).
  eexists. split; [reflexivity |].
  destruct (decide (u32 (bar2_mode k) <> 2)); discriminate.
Qed.

(** ** Probe: waiting for the modem to boot *)

Section BootWait.

Variable bar2_status : nat -> Z.

(** The loop polls while the status is neither sentinel and stops at once
    on the crash sentinel *)
Lemma poll_status_crash (j : nat) :
  forall (n j0 : nat) (st : Z) (s : xmm_dev),
    bar2 s = true -> (j < n)%nat ->
    (forall i, (i < j)%nat -> still_booting (bar2_status (j0 + i))) ->
    u32 (bar2_status (j0 + j)) = 0xbadc0ded ->
    poll_status bar2_status n j0 st s =
      (Ok None, s,
       boot_polls bar2_status j j0 ++ [MmioRead 2 BAR2_STATUS 0xbadc0ded]).
Proof.
  induction j as [| j IH]; intros n j0 st s Hb Hlt Hboot Hcrash.
  - destruct n as [| n]; [lia |]. cbn [poll_status boot_polls app]. msimpl.
    rewrite decide_False by discriminate. rewrite Hb. mreduce.
    rewrite Nat.add_0_r in Hcrash. rewrite Hcrash.
    rewrite decide_False by discriminate. rewrite decide_True by reflexivity.
    reflexivity.
  - destruct n as [| n]; [lia |]. cbn [poll_status boot_polls app].
    destruct (Hboot 0%nat ltac:(lia)) as [Hnr Hnc]. rewrite Nat.add_0_r in Hnr, Hnc.
    rewrite (bind_ok (mmio_read 2 BAR2_STATUS _) _ s (u32 (bar2_status j0)) s
               [MmioRead 2 BAR2_STATUS (u32 (bar2_status j0))]).
    2:{ msimpl. rewrite decide_False by discriminate. rewrite Hb. reflexivity. }
    rewrite decide_False by exact Hnr. rewrite decide_False by exact Hnc.
    rewrite (bind_ok (mdelay 200) _ s tt s [Mdelay 200]) by reflexivity.
    rewrite (IH n (S j0) (u32 (bar2_status j0)) s Hb ltac:(lia)).
    + reflexivity.
    + intros i Hi. replace (S j0 + i)%nat with (j0 + S i)%nat by lia.
      apply Hboot. lia.
    + replace (S j0 + j)%nat with (j0 + S j)%nat by lia. exact Hcrash.
Qed.

(** With neither sentinel in sight the loop uses all its iterations, each
    with a delay of 200 ms, and ends with the last status read *)
Lemma poll_status_exhausted :
  forall (n j0 : nat) (st : Z) (s : xmm_dev),
    bar2 s = true ->
    (forall i, (i < n)%nat -> still_booting (bar2_status (j0 + i))) ->
    exists last,
      poll_status bar2_status n j0 st s
      = (Ok (Some last), s, boot_polls bar2_status n j0)
      /\ (n = 0%nat -> last = st)
      /\ ((0 < n)%nat -> last <> 0x600df00d).
Proof.
  induction n as [| n IH]; intros j0 st s Hb Hboot.
  - exists st. split; [reflexivity |]. split; [reflexivity | lia].
  - cbn [poll_status boot_polls].
    destruct (Hboot 0%nat ltac:(lia)) as [Hnr Hnc]. rewrite Nat.add_0_r in Hnr, Hnc.
    rewrite (bind_ok (mmio_read 2 BAR2_STATUS _) _ s (u32 (bar2_status j0)) s
               [MmioRead 2 BAR2_STATUS (u32 (bar2_status j0))]).
    2:{ msimpl. rewrite decide_False by discriminate. rewrite Hb. reflexivity. }
    rewrite decide_False by exact Hnr. rewrite decide_False by exact Hnc.
    rewrite (bind_ok (mdelay 200) _ s tt s [Mdelay 200]) by reflexivity.
    destruct (IH (S j0) (u32 (bar2_status j0)) s Hb) as (last & Hrun & H0 & Hpos).
    { intros i Hi. replace (S j0 + i)%nat with (j0 + S i)%nat by lia.
      apply Hboot. lia. }
    exists last. rewrite Hrun. split; [reflexivity |]. split; [lia |].
    intros _. destruct n as [| n'].
    + rewrite H0 by reflexivity. exact Hnr.
    + apply Hpos. lia.
Qed.

End BootWait.

(** One step of a run whose first action is a primitive *)
Ltac mstep :=
  first
    [ rewrite (decide_False (P := 0 <> 0)) by (let H := fresh in intros H; apply H; reflexivity)
    | erewrite bind_ok by reflexivity ];
  cbv beta.

(** [xmm7360_remove] on the state the boot-wait loop runs in *)
Lemma remove_probed_run (k : kernel_calls) (brk : Z) :
  (forall i, 0 <= i < 4 -> pci_irq_vector k i <> 0) ->
  xmm7360_remove (probed_dev k brk) = (Ok tt, probed_dev k brk, probe_teardown_trace).
Proof.
  intros Hv.
  pose proof (Hv 0 ltac:(lia)) as Hv0. pose proof (Hv 1 ltac:(lia)) as Hv1.
  pose proof (Hv 2 ltac:(lia)) as Hv2. pose proof (Hv 3 ltac:(lia)) as Hv3.
  unfold probed_dev. clear Hv.
  generalize dependent (pci_irq_vector k 3).
  generalize dependent (pci_irq_vector k 2).
  generalize dependent (pci_irq_vector k 1).
  generalize dependent (pci_irq_vector k 0).
  intros v0 Hv0 v1 Hv1 v2 Hv2 v3 Hv3.
  destruct v0; [contradiction | |]; (destruct v1; [contradiction | |]);
    (destruct v2; [contradiction | |]); (destruct v3; [contradiction | |]);
    vm_compute; reflexivity.
Qed.

Lemma request_irqs_run (k : kernel_calls) (s : xmm_dev) :
  (forall i, 0 <= i < 4 -> request_irq k i = 0) ->
  irq s = replicate 4 0 ->
  request_irqs k 4 0 s =
    (Ok 0,
     set_irq [pci_irq_vector k 0; pci_irq_vector k 1; pci_irq_vector k 2;
              pci_irq_vector k 3] s,
     [Acquire (R_irq 0); Acquire (R_irq 1); Acquire (R_irq 2); Acquire (R_irq 3)]).
Proof.
  intros Hq Hs.
  cbn [request_irqs]. change (0 + 1) with 1. change (1 + 1) with 2.
  change (2 + 1) with 3.
  rewrite (Hq 0), (Hq 1), (Hq 2), (Hq 3) by lia.
  repeat mstep. unfold mret, M_ret. mreduce. rewrite Hs.
  destruct s; reflexivity.
Qed.

(** The part of [xmm7360_probe] before the boot-wait loop, and the failure
    path out of the loop *)
Lemma probe_status_failure_run (k : kernel_calls) (bar2_status bar2_mode : nat -> Z)
    (signal_pending : bool) (s : xmm_dev) (st : option Z) (polls : list event) :
  kernel_succeeds k ->
  poll_status bar2_status 100 0 0 (probed_dev k (dma_brk s))
    = (Ok st, probed_dev k (dma_brk s), polls) ->
  (forall v, st = Some v -> v <> 0x600df00d) ->
  xmm7360_probe k bar2_status bar2_mode signal_pending s =
    (Ok (- EINVAL), probed_dev k (dma_brk s),
     probe_setup_trace ++ polls ++ probe_teardown_trace).
Proof.
  intros (Hen & Hr0 & Hr2 & Hvec & Hirq) Hpoll Hst.
  assert (Hq : forall i, 0 <= i < 4 -> request_irq k i = 0)
    by (intros i Hi; apply (Hirq i Hi)).
  assert (Hv : forall i, 0 <= i < 4 -> pci_irq_vector k i <> 0)
    by (intros i Hi; apply (Hirq i Hi)).
  unfold xmm7360_probe. rewrite Hen, Hr0, Hr2.
  rewrite (decide_False (P := pci_alloc_irq_vectors k < 0)) by lia.
  do 16 mstep.
  erewrite bind_ok by (apply request_irqs_run; [exact Hq | reflexivity]).
  do 3 mstep.
  erewrite bind_ok by exact Hpoll.
  assert (Hfail : fail (- EINVAL) (probed_dev k (dma_brk s))
                  = (Ok (- EINVAL), probed_dev k (dma_brk s), probe_teardown_trace)).
  { unfold fail. erewrite bind_ok by (apply remove_probed_run; exact Hv).
    reflexivity. }
  destruct st as [v |].
  - rewrite decide_True by (apply Hst; reflexivity).
    rewrite Hfail. reflexivity.
  - rewrite Hfail. reflexivity.
Qed.

Lemma count_events_app p t1 t2 :
  count_events p (t1 ++ t2) = (count_events p t1 + count_events p t2)%nat.
Proof. unfold count_events. rewrite filter_app, length_app. reflexivity. Qed.

Lemma boot_polls_reads f n j :
  count_events (is_read_of BAR2_STATUS) (boot_polls f n j) = n.
Proof.
  revert j. induction n as [| n IH]; intros j; [reflexivity |].
  cbn [boot_polls].
  change (MmioRead 2 BAR2_STATUS (u32 (f j)) :: Mdelay 200 :: boot_polls f n (S j))
    with ([MmioRead 2 BAR2_STATUS (u32 (f j)); Mdelay 200] ++ boot_polls f n (S j)).
  rewrite count_events_app, IH. reflexivity.
Qed.

Lemma boot_polls_sleeps f n j :
  count_events is_sleep (boot_polls f n j) = n.
Proof.
  revert j. induction n as [| n IH]; intros j; [reflexivity |].
  cbn [boot_polls].
  change (MmioRead 2 BAR2_STATUS (u32 (f j)) :: Mdelay 200 :: boot_polls f n (S j))
    with ([MmioRead 2 BAR2_STATUS (u32 (f j)); Mdelay 200] ++ boot_polls f n (S j)).
  rewrite count_events_app, IH. reflexivity.
Qed.

Lemma held_boot_polls f n j acc :
  foldl held_step acc (boot_polls f n j) = acc.
Proof.
  revert j. induction n as [| n IH]; intros j; [reflexivity |].
  cbn [boot_polls foldl held_step]. apply IH.
Qed.

(** Resources still held after a probe that failed in the boot-wait loop *)
Lemma held_after_boot_wait f n j (extra : list event) :
  (forall acc, foldl held_step acc extra = acc) ->
  held (probe_setup_trace ++ (boot_polls f n j ++ extra) ++ probe_teardown_trace)
  = [R_iomap 0; R_iomap 2].
Proof.
  intros Hextra. unfold held. rewrite !foldl_app.
  rewrite held_boot_polls, Hextra. vm_compute. reflexivity.
Qed.

(** C9 (as amended).  When the kernel services of the earlier probe steps
    succeed, the boot-wait loop of [xmm7360_probe] tells the crash-dump
    sentinel from a modem that is still booting:
    - if the [j]-th read of the status register ([j < 100]) is the first to
      show a sentinel and shows [0xbadc0ded], the probe stops polling at
      once ([j + 1] reads, [j] delays of 200 ms) and fails with [-EINVAL];
    - if none of the 100 reads shows a sentinel, the probe fails after 100
      reads and 100 delays of 200 ms, also with [-EINVAL] (not with
      [-ETIMEDOUT]).
    In both cases [xmm7360_remove] runs before the probe returns: it
    switches the modem's mode register to 0 and releases the four
    interrupts, the interrupt vectors, both BAR regions, the device enable
    and the device structure, so none of these is held afterwards. *)
Theorem probe_boot_wait_failures (k : kernel_calls) (bar2_status bar2_mode : nat -> Z)
    (signal_pending : bool) (s : xmm_dev) :
  kernel_succeeds k ->
  let run := xmm7360_probe k bar2_status bar2_mode signal_pending s in
  let released := [ R_xmm; R_enabled; R_region 0; R_region 2; R_irq_vectors;
                    R_irq 0; R_irq 1; R_irq 2; R_irq 3 ] in
  (forall j : nat,
     (j < 100)%nat ->
     (forall i, (i < j)%nat -> still_booting (bar2_status i)) ->
     u32 (bar2_status j) = 0xbadc0ded ->
     run = (Ok (- EINVAL), probed_dev k (dma_brk s),
            probe_setup_trace
            ++ (boot_polls bar2_status j 0 ++ [MmioRead 2 BAR2_STATUS 0xbadc0ded])
            ++ probe_teardown_trace)
     /\ count_events (is_read_of BAR2_STATUS) (trace_of run) = S j
     /\ count_events is_sleep (trace_of run) = j
     /\ Forall (fun r => r ∉ held (trace_of run)) released)
  /\ ((forall i, (i < 100)%nat -> still_booting (bar2_status i)) ->
      run = (Ok (- EINVAL), probed_dev k (dma_brk s),
             probe_setup_trace ++ boot_polls bar2_status 100 0 ++ probe_teardown_trace)
      /\ count_events (is_read_of BAR2_STATUS) (trace_of run) = 100%nat
      /\ count_events is_sleep (trace_of run) = 100%nat
      /\ Forall (fun r => r ∉ held (trace_of run)) released).
Proof.
  intros Hk run released.
  assert (Hrel : Forall (fun r => r ∉ [R_iomap 0; R_iomap 2]) released).
  { refine (bool_decide_unpack _ _). vm_compute. exact I. }
  split.
  - intros j Hj Hboot Hcrash.
    assert (Hrun : run = (Ok (- EINVAL), probed_dev k (dma_brk s),
                          probe_setup_trace
                          ++ (boot_polls bar2_status j 0
                              ++ [MmioRead 2 BAR2_STATUS 0xbadc0ded])
                          ++ probe_teardown_trace)).
    { apply (probe_status_failure_run k bar2_status bar2_mode signal_pending s None).
      - exact Hk.
      - apply poll_status_crash; [reflexivity | exact Hj | exact Hboot | exact Hcrash].
      - intros v Hv. discriminate Hv. }
    split; [exact Hrun |]. rewrite Hrun. unfold trace_of. cbn [snd].
    split; [| split].
    + rewrite !count_events_app, boot_polls_reads.
      change (count_events (is_read_of BAR2_STATUS) probe_setup_trace) with 0%nat.
      change (count_events (is_read_of BAR2_STATUS) probe_teardown_trace) with 0%nat.
      change (count_events (is_read_of BAR2_STATUS) [MmioRead 2 BAR2_STATUS 0xbadc0ded])
        with 1%nat.
      lia.
    + rewrite !count_events_app, boot_polls_sleeps.
      change (count_events is_sleep probe_setup_trace) with 0%nat.
      change (count_events is_sleep probe_teardown_trace) with 0%nat.
      change (count_events is_sleep [MmioRead 2 BAR2_STATUS 0xbadc0ded]) with 0%nat.
      lia.
    + rewrite held_after_boot_wait by reflexivity. exact Hrel.
  - intros Hboot.
    destruct (poll_status_exhausted bar2_status 100 0 0 (probed_dev k (dma_brk s))
                ltac:(reflexivity) Hboot) as (last & Hpoll & _ & Hlast).
    assert (Hrun : run = (Ok (- EINVAL), probed_dev k (dma_brk s),
                          probe_setup_trace ++ boot_polls bar2_status 100 0
                          ++ probe_teardown_trace)).
    { apply (probe_status_failure_run k bar2_status bar2_mode signal_pending s (Some last)).
      - exact Hk.
      - exact Hpoll.
      - intros v Hv. injection Hv as <-. apply Hlast. lia. }
    split; [exact Hrun |]. rewrite Hrun. unfold trace_of. cbn [snd].
    split; [| split].
    + rewrite !count_events_app, boot_polls_reads.
      change (count_events (is_read_of BAR2_STATUS) probe_setup_trace) with 0%nat.
      change (count_events (is_read_of BAR2_STATUS) probe_teardown_trace) with 0%nat.
      lia.
    + rewrite !count_events_app, boot_polls_sleeps.
      change (count_events is_sleep probe_setup_trace) with 0%nat.
      change (count_events is_sleep probe_teardown_trace) with 0%nat.
      lia.
    + rewrite <- (app_nil_r (boot_polls bar2_status 100 0)).
      rewrite held_after_boot_wait by reflexivity. exact Hrel.
Qed.

(** ** The write pointer stays inside the ring *)

Section RingOutcomes.

Variables (s : xmm_dev) (ring_id : Z) (c : control_page) (ring : td_ring) (w r : Z).
Hypothesis Hat : ring_at s ring_id c ring w r.

Let next : Z := u8 (Z.land (u8 w + 1) (size ring - 1)).

Lemma outcome_let (x : res unit * xmm_dev * list event) (t0 : list event) :
  ring_op_outcome s ring_id c ring next x ->
  ring_op_outcome s ring_id c ring next (let '(r0, s2, t2) := x in (r0, s2, t0 ++ t2)).
Proof. destruct x as [[r0 s2] t2]. intros H. exact H. Qed.

Lemma outcome_let_cons (x : res unit * xmm_dev * list event) (e : event) :
  ring_op_outcome s ring_id c ring next x ->
  ring_op_outcome s ring_id c ring next (let '(r0, s2, t2) := x in (r0, s2, e :: t2)).
Proof. destruct x as [[r0 s2] t2]. intros H. exact H. Qed.

(** From the descriptor stores to the end of a write or a post *)
Lemma fill_and_publish_outcome (s0 : xmm_dev) (ring0 : td_ring) (v : Z) :
  s0 = s \/ s0 = with_ring ring_id ring0 s ->
  td_ring_ s0 !! Z.to_nat ring_id = Some ring0 -> same_shape ring0 ring ->
  ring_op_outcome s ring_id c ring next
    ((store_td ring_id (u8 w) F_td_length v;;
      store_td ring_id (u8 w) F_td_flags 0;;
      store_td ring_id (u8 w) F_td_unk 0;;
      r0 ← load_s_rptr ring_id;
      BUG_ON (bool_decide (next = r0)) Bug_overrun;;
      store_s_wptr ring_id next) s0).
Proof.
  intros Hs0 Hr0 Hsh. pose proof Hat as [Hc Hr Hw Hrp].
  assert (Hc0 : cp s0 = Some c) by (destruct Hs0 as [-> | ->]; exact Hc).
  destruct (tds ring0 !! Z.to_nat (u8 w)) as [e |] eqn:He.
  - rewrite (fill_td_run ring_id _ s0 ring0 (u8 w) v e Hr0 He).
    set (ring1 := set_tds (<[Z.to_nat (u8 w) := sent_td v e]> (tds ring0)) ring0).
    assert (Hsh1 : same_shape ring1 ring).
    { destruct Hsh as (H1 & H2 & H3). unfold ring1, same_shape. mreduce.
      rewrite length_insert. auto. }
    assert (Hs1 : with_ring ring_id ring1 s0 = with_ring ring_id ring1 s).
    { destruct Hs0 as [-> | ->]; [reflexivity | apply with_ring_twice]. }
    rewrite Hs1.
    destruct (decide (next = r)) as [E | E].
    + rewrite E. rewrite (publish_overrun s ring_id c ring w r Hat) by exact Hc.
      right; left. exists ring1. split; [exact Hsh1 |]. split; [reflexivity |].
      discriminate.
    + rewrite (publish_run s ring_id c ring w r Hat) by (first [exact Hc | exact E]).
      right; right. exists ring1. split; [exact Hsh1 |]. split; reflexivity.
  - assert (Hstop : forall {B} (k : M B),
              (store_td ring_id (u8 w) F_td_length v;; k) s0 = (Stop Oops, s0, [])).
    { intros B k. msimpl. rewrite Hr0. mreduce. rewrite He. reflexivity. }
    rewrite Hstop.
    destruct Hs0 as [-> | ->]; [left; reflexivity |].
    right; left. exists ring0. split; [exact Hsh |]. split; [reflexivity |].
    discriminate.
Qed.

(** [xmm7360_td_ring_read] *)
Lemma td_ring_read_outcome :
  ring_op_outcome s ring_id c ring next (xmm7360_td_ring_read ring_id s).
Proof.
  pose proof Hat as [Hc Hr Hw Hrp]. unfold xmm7360_td_ring_read.
  rewrite (bind_ok (get_ring ring_id) _ s ring s [])
    by (msimpl; rewrite Hr; reflexivity).
  rewrite (bind_ok (load_s_wptr ring_id) _ s w s [])
    by (msimpl; rewrite Hc; mreduce; rewrite Hw; reflexivity).
  cbv zeta.
  destruct (decide (size ring = 0)); [left; reflexivity |].
  destruct (decide (Z.land ring_id 1 = 0)); [left; reflexivity |].
  do 2 apply outcome_let.
  apply (fill_and_publish_outcome s ring);
    [left; reflexivity | exact Hr | repeat split].
Qed.

(** The copy into the page either runs off the page or the source, or
    changes the page of the slot *)
Lemma copy_to_page_cases {B} (k : M B) (user : bool) (slot : Z) (buf : list byte) (len : Z) :
  (copy_to_page user ring_id slot buf len;; k) s = (Stop Oops, s, [])
  \/ exists ring' data,
       same_shape ring' ring
       /\ (copy_to_page user ring_id slot buf len;; k) s
          = (let '(res, s2, t2) := k (with_ring ring_id ring' s) in
             (res, s2, StorePage ring_id slot data :: t2)).
Proof.
  pose proof Hat as [Hc Hr Hw Hrp].
  unfold copy_to_page. msimpl. rewrite Hr. mreduce.
  destruct (pages ring !! Z.to_nat slot) as [page |]; [| left; reflexivity].
  mreduce.
  destruct (decide (0 <= len <= Z.of_nat (length page))); [| left; reflexivity].
  destruct (decide (len <= Z.of_nat (length buf) \/ user = true)); [| left; reflexivity].
  right.
  exists (set_pages
            (<[Z.to_nat slot :=
                 (take (Z.to_nat len) buf
                  ++ replicate (Z.to_nat len - length buf) x00)
                 ++ drop (Z.to_nat len) page]> (pages ring)) ring),
         (take (Z.to_nat len) buf ++ replicate (Z.to_nat len - length buf) x00).
  split; [unfold same_shape; mreduce; rewrite length_insert; auto |].
  mreduce. destruct (k _) as [[res s2] t2]. reflexivity.
Qed.

(** Both write paths *)
Lemma td_ring_write_outcome (user : bool) (buf : list byte) (len : Z) :
  ring_op_outcome s ring_id c ring next
    ((if user then xmm7360_td_ring_write_user else xmm7360_td_ring_write)
       ring_id buf len s).
Proof.
  pose proof Hat as [Hc Hr Hw Hrp].
  assert (Hi : (Z.to_nat ring_id < length (td_ring_ s))%nat)
    by (apply lookup_lt_is_Some; eauto).
  destruct user; unfold xmm7360_td_ring_write_user, xmm7360_td_ring_write.
  all: rewrite (bind_ok (get_ring ring_id) _ s ring s [])
         by (msimpl; rewrite Hr; reflexivity).
  all: rewrite (bind_ok (load_s_wptr ring_id) _ s w s [])
         by (msimpl; rewrite Hc; mreduce; rewrite Hw; reflexivity).
  all: cbv zeta; do 2 apply outcome_let.
  all: destruct (bool_decide (size ring = 0)); [left; reflexivity |].
  all: rewrite (bind_ok (BUG_ON false _) _ s tt s []) by reflexivity.
  all: apply outcome_let.
  all: destruct (bool_decide (len > page_size ring)); [left; reflexivity |].
  all: rewrite (bind_ok (BUG_ON false _) _ s tt s []) by reflexivity.
  all: apply outcome_let.
  all: destruct (bool_decide (Z.land ring_id 1 <> 0)); [left; reflexivity |].
  all: rewrite (bind_ok (BUG_ON false _) _ s tt s []) by reflexivity.
  all: apply outcome_let.
  all: match goal with
       | |- context [ (copy_to_page ?u _ ?slot _ _ ≫= ?k) s ] =>
           destruct (copy_to_page_cases (k tt) u slot buf len)
             as [Hstop | (ring' & data & Hsz & Hrun)]
       end.
  all: try (rewrite Hstop; left; reflexivity).
  all: rewrite Hrun; apply outcome_let_cons.
  all: apply (fill_and_publish_outcome (with_ring ring_id ring' s) ring');
         [ right; reflexivity
         | mreduce; apply list_lookup_insert_eq; exact Hi
         | exact Hsz ].
Qed.

End RingOutcomes.

Lemma published_of_outcome s ring_id c ring w r next x :
  ring_at s ring_id c ring w r ->
  ring_op_outcome s ring_id c ring next x ->
  same_shape (ring_of (state_of x) ring_id) ring
  /\ (published_wptr (state_of x) ring_id = Some w
      \/ (published_wptr (state_of x) ring_id = Some next /\ result_of x = Ok tt)).
Proof.
  intros [Hc Hr Hw Hrp] Hout.
  assert (Hi : (Z.to_nat ring_id < length (td_ring_ s))%nat)
    by (apply lookup_lt_is_Some; eauto).
  destruct Hout as [E | [(ring' & Hsh & E & _) | (ring' & Hsh & E & Hok)]]; rewrite E.
  - split.
    + unfold ring_of. rewrite Hr. repeat split.
    + left. unfold published_wptr. rewrite Hc. exact Hw.
  - split.
    + unfold ring_of, with_ring. mreduce.
      rewrite list_lookup_insert_eq by exact Hi. exact Hsh.
    + left. unfold published_wptr, with_ring. mreduce. rewrite Hc. exact Hw.
  - split.
    + unfold ring_of, with_ring, with_s_wptr. mreduce.
      rewrite list_lookup_insert_eq by exact Hi. exact Hsh.
    + right. split; [| exact Hok].
      unfold published_wptr, with_ring, with_s_wptr. mreduce.
      cbn [mbind option_bind]. mreduce.
      apply list_lookup_insert_eq, lookup_lt_is_Some. eauto.
Qed.

(** C10.  Let ring [ring_id] have a power-of-two capacity [C], one
    descriptor and one page per slot, and a write pointer [w < C].  The
    pointer advance written in [xmm7360_td_ring_write],
    [xmm7360_td_ring_write_user], [xmm7360_td_ring_read] and
    [xmm7360_td_ring_full], a bitwise AND with [C - 1], equals
    [(w + 1) mod C] and is below [C].  [xmm7360_td_ring_full] compares that
    value with the read pointer.  Whatever its arguments and however it
    ends (normal return, [BUG_ON], invalid access), each of the three
    advancing functions leaves the capacity unchanged and the published
    write pointer at [w] or, after a normal return, at [(w + 1) mod C]: the
    published pointer stays below the capacity and indexes a descriptor and
    a page of the ring. *)
Theorem wptr_stays_in_ring (s : xmm_dev) (ring_id : Z) (c : control_page)
    (ring : td_ring) (w r : Z) :
  ring_at s ring_id c ring w r -> pow2_size (size ring) -> 0 <= w < size ring ->
  length (tds ring) = Z.to_nat (size ring) ->
  length (pages ring) = Z.to_nat (size ring) ->
  let C := size ring in
  let next := u8 (Z.land (u8 w + 1) (C - 1)) in
  next = (w + 1) mod C
  /\ 0 <= next < C
  /\ xmm7360_td_ring_full ring_id s = (Ok (if decide (next = r) then 1 else 0), s, [])
  /\ forall (buf : list byte) (len : Z) (x : res unit * xmm_dev * list event),
       x = xmm7360_td_ring_write ring_id buf len s
       \/ x = xmm7360_td_ring_write_user ring_id buf len s
       \/ x = xmm7360_td_ring_read ring_id s ->
       let ring' := ring_of (state_of x) ring_id in
       size ring' = C
       /\ exists w',
            published_wptr (state_of x) ring_id = Some w'
            /\ (w' = w \/ (w' = (w + 1) mod C /\ result_of x = Ok tt))
            /\ 0 <= w' < size ring'
            /\ is_Some (tds ring' !! Z.to_nat w')
            /\ is_Some (pages ring' !! Z.to_nat w').
Proof.
  intros Hat Hpow Hw Htds Hpages C next.
  pose proof (pow2_size_pos _ Hpow) as Hpos.
  assert (Hnext : next = (w + 1) mod C) by (apply advance_is_mod; exact Hpow).
  assert (Hrange : 0 <= next < C)
    by (rewrite Hnext; apply Z.mod_pos_bound; unfold C; lia).
  split; [exact Hnext |]. split; [exact Hrange |].
  split; [exact (td_ring_full_run s ring_id c ring w r Hat) |].
  intros buf len x Hx ring'.
  assert (Hout : ring_op_outcome s ring_id c ring next x).
  { destruct Hx as [-> | [-> | ->]].
    - exact (td_ring_write_outcome s ring_id c ring w r Hat false buf len).
    - exact (td_ring_write_outcome s ring_id c ring w r Hat true buf len).
    - exact (td_ring_read_outcome s ring_id c ring w r Hat). }
  destruct (published_of_outcome s ring_id c ring w r next x Hat Hout)
    as [(Hsz & Hlt & Hlp) Hpub].
  fold ring' in Hsz, Hlt, Hlp.
  assert (Hvalid : forall w', 0 <= w' < C ->
            0 <= w' < size ring'
            /\ is_Some (tds ring' !! Z.to_nat w')
            /\ is_Some (pages ring' !! Z.to_nat w')).
  { intros w' Hw'. split; [rewrite Hsz; exact Hw' |].
    split; apply lookup_lt_is_Some; unfold C in *; lia. }
  split; [exact Hsz |].
  destruct Hpub as [Hp | [Hp Hok]].
  - exists w. split; [exact Hp |]. split; [left; reflexivity |].
    apply Hvalid. exact Hw.
  - exists next. split; [exact Hp |].
    split; [right; split; [exact Hnext | exact Hok] |].
    apply Hvalid. exact Hrange.
Qed.

Lemma wptr_stays_in_ring_witness :
  ring_at opened_dev 3 (cp_of opened_dev) (ring_of opened_dev 3) 7 0
  /\ pow2_size (size (ring_of opened_dev 3))
  /\ 0 <= 7 < size (ring_of opened_dev 3)
  /\ length (tds (ring_of opened_dev 3)) = Z.to_nat (size (ring_of opened_dev 3))
  /\ length (pages (ring_of opened_dev 3)) = Z.to_nat (size (ring_of opened_dev 3))
  /\ u8 (Z.land (u8 7 + 1) (size (ring_of opened_dev 3) - 1)) = 0
  /\ size (ring_of (state_of (xmm7360_td_ring_read 3 opened_dev)) 3) = 8.
Proof.
  assert (H3 : 0 <= 7 < size (ring_of opened_dev 3)) by by_compute.
  assert (H4 : length (tds (ring_of opened_dev 3))
               = Z.to_nat (size (ring_of opened_dev 3))) by by_compute.
  assert (H5 : length (pages (ring_of opened_dev 3))
               = Z.to_nat (size (ring_of opened_dev 3))) by by_compute.
  destruct (wptr_stays_in_ring opened_dev 3 _ _ 7 0 opened_dev_ring_at_3 pow2_size_8
              H3 H4 H5) as (Hnext & _ & _ & Hops).
  assert (H6 : u8 (Z.land (u8 7 + 1) (size (ring_of opened_dev 3) - 1)) = 0)
    by (rewrite Hnext; by_compute).
  destruct (Hops [] 0 (xmm7360_td_ring_read 3 opened_dev) (or_intror (or_intror eq_refl)))
    as (Hsz & _).
  assert (H7 : size (ring_of (state_of (xmm7360_td_ring_read 3 opened_dev)) 3) = 8)
    by (rewrite Hsz; by_compute).
  exact (conj opened_dev_ring_at_3 (conj pow2_size_8 (conj H3 (conj H4 (conj H5
          (conj H6 H7)))))).
Defined.

(** ** Probe: sample runs *)

Lemma probe_boot_wait_failures_witness :
  kernel_succeeds kernel_ok
  /\ result_of (xmm7360_probe kernel_ok (fun _ => 0) (fun _ => 0) false
                  (kzalloc_xmm_dev 0x100000)) = Ok (- EINVAL)
  /\ result_of (xmm7360_probe kernel_ok
                  (fun j => if (j <? 3)%nat then 0 else 0xbadc0ded) (fun _ => 0) false
                  (kzalloc_xmm_dev 0x100000)) = Ok (- EINVAL).
Proof.
  assert (Hk : kernel_succeeds kernel_ok).
  { repeat split; try reflexivity; try discriminate.
    cbn [pci_irq_vector kernel_ok]. lia. }
  split; [exact Hk |].
  split.
  - destruct (probe_boot_wait_failures kernel_ok (fun _ => 0) (fun _ => 0) false
                (kzalloc_xmm_dev 0x100000) Hk) as [_ Hnever].
    destruct Hnever as (Hrun & _).
    + intros i Hi. split; discriminate.
    + rewrite Hrun. reflexivity.
  - destruct (probe_boot_wait_failures kernel_ok
                (fun j => if (j <? 3)%nat then 0 else 0xbadc0ded) (fun _ => 0) false
                (kzalloc_xmm_dev 0x100000) Hk) as [Hcrash _].
    destruct (Hcrash 3%nat) as (Hrun & _).
    + lia.
    + intros i Hi. destruct i as [| [| [| i]]]; [split; discriminate .. | lia].
    + reflexivity.
    + rewrite Hrun. reflexivity.
Defined.

(** C9 as stated fails: on a modem whose status register never shows the
    ready value (here it stays 0), the probe polls 100 times with 100
    delays of 200 ms and then fails with [-EINVAL]; it does not report
    [-ETIMEDOUT].  After the teardown the two register-window mappings
    made by [pci_iomap] are still held. *)
Lemma probe_never_ready_reports_einval :
  let run := xmm7360_probe kernel_ok (fun _ => 0) (fun _ => 0) false
               (kzalloc_xmm_dev 0x100000) in
  result_of run = Ok (- EINVAL)
  /\ result_of run <> Ok (- ETIMEDOUT)
  /\ count_events (is_read_of BAR2_STATUS) (trace_of run) = 100%nat
  /\ count_events is_sleep (trace_of run) = 100%nat
  /\ held (trace_of run) = [R_iomap 0; R_iomap 2].
Proof.
  vm_compute.
  repeat match goal with |- _ /\ _ => split end;
    first [ reflexivity | let H := fresh in intros H; discriminate H ].
Qed.

(** * Further properties *)

(** Evaluate the counts over the closed parts of a trace *)
Ltac count_closed :=
  repeat match goal with
         | |- context [count_events ?p ?l] =>
             let v := eval vm_compute in (count_events p l) in
             change (count_events p l) with v
         end.


(** ** Command ring: capacity *)

Lemma cmd_ring_wf_after_submit cmd parm len ptr extra c :
  cmd_ring_wf c -> cmd_ring_wf (after_submit cmd parm len ptr extra c).
Proof.
  intros [Hl Hw]. split.
  - unfold after_submit. mreduce. rewrite length_insert. exact Hl.
  - unfold after_submit. mreduce. apply Z.mod_pos_bound. reflexivity.
Qed.

(** X1.  On a well-formed command ring whose read pointer is inside the
    ring, the number of queued commands never exceeds 127, one less than
    the 128 entries: [xmm7360_cmd_ring_submit] refuses with [-EAGAIN]
    exactly when 127 commands are queued, and otherwise returns 0 and
    raises the number by one, leaving the read pointer alone. *)
Theorem cmd_ring_capacity (s : xmm_dev) (c : control_page) (cmd parm len ptr extra : Z) :
  cp s = Some c -> cmd_ring_wf c -> 0 <= c_rptr c < CMD_RING_SIZE ->
  let run := xmm7360_cmd_ring_submit cmd parm len ptr extra s in
  cmd_pending c <= CMD_RING_SIZE - 1
  /\ (cmd_pending c = CMD_RING_SIZE - 1 <-> result_of run = Ok (- EAGAIN))
  /\ (cmd_pending c < CMD_RING_SIZE - 1 <-> result_of run = Ok 0)
  /\ (result_of run = Ok 0 ->
      cmd_pending (cp_of (state_of run)) = cmd_pending c + 1
      /\ c_rptr (cp_of (state_of run)) = c_rptr c
      /\ cmd_ring_wf (cp_of (state_of run))).
Proof.
  intros Hc Hwf Hr run. pose proof Hwf as [Hl Hw].
  assert (Hn : 0 < CMD_RING_SIZE) by reflexivity.
  pose proof (full_iff_outstanding CMD_RING_SIZE (c_wptr c) (c_rptr c) Hn Hw Hr) as Hfull.
  assert (Hle : cmd_pending c <= CMD_RING_SIZE - 1).
  { unfold cmd_pending, td_outstanding.
    pose proof (Z.mod_pos_bound (c_wptr c - c_rptr c) CMD_RING_SIZE Hn). lia. }
  destruct (decide ((c_wptr c + 1) mod CMD_RING_SIZE = c_rptr c)) as [E | E].
  - assert (Hrun : run = (Ok (- EAGAIN), s, [])) by (apply (submit_full s c); assumption).
    assert (Hp : cmd_pending c = CMD_RING_SIZE - 1) by (apply Hfull; exact E).
    rewrite Hrun. unfold result_of. cbn [fst].
    split; [exact Hle |]. split; [split; [reflexivity | intros _; exact Hp] |].
    split; [split; [lia | intros H; discriminate H] |].
    intros H; discriminate H.
  - assert (Hrun : run = (Ok 0, set_cp (Some (after_submit cmd parm len ptr extra c)) s,
                          submit_trace (c_wptr c) cmd parm len ptr extra))
      by (apply submit_ok; assumption).
    assert (Hp : cmd_pending c < CMD_RING_SIZE - 1).
    { destruct (decide (cmd_pending c = CMD_RING_SIZE - 1)) as [F | F]; [| lia].
      exfalso. apply E, Hfull. exact F. }
    rewrite Hrun. unfold result_of, state_of, cp_of. cbn [fst snd]. mreduce.
    cbn [default from_option].
    split; [exact Hle |]. split; [split; [lia | intros H; discriminate H] |].
    split; [split; [reflexivity | intros _; exact Hp] |].
    intros _. split; [| split].
    + unfold cmd_pending, after_submit. mreduce.
      apply (outstanding_advance CMD_RING_SIZE (c_wptr c) (c_rptr c) Hn Hw Hr E).
    + reflexivity.
    + apply cmd_ring_wf_after_submit. exact Hwf.
Qed.

Lemma cmd_ring_capacity_witness :
  cp cmd_full_dev = Some (cp_of cmd_full_dev)
  /\ cmd_ring_wf (cp_of cmd_full_dev)
  /\ 0 <= c_rptr (cp_of cmd_full_dev) < CMD_RING_SIZE
  /\ result_of (xmm7360_cmd_ring_submit CMD_RING_CLOSE 2 0 0 0 cmd_full_dev)
     = Ok (- EAGAIN).
Proof.
  assert (H1 : cp cmd_full_dev = Some (cp_of cmd_full_dev)) by reflexivity.
  assert (H2 : cmd_ring_wf (cp_of cmd_full_dev)) by (split; by_compute).
  assert (H3 : 0 <= c_rptr (cp_of cmd_full_dev) < CMD_RING_SIZE) by by_compute.
  split; [exact H1 |]. split; [exact H2 |]. split; [exact H3 |].
  destruct (cmd_ring_capacity cmd_full_dev _ CMD_RING_CLOSE 2 0 0 0 H1 H2 H3)
    as (_ & Hfull & _).
  apply Hfull. by_compute.
Defined.

(** ** TD rings: the guards of the send and post paths *)

Lemma even_ring_id n : Z.land (n * 2) 1 = 0.
Proof.
  replace (Z.land (n * 2) 1) with ((n * 2) mod 2).
  - apply Z_mod_mult.
  - symmetry. apply (land_pow2_mod _ 2). exists 1. split; [lia | reflexivity].
Qed.

Lemma td_ring_write_too_big_run (s : xmm_dev) (ring_id : Z) (c : control_page)
    (ring : td_ring) (w r : Z) (buf : list byte) (len : Z) (user : bool) :
  ring_at s ring_id c ring w r -> size ring <> 0 -> len > page_size ring ->
  (if user then xmm7360_td_ring_write_user else xmm7360_td_ring_write) ring_id buf len s
  = (Stop (BUG Bug_len_too_big), s, []).
Proof.
  intros [Hc Hr Hw Hrp] Hsz Hlen.
  destruct user; unfold xmm7360_td_ring_write_user, xmm7360_td_ring_write.
  all: rewrite (bind_ok (get_ring ring_id) _ s ring s [])
         by (msimpl; rewrite Hr; reflexivity).
  all: rewrite (bind_ok (load_s_wptr ring_id) _ s w s [])
         by (msimpl; rewrite Hc; mreduce; rewrite Hw; reflexivity).
  all: cbv zeta.
  all: rewrite (bool_decide_false (size ring = 0)) by exact Hsz.
  all: rewrite (bool_decide_true (len > page_size ring)) by exact Hlen.
  all: reflexivity.
Qed.

(** X2.  The guards of the send paths fire in the order they are written
    and before anything is touched: on a ring that does not exist
    [xmm7360_td_ring_write] and [xmm7360_td_ring_write_user] stop at
    [BUG_ON(!ring->size)], on an existing ring with a length above the page
    size at [BUG_ON(len > ring->page_size)], and with a fitting length on a
    ring with an odd id at [BUG_ON(ring_id & 1)]; in each case the state is
    as found and no store is made.  [xmm7360_td_ring_read] does not assert:
    on a ring that does not exist or has an even id it returns without any
    effect. *)
Theorem td_ring_guards (s : xmm_dev) (ring_id : Z) (c : control_page) (ring : td_ring)
    (w r : Z) (buf : list byte) (len : Z) (user : bool) :
  ring_at s ring_id c ring w r ->
  let write := (if user then xmm7360_td_ring_write_user else xmm7360_td_ring_write)
                 ring_id buf len in
  (size ring = 0 ->
     write s = (Stop (BUG Bug_ring_absent), s, [])
     /\ xmm7360_td_ring_read ring_id s = (Ok tt, s, []))
  /\ (size ring <> 0 -> len > page_size ring ->
      write s = (Stop (BUG Bug_len_too_big), s, []))
  /\ (size ring <> 0 -> len <= page_size ring -> Z.land ring_id 1 <> 0 ->
      write s = (Stop (BUG Bug_not_send_ring), s, []))
  /\ (size ring <> 0 -> Z.land ring_id 1 = 0 ->
      xmm7360_td_ring_read ring_id s = (Ok tt, s, [])).
Proof.
  intros Hat write. pose proof Hat as [Hc Hr Hw Hrp].
  assert (Hread : size ring = 0 \/ (size ring <> 0 /\ Z.land ring_id 1 = 0) ->
            xmm7360_td_ring_read ring_id s = (Ok tt, s, [])).
  { intros Hcase. unfold xmm7360_td_ring_read.
    rewrite (bind_ok (get_ring ring_id) _ s ring s [])
      by (msimpl; rewrite Hr; reflexivity).
    rewrite (bind_ok (load_s_wptr ring_id) _ s w s [])
      by (msimpl; rewrite Hc; mreduce; rewrite Hw; reflexivity).
    cbv zeta. destruct Hcase as [Hsz | [Hsz Heven]].
    - rewrite decide_True by exact Hsz. reflexivity.
    - rewrite decide_False by exact Hsz. rewrite decide_True by exact Heven.
      reflexivity. }
  assert (Hstart : forall k : td_ring -> Z -> M unit,
            (ring0 ← get_ring ring_id; w0 ← load_s_wptr ring_id; k ring0 w0) s
            = (let '(res, s2, t2) := k ring w s in (res, s2, t2))).
  { intros k.
    rewrite (bind_ok (get_ring ring_id) _ s ring s [])
      by (msimpl; rewrite Hr; reflexivity).
    rewrite (bind_ok (load_s_wptr ring_id) _ s w s [])
      by (msimpl; rewrite Hc; mreduce; rewrite Hw; reflexivity).
    destruct (k ring w s) as [[res s2] t2]. reflexivity. }
  split; [| split; [| split]].
  - intros Hsz. split; [| exact (Hread (or_introl Hsz))].
    unfold write. destruct user;
      unfold xmm7360_td_ring_write_user, xmm7360_td_ring_write;
      rewrite Hstart; cbv zeta;
      rewrite (bool_decide_true (size ring = 0)) by exact Hsz; reflexivity.
  - intros Hsz Hlen.
    exact (td_ring_write_too_big_run s ring_id c ring w r buf len user Hat Hsz Hlen).
  - intros Hsz Hlen Hodd.
    unfold write. destruct user;
      unfold xmm7360_td_ring_write_user, xmm7360_td_ring_write;
      rewrite Hstart; cbv zeta;
      rewrite (bool_decide_false (size ring = 0)) by exact Hsz;
      rewrite (bool_decide_false (len > page_size ring)) by lia;
      rewrite (bool_decide_true (Z.land ring_id 1 <> 0)) by exact Hodd; reflexivity.
  - intros Hsz Heven. exact (Hread (or_intror (conj Hsz Heven))).
Qed.

Lemma td_ring_guards_witness :
  ring_at opened_dev 2 (cp_of opened_dev) (ring_of opened_dev 2) 0 0
  /\ size (ring_of opened_dev 2) <> 0
  /\ 4097 > page_size (ring_of opened_dev 2)
  /\ result_of (xmm7360_td_ring_write_user 2 [] 4097 opened_dev)
     = Stop (BUG Bug_len_too_big).
Proof.
  assert (H2 : size (ring_of opened_dev 2) <> 0) by by_compute.
  assert (H3 : 4097 > page_size (ring_of opened_dev 2)) by by_compute.
  split; [exact opened_dev_ring_at_2 |]. split; [exact H2 |]. split; [exact H3 |].
  destruct (td_ring_guards opened_dev 2 _ _ 0 0 [] 4097 true opened_dev_ring_at_2)
    as (_ & Hbig & _).
  rewrite (Hbig H2 H3). reflexivity.
Defined.

(** ** TD rings: sending into a full ring *)

(** X3.  On a well-formed send ring that is full, a send whose data fits a
    page passes the three guards, copies the data into the page of the
    write slot and rewrites that slot's descriptor, and only then stops at
    [BUG_ON(wptr == xmm->cp->s_rptr[ring_id])]: the write pointer is not
    published, the control page is untouched, and the slot that was
    overwritten is the one slot of a full ring that is not handed to the
    modem. *)
Theorem td_ring_write_full_ring (s : xmm_dev) (ring_id : Z) (c : control_page)
    (ring : td_ring) (w r : Z) (data : list byte) (user : bool) :
  ring_at s ring_id c ring w r -> ring_wf ring w ->
  Z.of_nat (length data) <= page_size ring ->
  Z.land ring_id 1 = 0 ->
  (w + 1) mod size ring = r ->
  let len := Z.of_nat (length data) in
  let run := (if user then xmm7360_td_ring_write_user else xmm7360_td_ring_write)
               ring_id data len s in
  run = (Stop (BUG Bug_overrun),
         with_ring ring_id (ring_after_write w data ring) s,
         [ StorePage ring_id w data;
           Store (L_td ring_id w F_td_length) len;
           Store (L_td ring_id w F_td_flags) 0;
           Store (L_td ring_id w F_td_unk) 0 ])
  /\ cp (state_of run) = Some c
  /\ published_wptr (state_of run) ring_id = Some w
  /\ td_outstanding (size ring) w r = size ring - 1
  /\ (forall k, 0 <= k < size ring - 1 -> (r + k) mod size ring <> w).
Proof.
  intros Hat Hwf Hlen Heven Hfull len run. pose proof Hat as [Hc Hr Hw Hrp].
  pose proof Hwf as [Hsz Htds Hpages Hplen Hps Hwr Hlh].
  pose proof (pow2_size_pos _ Hsz) as Hpos.
  assert (Hu : u8 w = w) by (apply u8_small; lia).
  destruct (lookup_lt_is_Some_2 (tds ring) (Z.to_nat w) ltac:(lia)) as [e He].
  destruct (lookup_lt_is_Some_2 (pages ring) (Z.to_nat w) ltac:(lia)) as [page Hp].
  pose proof (Forall_lookup_1 _ _ _ _ Hplen Hp) as Hpl. cbv beta in Hpl.
  assert (Hrun : run = (Stop (BUG Bug_overrun),
                        with_ring ring_id (ring_after_write w data ring) s,
                        [ StorePage ring_id w data;
                          Store (L_td ring_id w F_td_length) len;
                          Store (L_td ring_id w F_td_flags) 0;
                          Store (L_td ring_id w F_td_unk) 0 ])).
  { unfold run. destruct user.
    all: unfold xmm7360_td_ring_write_user, xmm7360_td_ring_write.
    all: rewrite (bind_ok (get_ring ring_id) _ s ring s [])
           by (msimpl; rewrite Hr; reflexivity).
    all: rewrite (bind_ok (load_s_wptr ring_id) _ s w s [])
           by (msimpl; rewrite Hc; mreduce; rewrite Hw; reflexivity).
    all: cbv zeta; rewrite advance_is_mod by exact Hsz; rewrite !Hu.
    all: rewrite (bind_ok (BUG_ON (bool_decide (size ring = 0)) _) _ s tt s [])
           by (rewrite bool_decide_false by lia; reflexivity).
    all: rewrite (bind_ok (BUG_ON (bool_decide (_ > page_size ring)) _) _ s tt s [])
           by (rewrite bool_decide_false by lia; reflexivity).
    all: rewrite (bind_ok (BUG_ON (bool_decide (Z.land ring_id 1 <> 0)) _) _ s tt s [])
           by (rewrite bool_decide_false by (intros H; apply H; exact Heven); reflexivity).
    all: rewrite (copy_to_page_run s ring_id c ring w r Hat _ _ w data page Hp) by lia.
    all: erewrite (fill_td_run ring_id);
           [ | mreduce; apply list_lookup_insert_eq; apply lookup_lt_is_Some; eauto
             | mreduce; exact He ].
    all: rewrite Hfull.
    all: rewrite (publish_overrun s ring_id c ring w r Hat)
           by (mreduce; exact Hc).
    all: rewrite with_ring_twice.
    all: unfold ring_after_write; rewrite He, Hp.
    all: cbn [app]; unfold u16, len.
    all: rewrite (Z.mod_small (Z.of_nat (length data))) by lia; reflexivity. }
  split; [exact Hrun |]. rewrite Hrun. unfold state_of. cbn [fst snd].
  split; [exact Hc |].
  split; [unfold published_wptr, with_ring; mreduce; rewrite Hc; exact Hw |].
  assert (Hr' : 0 <= r < size ring) by (rewrite <- Hfull; apply Z.mod_pos_bound; lia).
  assert (Hout : td_outstanding (size ring) w r = size ring - 1)
    by (apply full_iff_outstanding; [lia | exact Hwr | exact Hr' | exact Hfull]).
  split; [exact Hout |].
  intros k Hk Heq. unfold td_outstanding in Hout.
  assert (Hm : (w - r) mod size ring = k mod size ring).
  { rewrite <- Heq. rewrite Zminus_mod_idemp_l. f_equal. lia. }
  rewrite (Z.mod_small k) in Hm by lia. lia.
Qed.

Lemma td_ring_write_full_ring_witness :
  ring_at send_full_dev 2 (cp_of send_full_dev) (ring_of opened_dev 2) 7 0
  /\ ring_wf (ring_of opened_dev 2) 7
  /\ Z.of_nat (length [x41; x54; x0d]) <= page_size (ring_of opened_dev 2)
  /\ Z.land 2 1 = 0
  /\ (7 + 1) mod size (ring_of opened_dev 2) = 0
  /\ result_of (xmm7360_td_ring_write_user 2 [x41; x54; x0d] 3 send_full_dev)
     = Stop (BUG Bug_overrun).
Proof.
  assert (H1 : ring_at send_full_dev 2 (cp_of send_full_dev) (ring_of opened_dev 2) 7 0)
    by (split; vm_compute; reflexivity).
  assert (H2 : ring_wf (ring_of opened_dev 2) 7).
  { destruct opened_dev_ring_wf_2 as [A B C D E F G].
    split; [exact A | exact B | exact C | exact D | exact E | by_compute | exact G]. }
  assert (H3 : Z.of_nat (length [x41; x54; x0d]) <= page_size (ring_of opened_dev 2))
    by by_compute.
  assert (H4 : Z.land 2 1 = 0) by reflexivity.
  assert (H5 : (7 + 1) mod size (ring_of opened_dev 2) = 0) by by_compute.
  destruct (td_ring_write_full_ring send_full_dev 2 _ _ 7 0 [x41; x54; x0d] true
              H1 H2 H3 H4 H5) as (Hrun & _).
  change (Z.of_nat (length [x41; x54; x0d])) with 3 in Hrun.
  assert (H6 : result_of (xmm7360_td_ring_write_user 2 [x41; x54; x0d] 3 send_full_dev)
               = Stop (BUG Bug_overrun))
    by (rewrite Hrun; reflexivity).
  exact (conj H1 (conj H2 (conj H3 (conj H4 (conj H5 H6))))).
Defined.

(** ** Writing to a queue pair *)

Lemma s64_small x : 0 <= x < 2 ^ 63 -> s64 x = x.
Proof.
  intros H. unfold s64, u64. rewrite Z.mod_small by lia.
  rewrite decide_True by lia. reflexivity.
Qed.

(** X4.  [xmm7360_write] on pair [id] with a well-formed send ring
    [tx = 2n]:
    - when the ring is full it returns [-ENOSPC] (the [size_t] result of
      [xmm7360_qp_write_user] narrowed to [int]) and changes neither the
      state nor the offset, and nothing is stored;
    - when the ring is not full and the data fit a page it copies the data
      into the page of the write slot, fills the descriptor, publishes the
      advanced write pointer, rings the data doorbell as the last action,
      and returns the byte count, adding it to the offset; one more
      descriptor is outstanding afterwards;
    - when the ring is not full and the byte count exceeds the page size
      the call does not return an error: it stops at
      [BUG_ON(len > ring->page_size)] before anything is stored. *)
Theorem xmm7360_write_spec (s : xmm_dev) (c : control_page) (id : Z) (q : queue_pair)
    (ring : td_ring) (w r : Z) (data : list byte) (nbytes offset : Z) :
  qp s !! Z.to_nat id = Some q -> 0 <= num q < 8 -> bar0 s = true ->
  let tx := num q * 2 in
  let C := size ring in
  ring_at s tx c ring w r -> ring_wf ring w ->
  0 <= offset -> offset + Z.of_nat (length data) < 2 ^ 63 ->
  ((w + 1) mod C = r ->
     xmm7360_write id data nbytes offset s = (Ok (- ENOSPC, offset), s, []))
  /\ ((w + 1) mod C <> r -> Z.of_nat (length data) <= page_size ring ->
      let len := Z.of_nat (length data) in
      xmm7360_write id data len offset s =
        (Ok (len, offset + len),
         with_s_wptr tx ((w + 1) mod C) c (with_ring tx (ring_after_write w data ring) s),
         [ StorePage tx w data;
           Store (L_td tx w F_td_length) len;
           Store (L_td tx w F_td_flags) 0;
           Store (L_td tx w F_td_unk) 0;
           Store (L_s_wptr tx) ((w + 1) mod C) ]
         ++ ding_trace c DOORBELL_TD)
      /\ (0 <= r < C ->
          td_outstanding C ((w + 1) mod C) r = td_outstanding C w r + 1))
  /\ ((w + 1) mod C <> r -> nbytes > page_size ring ->
      xmm7360_write id data nbytes offset s = (Stop (BUG Bug_len_too_big), s, [])).
Proof.
  intros Hq Hn Hb tx C Hat Hwf Hoff Hoff2. pose proof Hat as [Hc Hr Hw Hrp].
  pose proof Hwf as [Hsz Htds Hpages Hplen Hps Hwr Hlh].
  pose proof (pow2_size_pos _ Hsz) as Hpos.
  assert (Hu0 : u8 tx = tx) by (apply u8_small; unfold tx; lia).
  assert (Hfullrun : xmm7360_td_ring_full tx s
                     = (Ok (if decide ((w + 1) mod C = r) then 1 else 0), s, [])).
  { rewrite (td_ring_full_run s tx c ring w r Hat).
    rewrite advance_is_mod by exact Hsz. reflexivity. }
  split; [| split].
  - intros Hfull. rewrite decide_True in Hfullrun by exact Hfull.
    unfold xmm7360_write, xmm7360_qp_write_user.
    erewrite bind_ok.
    2:{ rewrite (bind_ok (get_qp id) _ s q s []) by (msimpl; rewrite Hq; reflexivity).
        fold tx. rewrite Hu0. rewrite (bind_ok _ _ _ _ _ _ Hfullrun).
        rewrite decide_True by discriminate. reflexivity. }
    reflexivity.
  - intros Hnf Hlen len. rewrite decide_False in Hfullrun by exact Hnf. split.
    + unfold xmm7360_write, xmm7360_qp_write_user.
      erewrite bind_ok.
      2:{ rewrite (bind_ok (get_qp id) _ s q s []) by (msimpl; rewrite Hq; reflexivity).
          fold tx. rewrite Hu0. rewrite (bind_ok _ _ _ _ _ _ Hfullrun).
          rewrite decide_False by (intros H; apply H; reflexivity).
          rewrite (bind_ok _ _ _ _ _ _
                     (td_ring_write_run true s tx c ring w r data Hat Hwf Hlen
                        (even_ring_id _) Hnf)).
          erewrite ding_run; [ | reflexivity | exact Hb ].
          reflexivity. }
      cbv zeta. change (s32 0) with 0.
      rewrite decide_False by (intros H; apply H; reflexivity).
      unfold mret, M_ret. rewrite !s64_small by (unfold len; lia).
      unfold post_trace. rewrite !app_nil_r. reflexivity.
    + intros Hr'. apply outstanding_advance; [lia | exact Hwr | exact Hr' | exact Hnf].
  - intros Hnf Hbig. rewrite decide_False in Hfullrun by exact Hnf.
    unfold xmm7360_write, xmm7360_qp_write_user.
    apply bind_stop.
    rewrite (bind_ok (get_qp id) _ s q s []) by (msimpl; rewrite Hq; reflexivity).
    fold tx. rewrite Hu0. rewrite (bind_ok _ _ _ _ _ _ Hfullrun).
    rewrite decide_False by (intros H; apply H; reflexivity).
    rewrite (bind_stop _ _ _ _ _ _
               (td_ring_write_too_big_run s tx c ring w r data nbytes true Hat
                  ltac:(lia) Hbig)).
    reflexivity.
Qed.

Lemma xmm7360_write_spec_witness :
  qp opened_dev !! Z.to_nat 1 = Some pair_1_open /\ 0 <= num pair_1_open < 8
  /\ bar0 opened_dev = true
  /\ ring_at opened_dev (num pair_1_open * 2) (cp_of opened_dev) (ring_of opened_dev 2) 0 0
  /\ ring_wf (ring_of opened_dev 2) 0
  /\ 0 <= 10 /\ 10 + Z.of_nat (length [x41; x54; x0d]) < 2 ^ 63
  /\ (0 + 1) mod size (ring_of opened_dev 2) <> 0
  /\ Z.of_nat (length [x41; x54; x0d]) <= page_size (ring_of opened_dev 2)
  /\ result_of (xmm7360_write 1 [x41; x54; x0d] 3 10 opened_dev) = Ok (3, 13).
Proof.
  assert (H1 : qp opened_dev !! Z.to_nat 1 = Some pair_1_open) by by_compute.
  assert (H2 : 0 <= num pair_1_open < 8) by by_compute.
  assert (H3 : bar0 opened_dev = true) by by_compute.
  assert (H6 : 0 <= 10) by lia.
  assert (H7 : 10 + Z.of_nat (length [x41; x54; x0d]) < 2 ^ 63) by by_compute.
  assert (H8 : (0 + 1) mod size (ring_of opened_dev 2) <> 0) by by_compute.
  assert (H9 : Z.of_nat (length [x41; x54; x0d]) <= page_size (ring_of opened_dev 2))
    by by_compute.
  destruct (xmm7360_write_spec opened_dev (cp_of opened_dev) 1 pair_1_open
              (ring_of opened_dev 2) 0 0 [x41; x54; x0d] 3 10
              H1 H2 H3 opened_dev_ring_at_2 opened_dev_ring_wf_2 H6 H7) as (_ & Hok & _).
  destruct (Hok H8 H9) as [Hrun _].
  change (Z.of_nat (length [x41; x54; x0d])) with 3 in Hrun.
  assert (H10 : result_of (xmm7360_write 1 [x41; x54; x0d] 3 10 opened_dev) = Ok (3, 13))
    by (rewrite Hrun; reflexivity).
  exact (conj H1 (conj H2 (conj H3 (conj opened_dev_ring_at_2 (conj opened_dev_ring_wf_2
          (conj H6 (conj H7 (conj H8 (conj H9 H10))))))))).
Defined.

(** ** Destroying a ring and closing a queue pair *)

Lemma td_ring_destroy_run s c rid ring :
  cp s = Some c -> bar0 s = true -> cmd_ring_wf c ->
  (c_wptr c + 1) mod CMD_RING_SIZE <> c_rptr c ->
  td_ring_ s !! Z.to_nat rid = Some ring -> size ring <> 0 ->
  xmm7360_td_ring_destroy rid s =
    (Ok tt,
     with_ring rid (ring_after_destroy ring)
       (set_cp (Some (after_submit CMD_RING_CLOSE rid 0 0 0 c)) s),
     submit_trace (c_wptr c) CMD_RING_CLOSE rid 0 0 0 ++ ding_trace c DOORBELL_CMD).
Proof.
  intros Hc Hb Hwf Hroom Hr Hsz. unfold xmm7360_td_ring_destroy.
  rewrite (bind_ok (get_ring rid) _ s ring s []) by (msimpl; rewrite Hr; reflexivity).
  rewrite decide_False by exact Hsz.
  rewrite (bind_ok _ _ _ _ _ _ (submit_ok s c CMD_RING_CLOSE rid 0 0 0 Hc Hwf Hroom)).
  erewrite ding_run; [ | reflexivity | exact Hb ].
  rewrite (bind_ok (get_ring rid) _ _ ring _ []) by (msimpl; rewrite Hr; reflexivity).
  unfold put_ring. msimpl. unfold ding_trace. cbn [after_submit cp_status set_c_wptr set_c_ring].
  rewrite app_nil_r. reflexivity.
Qed.

Lemma td_ring_destroy_full_cmd_ring_run s c rid ring :
  cp s = Some c -> bar0 s = true ->
  (c_wptr c + 1) mod CMD_RING_SIZE = c_rptr c ->
  td_ring_ s !! Z.to_nat rid = Some ring -> size ring <> 0 ->
  xmm7360_td_ring_destroy rid s =
    (Ok tt, with_ring rid (ring_after_destroy ring) s, ding_trace c DOORBELL_CMD).
Proof.
  intros Hc Hb Hfull Hr Hsz. unfold xmm7360_td_ring_destroy.
  rewrite (bind_ok (get_ring rid) _ s ring s []) by (msimpl; rewrite Hr; reflexivity).
  rewrite decide_False by exact Hsz.
  rewrite (bind_ok _ _ _ _ _ _ (submit_full s c CMD_RING_CLOSE rid 0 0 0 Hc Hfull)).
  erewrite ding_run; [ | exact Hc | exact Hb ].
  rewrite (bind_ok (get_ring rid) _ _ ring _ []) by (msimpl; rewrite Hr; reflexivity).
  unfold put_ring. msimpl. rewrite app_nil_r. reflexivity.
Qed.

(** X5.  [xmm7360_td_ring_destroy]:
    - on a ring that does not exist it does nothing (no command, no
      doorbell);
    - on an existing ring, when the command ring has room, it queues a
      RING_CLOSE command carrying the ring id, rings the command doorbell,
      and then gives up the descriptor array and the pages and sets the
      capacity to 0; the two ring pointers in the control page and
      [last_handled] keep the values they had;
    - when the command ring is full the ring's memory is given up all the
      same, but no RING_CLOSE command is queued: the result of
      [xmm7360_cmd_ring_submit] is not looked at. *)
Theorem td_ring_destroy_spec (s : xmm_dev) (c : control_page) (rid : Z) (ring : td_ring) :
  cp s = Some c -> bar0 s = true -> cmd_ring_wf c ->
  td_ring_ s !! Z.to_nat rid = Some ring ->
  let run := xmm7360_td_ring_destroy rid s in
  let gone := {| size := 0; last_handled := last_handled ring;
                 page_size := page_size ring; tds := []; tds_phys := tds_phys ring;
                 pages := []; pages_phys := [] |} in
  (size ring = 0 -> run = (Ok tt, s, []))
  /\ (size ring <> 0 -> (c_wptr c + 1) mod CMD_RING_SIZE <> c_rptr c ->
      exists c',
        run = (Ok tt, with_ring rid gone (set_cp (Some c') s),
               submit_trace (c_wptr c) CMD_RING_CLOSE rid 0 0 0
               ++ ding_trace c DOORBELL_CMD)
        /\ c_ring c' !! Z.to_nat (c_wptr c) = Some (submitted_entry CMD_RING_CLOSE rid 0 0 0)
        /\ c_wptr c' = (c_wptr c + 1) mod CMD_RING_SIZE
        /\ s_wptr c' = s_wptr c /\ s_rptr c' = s_rptr c)
  /\ (size ring <> 0 -> (c_wptr c + 1) mod CMD_RING_SIZE = c_rptr c ->
      run = (Ok tt, with_ring rid gone s, ding_trace c DOORBELL_CMD)).
Proof.
  intros Hc Hb Hwf Hr run gone. split; [| split].
  - intros Hsz. unfold run, xmm7360_td_ring_destroy.
    rewrite (bind_ok (get_ring rid) _ s ring s []) by (msimpl; rewrite Hr; reflexivity).
    rewrite decide_True by exact Hsz. reflexivity.
  - intros Hsz Hroom. exists (after_submit CMD_RING_CLOSE rid 0 0 0 c).
    split; [exact (td_ring_destroy_run s c rid ring Hc Hb Hwf Hroom Hr Hsz) |].
    destruct Hwf as [Hl Hw].
    split; [| repeat split].
    unfold after_submit. mreduce. apply list_lookup_insert_eq.
    rewrite Hl. unfold CMD_RING_SIZE in *. lia.
  - intros Hsz Hfull.
    exact (td_ring_destroy_full_cmd_ring_run s c rid ring Hc Hb Hfull Hr Hsz).
Qed.

Lemma td_ring_destroy_spec_witness :
  cp opened_dev = Some (cp_of opened_dev) /\ bar0 opened_dev = true
  /\ cmd_ring_wf (cp_of opened_dev)
  /\ td_ring_ opened_dev !! Z.to_nat 3 = Some (ring_of opened_dev 3)
  /\ size (ring_of opened_dev 3) <> 0
  /\ (c_wptr (cp_of opened_dev) + 1) mod CMD_RING_SIZE <> c_rptr (cp_of opened_dev)
  /\ size (ring_of (state_of (xmm7360_td_ring_destroy 3 opened_dev)) 3) = 0.
Proof.
  assert (H1 : cp opened_dev = Some (cp_of opened_dev)) by by_compute.
  assert (H2 : bar0 opened_dev = true) by by_compute.
  assert (H3 : cmd_ring_wf (cp_of opened_dev)) by (split; by_compute).
  assert (H4 : td_ring_ opened_dev !! Z.to_nat 3 = Some (ring_of opened_dev 3))
    by by_compute.
  assert (H5 : size (ring_of opened_dev 3) <> 0) by by_compute.
  assert (H6 : (c_wptr (cp_of opened_dev) + 1) mod CMD_RING_SIZE
               <> c_rptr (cp_of opened_dev)) by by_compute.
  destruct (td_ring_destroy_spec opened_dev _ 3 _ H1 H2 H3 H4) as (_ & Hok & _).
  destruct (Hok H5 H6) as (c' & Hrun & _).
  assert (H7 : size (ring_of (state_of (xmm7360_td_ring_destroy 3 opened_dev)) 3) = 0)
    by (rewrite Hrun; by_compute).
  exact (conj H1 (conj H2 (conj H3 (conj H4 (conj H5 (conj H6 H7)))))).
Defined.

Lemma qp_stop_run (s : xmm_dev) (c : control_page) (id : Z) (q : queue_pair)
    (ra rb : td_ring) :
  qp s !! Z.to_nat id = Some q -> open q <> 0 -> 0 <= num q < 8 ->
  bar0 s = true -> cp s = Some c -> cmd_ring_wf c ->
  td_ring_ s !! Z.to_nat (num q * 2) = Some ra -> size ra <> 0 ->
  td_ring_ s !! Z.to_nat (num q * 2 + 1) = Some rb -> size rb <> 0 ->
  (c_wptr c + 1) mod CMD_RING_SIZE <> c_rptr c ->
  (c_wptr c + 2) mod CMD_RING_SIZE <> c_rptr c ->
  xmm7360_qp_stop id s =
    (Ok 0, after_qp_stop id q c ra rb s,
     (submit_trace (c_wptr c) CMD_RING_CLOSE (num q * 2) 0 0 0
      ++ ding_trace c DOORBELL_CMD)
     ++ (submit_trace ((c_wptr c + 1) mod CMD_RING_SIZE) CMD_RING_CLOSE (num q * 2 + 1) 0 0 0
         ++ ding_trace c DOORBELL_CMD)).
Proof.
  intros Hq Hopen Hn Hb Hc Hwf Hra Hsa Hrb Hsb Hroom1 Hroom2.
  set (n := num q) in *.
  assert (Hu0 : u8 (n * 2) = n * 2) by (apply u8_small; lia).
  assert (Hu1 : u8 (n * 2 + 1) = n * 2 + 1) by (apply u8_small; lia).
  unfold xmm7360_qp_stop.
  rewrite (bind_ok (get_qp id) _ s q s []) by (msimpl; rewrite Hq; reflexivity).
  rewrite decide_False by exact Hopen.
  fold n. rewrite Hu0, Hu1.
  set (s1 := set_qp (<[Z.to_nat id := set_open 0 q]> (qp s)) s).
  rewrite (bind_ok (put_qp id (set_open 0 q)) _ s tt s1 []) by reflexivity.
  rewrite (bind_ok _ _ _ _ _ _
             (td_ring_destroy_run s1 c (n * 2) ra Hc Hb Hwf Hroom1 Hra Hsa)).
  set (c1 := after_submit CMD_RING_CLOSE (n * 2) 0 0 0 c).
  set (s2 := with_ring (n * 2) (ring_after_destroy ra) (set_cp (Some c1) s1)).
  assert (Hrb2 : td_ring_ s2 !! Z.to_nat (n * 2 + 1) = Some rb).
  { unfold s2, with_ring. mreduce. rewrite list_lookup_insert_ne by lia. exact Hrb. }
  assert (Hroom' : (c_wptr c1 + 1) mod CMD_RING_SIZE <> c_rptr c1).
  { unfold c1, after_submit. mreduce. rewrite Zplus_mod_idemp_l.
    replace (c_wptr c + 1 + 1) with (c_wptr c + 2) by lia. exact Hroom2. }
  rewrite (bind_ok _ _ _ _ _ _
             (td_ring_destroy_run s2 c1 (n * 2 + 1) rb eq_refl Hb
                (cmd_ring_wf_after_submit _ _ _ _ _ c Hwf) Hroom' Hrb2 Hsb)).
  unfold mret, M_ret. rewrite app_nil_r.
  unfold after_qp_stop, s2, s1, c1, with_ring, ding_trace. mreduce.
  cbn [after_submit cp_status set_c_wptr set_c_ring c_wptr]. fold n.
  reflexivity.
Qed.

(** X6.  [xmm7360_qp_stop] (and [xmm7360_release]) on an open pair whose two
    rings exist, with room for two commands in the command ring: it returns
    0, marks the pair closed, queues RING_CLOSE for the send ring [2n] and
    then for the receive ring [2n+1], ringing the command doorbell after
    each, and gives up the descriptors and pages of both rings, whose
    capacity becomes 0.  The ring pointers in the control page are not
    reset and the receive ring keeps its [last_handled]. *)
Theorem qp_stop_closes (s : xmm_dev) (c : control_page) (id : Z) (q : queue_pair)
    (ra rb : td_ring) :
  qp s !! Z.to_nat id = Some q -> open q <> 0 -> 0 <= num q < 8 ->
  bar0 s = true -> cp s = Some c -> cmd_ring_wf c ->
  td_ring_ s !! Z.to_nat (num q * 2) = Some ra -> size ra <> 0 ->
  td_ring_ s !! Z.to_nat (num q * 2 + 1) = Some rb -> size rb <> 0 ->
  (c_wptr c + 1) mod CMD_RING_SIZE <> c_rptr c ->
  (c_wptr c + 2) mod CMD_RING_SIZE <> c_rptr c ->
  let tx := num q * 2 in
  let rx := num q * 2 + 1 in
  let w := c_wptr c in
  let w' := (c_wptr c + 1) mod CMD_RING_SIZE in
  exists s',
    xmm7360_qp_stop id s =
      (Ok 0, s',
       (submit_trace w CMD_RING_CLOSE tx 0 0 0 ++ ding_trace c DOORBELL_CMD)
       ++ (submit_trace w' CMD_RING_CLOSE rx 0 0 0 ++ ding_trace c DOORBELL_CMD))
    /\ xmm7360_release id s = xmm7360_qp_stop id s
    /\ qp s' !! Z.to_nat id = Some {| qp_xmm := qp_xmm q; num := num q; open := 0 |}
    /\ size (ring_of s' tx) = 0 /\ tds (ring_of s' tx) = [] /\ pages (ring_of s' tx) = []
    /\ size (ring_of s' rx) = 0 /\ tds (ring_of s' rx) = [] /\ pages (ring_of s' rx) = []
    /\ last_handled (ring_of s' rx) = last_handled rb
    /\ s_wptr (cp_of s') = s_wptr c /\ s_rptr (cp_of s') = s_rptr c
    /\ c_ring (cp_of s') !! Z.to_nat w = Some (submitted_entry CMD_RING_CLOSE tx 0 0 0)
    /\ c_ring (cp_of s') !! Z.to_nat w' = Some (submitted_entry CMD_RING_CLOSE rx 0 0 0)
    /\ c_wptr (cp_of s') = (c_wptr c + 2) mod CMD_RING_SIZE.
Proof.
  intros Hq Hopen Hn Hb Hc Hwf Hra Hsa Hrb Hsb Hroom1 Hroom2 tx rx w w'.
  exists (after_qp_stop id q c ra rb s).
  split; [ exact (qp_stop_run s c id q ra rb Hq Hopen Hn Hb Hc Hwf Hra Hsa Hrb Hsb
                    Hroom1 Hroom2) |].
  split; [reflexivity |].
  destruct Hwf as [Hlc Hw].
  assert (Hlt : (Z.to_nat tx < length (td_ring_ s))%nat)
    by (apply lookup_lt_is_Some; eauto).
  assert (Hlt' : (Z.to_nat rx < length (td_ring_ s))%nat)
    by (apply lookup_lt_is_Some; eauto).
  assert (Hw' : 0 <= w' < CMD_RING_SIZE) by (apply Z.mod_pos_bound; reflexivity).
  assert (Hww : w' <> w).
  { unfold w', w, CMD_RING_SIZE in *.
    destruct (decide (c_wptr c + 1 = 128)) as [E | E].
    - rewrite E, Z.mod_same by lia. lia.
    - rewrite Z.mod_small by lia. lia. }
  set (s' := after_qp_stop id q c ra rb s).
  assert (Eqp : qp s' = <[Z.to_nat id := set_open 0 q]> (qp s)) by reflexivity.
  assert (Erings : td_ring_ s'
                   = <[Z.to_nat rx := ring_after_destroy rb]>
                       (<[Z.to_nat tx := ring_after_destroy ra]> (td_ring_ s)))
    by reflexivity.
  assert (Ew : s_wptr (cp_of s') = s_wptr c) by reflexivity.
  assert (Er : s_rptr (cp_of s') = s_rptr c) by reflexivity.
  assert (Ering : c_ring (cp_of s')
                  = <[Z.to_nat w' := submitted_entry CMD_RING_CLOSE rx 0 0 0]>
                      (<[Z.to_nat w := submitted_entry CMD_RING_CLOSE tx 0 0 0]>
                         (c_ring c)))
    by reflexivity.
  assert (Ecw : c_wptr (cp_of s') = (w' + 1) mod CMD_RING_SIZE) by reflexivity.
  assert (Hne : Z.to_nat rx <> Z.to_nat tx) by (unfold tx, rx; lia).
  assert (Hrx : ring_of s' rx = ring_after_destroy rb).
  { unfold ring_of. rewrite Erings.
    rewrite list_lookup_insert_eq by (rewrite length_insert; exact Hlt'). reflexivity. }
  assert (Htx : ring_of s' tx = ring_after_destroy ra).
  { unfold ring_of. rewrite Erings. rewrite list_lookup_insert_ne by exact Hne.
    rewrite list_lookup_insert_eq by exact Hlt. reflexivity. }
  clearbody s'. rewrite Hrx, Htx.
  split; [rewrite Eqp; apply list_lookup_insert_eq, lookup_lt_is_Some; eauto |].
  do 7 (split; [reflexivity |]).
  split; [exact Ew |]. split; [exact Er |].
  split; [| split].
  - rewrite Ering. rewrite list_lookup_insert_ne by lia.
    apply list_lookup_insert_eq. unfold w, CMD_RING_SIZE in *. lia.
  - rewrite Ering. apply list_lookup_insert_eq. rewrite length_insert.
    unfold CMD_RING_SIZE in *. lia.
  - rewrite Ecw. unfold w'. rewrite Zplus_mod_idemp_l. f_equal. lia.
Qed.

Lemma qp_stop_closes_witness :
  qp opened_dev !! Z.to_nat 1 = Some pair_1_open /\ open pair_1_open <> 0
  /\ 0 <= num pair_1_open < 8 /\ bar0 opened_dev = true
  /\ cp opened_dev = Some (cp_of opened_dev) /\ cmd_ring_wf (cp_of opened_dev)
  /\ td_ring_ opened_dev !! Z.to_nat (num pair_1_open * 2) = Some (ring_of opened_dev 2)
  /\ size (ring_of opened_dev 2) <> 0
  /\ td_ring_ opened_dev !! Z.to_nat (num pair_1_open * 2 + 1) = Some (ring_of opened_dev 3)
  /\ size (ring_of opened_dev 3) <> 0
  /\ (c_wptr (cp_of opened_dev) + 1) mod CMD_RING_SIZE <> c_rptr (cp_of opened_dev)
  /\ (c_wptr (cp_of opened_dev) + 2) mod CMD_RING_SIZE <> c_rptr (cp_of opened_dev)
  /\ result_of (xmm7360_qp_stop 1 opened_dev) = Ok 0.
Proof.
  assert (H1 : qp opened_dev !! Z.to_nat 1 = Some pair_1_open) by by_compute.
  assert (H2 : open pair_1_open <> 0) by by_compute.
  assert (H3 : 0 <= num pair_1_open < 8) by by_compute.
  assert (H4 : bar0 opened_dev = true) by by_compute.
  assert (H5 : cp opened_dev = Some (cp_of opened_dev)) by by_compute.
  assert (H6 : cmd_ring_wf (cp_of opened_dev)) by (split; by_compute).
  assert (H7 : td_ring_ opened_dev !! Z.to_nat (num pair_1_open * 2)
               = Some (ring_of opened_dev 2)) by by_compute.
  assert (H8 : size (ring_of opened_dev 2) <> 0) by by_compute.
  assert (H9 : td_ring_ opened_dev !! Z.to_nat (num pair_1_open * 2 + 1)
               = Some (ring_of opened_dev 3)) by by_compute.
  assert (H10 : size (ring_of opened_dev 3) <> 0) by by_compute.
  assert (H11 : (c_wptr (cp_of opened_dev) + 1) mod CMD_RING_SIZE
                <> c_rptr (cp_of opened_dev)) by by_compute.
  assert (H12 : (c_wptr (cp_of opened_dev) + 2) mod CMD_RING_SIZE
                <> c_rptr (cp_of opened_dev)) by by_compute.
  destruct (qp_stop_closes opened_dev _ 1 pair_1_open _ _
              H1 H2 H3 H4 H5 H6 H7 H8 H9 H10 H11 H12) as (s' & Hrun & _).
  assert (H13 : result_of (xmm7360_qp_stop 1 opened_dev) = Ok 0)
    by (rewrite Hrun; reflexivity).
  exact (conj H1 (conj H2 (conj H3 (conj H4 (conj H5 (conj H6 (conj H7 (conj H8
          (conj H9 (conj H10 (conj H11 (conj H12 H13)))))))))))).
Defined.

(** ** Opening a pair again *)

(** What the state reached by [xmm7360_qp_start] looks like *)
Lemma after_qp_start_facts (s : xmm_dev) (c : control_page) (id : Z) (q : queue_pair)
    (ra rb : td_ring) :
  qp s !! Z.to_nat id = Some q -> 0 <= num q < 8 -> cmd_ring_wf c ->
  length (s_wptr c) = 16%nat -> length (s_rptr c) = 16%nat ->
  td_ring_ s !! Z.to_nat (num q * 2) = Some ra ->
  td_ring_ s !! Z.to_nat (num q * 2 + 1) = Some rb ->
  let tx := num q * 2 in
  let rx := num q * 2 + 1 in
  let s' := after_qp_start id q c s in
  cp s' = Some (cp_of s')
  /\ qp s' !! Z.to_nat id = Some (set_open 1 q)
  /\ td_ring_ s' !! Z.to_nat tx = Some (fresh_ring 8 (dma_brk s))
  /\ td_ring_ s' !! Z.to_nat rx
     = Some (posted 7 0 (fresh_ring 8 (dma_brk s + ring_footprint)))
  /\ s_wptr (cp_of s') !! Z.to_nat tx = Some 0
  /\ s_rptr (cp_of s') !! Z.to_nat tx = Some 0
  /\ s_wptr (cp_of s') !! Z.to_nat rx = Some 7
  /\ s_rptr (cp_of s') !! Z.to_nat rx = Some 0
  /\ c_wptr (cp_of s') = (c_wptr c + 2) mod CMD_RING_SIZE
  /\ c_rptr (cp_of s') = c_rptr c
  /\ cmd_ring_wf (cp_of s')
  /\ length (s_wptr (cp_of s')) = 16%nat /\ length (s_rptr (cp_of s')) = 16%nat
  /\ bar0 s' = bar0 s.
Proof.
  intros Hq Hn [Hlc Hw] Hlw Hlr Hra Hrb tx rx s'.
  assert (Hlt : (Z.to_nat tx < length (td_ring_ s))%nat)
    by (apply lookup_lt_is_Some; eauto).
  assert (Hlt' : (Z.to_nat rx < length (td_ring_ s))%nat)
    by (apply lookup_lt_is_Some; eauto).
  assert (Hbrk : dma_brk s + sizeof_td_ring_entry * 8 + Z.of_nat (Z.to_nat 8) * 4096
                 = dma_brk s + ring_footprint).
  { unfold ring_footprint, sizeof_td_ring_entry.
    change (Z.of_nat (Z.to_nat 8)) with 8. lia. }
  set (base' := dma_brk s + sizeof_td_ring_entry * 8 + Z.of_nat (Z.to_nat 8) * 4096) in *.
  assert (Eqp : qp s' = <[Z.to_nat id := set_open 1 q]> (qp s)) by reflexivity.
  assert (Erings : td_ring_ s'
                   = <[Z.to_nat rx := posted 7 0 (fresh_ring 8 base')]>
                       (<[Z.to_nat rx := fresh_ring 8 base']>
                          (<[Z.to_nat tx := fresh_ring 8 (dma_brk s)]> (td_ring_ s))))
    by reflexivity.
  assert (Ew : s_wptr (cp_of s')
               = <[Z.to_nat rx := 7]>
                   (<[Z.to_nat rx := 0]> (<[Z.to_nat tx := 0]> (s_wptr c))))
    by reflexivity.
  assert (Er : s_rptr (cp_of s')
               = <[Z.to_nat rx := 0]> (<[Z.to_nat tx := 0]> (s_rptr c)))
    by reflexivity.
  assert (Elen : length (c_ring (cp_of s')) = length (c_ring c)).
  { change (c_ring (cp_of s')) with
      (<[Z.to_nat ((c_wptr c + 1) mod CMD_RING_SIZE)
           := submitted_entry CMD_RING_OPEN rx 8 base' 0x60]>
         (<[Z.to_nat (c_wptr c) := submitted_entry CMD_RING_OPEN tx 8 (dma_brk s) 0x60]>
            (c_ring c))).
    rewrite !length_insert. reflexivity. }
  assert (Ecw : c_wptr (cp_of s')
                = ((c_wptr c + 1) mod CMD_RING_SIZE + 1) mod CMD_RING_SIZE) by reflexivity.
  assert (Ecr : c_rptr (cp_of s') = c_rptr c) by reflexivity.
  assert (Ecp : cp s' = Some (cp_of s')) by reflexivity.
  assert (Eb : bar0 s' = bar0 s) by reflexivity.
  assert (Hne : Z.to_nat rx <> Z.to_nat tx) by (unfold tx, rx; lia).
  clearbody s'. rewrite <- Hbrk.
  split; [exact Ecp |].
  split; [rewrite Eqp; apply list_lookup_insert_eq, lookup_lt_is_Some; eauto |].
  split; [rewrite Erings, !list_lookup_insert_ne by exact Hne;
          apply list_lookup_insert_eq; exact Hlt |].
  split; [rewrite Erings; apply list_lookup_insert_eq; rewrite !length_insert; exact Hlt' |].
  split; [rewrite Ew, !list_lookup_insert_ne by exact Hne;
          apply list_lookup_insert_eq; unfold tx; lia |].
  split; [rewrite Er, !list_lookup_insert_ne by exact Hne;
          apply list_lookup_insert_eq; unfold tx; lia |].
  split; [rewrite Ew; apply list_lookup_insert_eq; rewrite !length_insert; unfold rx; lia |].
  split; [rewrite Er; apply list_lookup_insert_eq; rewrite !length_insert; unfold rx; lia |].
  split; [rewrite Ecw, Zplus_mod_idemp_l; f_equal; lia |].
  split; [exact Ecr |].
  split; [split; [rewrite Elen; exact Hlc
                 | rewrite Ecw; apply Z.mod_pos_bound; reflexivity] |].
  split; [rewrite Ew, !length_insert; exact Hlw |].
  split; [rewrite Er, !length_insert; exact Hlr | exact Eb].
Qed.

Lemma posted_size k : forall w ring, size (posted k w ring) = size ring.
Proof.
  induction k as [| k IH]; intros w ring; [reflexivity |].
  cbn [posted]. rewrite IH. apply ring_after_post_size.
Qed.

Lemma posted_last_handled k : forall w ring,
  last_handled (posted k w ring) = last_handled ring.
Proof.
  induction k as [| k IH]; intros w ring; [reflexivity |].
  cbn [posted]. rewrite IH. apply ring_after_post_last_handled.
Qed.

Lemma posted_wf k : forall w ring,
  ring_wf ring w -> ring_wf (posted k w ring) ((w + Z.of_nat k) mod size ring).
Proof.
  induction k as [| k IH]; intros w ring Hwf.
  - cbn [posted]. rewrite Z.add_0_r.
    destruct Hwf as [Hpow ? ? ? ? Hw ?]. pose proof (pow2_size_pos _ Hpow).
    rewrite Z.mod_small by lia. split; assumption.
  - cbn [posted]. pose proof (IH _ _ (ring_wf_after_post ring w Hwf)) as H.
    rewrite ring_after_post_size in H. rewrite Zplus_mod_idemp_l in H.
    replace (w + 1 + Z.of_nat k) with (w + Z.of_nat (S k)) in H by lia. exact H.
Qed.

(** X7.  Closing an open pair and opening it again works, whatever state
    the earlier session left in the rings: with room for four commands in
    the command ring, [xmm7360_release] followed by [xmm7360_open] returns
    0 twice and leaves the pair open with two rings of 8 slots built
    afresh, each descriptor pointing at a zeroed page.  The stale ring
    pointers and the stale [last_handled], which [xmm7360_td_ring_destroy]
    had left alone, are reset: send ring empty (0, 0), receive ring with
    seven slots posted (write pointer 7, read pointer 0) and
    [last_handled = 0], one slot past the write pointer. *)
Theorem qp_close_then_open (s : xmm_dev) (c : control_page) (id : Z) (q : queue_pair)
    (ra rb : td_ring) (budget : nat) :
  qp s !! Z.to_nat id = Some q -> open q <> 0 -> 0 <= num q < 8 ->
  bar0 s = true -> cp s = Some c -> cmd_ring_wf c ->
  length (s_wptr c) = 16%nat -> length (s_rptr c) = 16%nat ->
  td_ring_ s !! Z.to_nat (num q * 2) = Some ra -> size ra <> 0 ->
  td_ring_ s !! Z.to_nat (num q * 2 + 1) = Some rb -> size rb <> 0 ->
  (forall k, 1 <= k <= 4 -> (c_wptr c + k) mod CMD_RING_SIZE <> c_rptr c) ->
  (8 <= budget)%nat ->
  let tx := num q * 2 in
  let rx := num q * 2 + 1 in
  let run := (r1 ← xmm7360_release id; r2 ← xmm7360_open budget id; mret (r1, r2)) s in
  result_of run = Ok (0, 0)
  /\ qp (state_of run) !! Z.to_nat id
     = Some {| qp_xmm := qp_xmm q; num := num q; open := 1 |}
  /\ ring_of (state_of run) tx = fresh_ring 8 (dma_brk s)
  /\ ring_of (state_of run) rx = posted 7 0 (fresh_ring 8 (dma_brk s + ring_footprint))
  /\ last_handled (ring_of (state_of run) rx) = 0
  /\ s_wptr (cp_of (state_of run)) !! Z.to_nat tx = Some 0
  /\ s_rptr (cp_of (state_of run)) !! Z.to_nat tx = Some 0
  /\ s_wptr (cp_of (state_of run)) !! Z.to_nat rx = Some 7
  /\ s_rptr (cp_of (state_of run)) !! Z.to_nat rx = Some 0
  /\ c_wptr (cp_of (state_of run)) = (c_wptr c + 4) mod CMD_RING_SIZE.
Proof.
  intros Hq Hopen Hn Hb Hc Hwf Hlw Hlr Hra Hsa Hrb Hsb Hroom Hbud tx rx run.
  pose proof (qp_stop_run s c id q ra rb Hq Hopen Hn Hb Hc Hwf Hra Hsa Hrb Hsb
                (Hroom 1 ltac:(lia)) (Hroom 2 ltac:(lia))) as Hstop.
  set (s1 := after_qp_stop id q c ra rb s) in *.
  set (c1 := after_submit CMD_RING_CLOSE tx 0 0 0 c).
  set (c2 := after_submit CMD_RING_CLOSE rx 0 0 0 c1).
  assert (Hc1 : cp s1 = Some c2) by reflexivity.
  assert (Hwf2 : cmd_ring_wf c2) by (do 2 apply cmd_ring_wf_after_submit; exact Hwf).
  assert (Hw2 : c_wptr c2 = (c_wptr c + 2) mod CMD_RING_SIZE).
  { unfold c2, c1, after_submit. mreduce. rewrite Zplus_mod_idemp_l. f_equal. lia. }
  assert (Hr2 : c_rptr c2 = c_rptr c) by reflexivity.
  assert (Hlt : (Z.to_nat tx < length (td_ring_ s))%nat)
    by (apply lookup_lt_is_Some; eauto).
  assert (Hlt' : (Z.to_nat rx < length (td_ring_ s))%nat)
    by (apply lookup_lt_is_Some; eauto).
  assert (Hq1 : qp s1 !! Z.to_nat id = Some (set_open 0 q)).
  { unfold s1, after_qp_stop, with_ring. mreduce.
    apply list_lookup_insert_eq, lookup_lt_is_Some. eauto. }
  assert (Hra1 : td_ring_ s1 !! Z.to_nat (num (set_open 0 q) * 2)
                 = Some (ring_after_destroy ra)).
  { unfold s1, after_qp_stop, with_ring. mreduce. cbn [set_open num]. fold tx rx.
    rewrite list_lookup_insert_ne by (unfold tx, rx; lia).
    apply list_lookup_insert_eq. exact Hlt. }
  assert (Hrb1 : td_ring_ s1 !! Z.to_nat (num (set_open 0 q) * 2 + 1)
                 = Some (ring_after_destroy rb)).
  { unfold s1, after_qp_stop, with_ring. mreduce. cbn [set_open num]. fold tx rx.
    apply list_lookup_insert_eq. rewrite length_insert. exact Hlt'. }
  assert (Hroom3 : (c_wptr c2 + 1) mod CMD_RING_SIZE <> c_rptr c2).
  { rewrite Hw2, Hr2, Zplus_mod_idemp_l.
    replace (c_wptr c + 2 + 1) with (c_wptr c + 3) by lia. apply Hroom. lia. }
  assert (Hroom4 : (c_wptr c2 + 2) mod CMD_RING_SIZE <> c_rptr c2).
  { rewrite Hw2, Hr2, Zplus_mod_idemp_l.
    replace (c_wptr c + 2 + 2) with (c_wptr c + 4) by lia. apply Hroom. lia. }
  pose proof (qp_start_run s1 c2 id (set_open 0 q) _ _ budget Hq1 eq_refl Hn Hb Hc1 Hwf2
                Hlw Hlr Hra1 eq_refl Hrb1 eq_refl Hroom3 Hroom4 Hbud) as Hstart.
  destruct (after_qp_start_facts s1 c2 id (set_open 0 q) _ _ Hq1 Hn Hwf2 Hlw Hlr Hra1 Hrb1)
    as (Fcp & Fq & Ftx & Frx & Fwt & Frt & Fwr & Frr & Fcw & _).
  cbn [set_open num] in Ftx, Frx, Fwt, Frt, Fwr, Frr.
  fold rx in Frx, Fwr, Frr. fold tx in Ftx, Fwt, Frt.
  assert (Hrun : run = (Ok (0, 0), after_qp_start id (set_open 0 q) c2 s1,
                        trace_of (xmm7360_qp_stop id s)
                        ++ trace_of (xmm7360_qp_start budget id s1) ++ [])).
  { unfold run, xmm7360_release, xmm7360_open.
    rewrite Hstop. unfold trace_of at 1. cbn [snd].
    rewrite (bind_ok _ _ _ _ _ _ Hstop).
    rewrite Hstart. unfold trace_of. cbn [snd].
    rewrite (bind_ok _ _ _ _ _ _ Hstart). reflexivity. }
  rewrite Hrun. unfold result_of, state_of. cbn [fst snd].
  set (s2 := after_qp_start id (set_open 0 q) c2 s1) in *. clearbody s2.
  split; [reflexivity |].
  split; [rewrite Fq; reflexivity |].
  unfold ring_of. rewrite Ftx, Frx. cbn [default from_option]. unfold Datatypes.id.
  split; [reflexivity |]. split; [reflexivity |].
  split; [rewrite posted_last_handled; reflexivity |].
  split; [exact Fwt |]. split; [exact Frt |]. split; [exact Fwr |]. split; [exact Frr |].
  rewrite Fcw, Hw2, Zplus_mod_idemp_l. f_equal. lia.
Qed.

Lemma qp_close_then_open_witness :
  qp opened_dev !! Z.to_nat 1 = Some pair_1_open /\ open pair_1_open <> 0
  /\ 0 <= num pair_1_open < 8 /\ bar0 opened_dev = true
  /\ cp opened_dev = Some (cp_of opened_dev) /\ cmd_ring_wf (cp_of opened_dev)
  /\ length (s_wptr (cp_of opened_dev)) = 16%nat
  /\ length (s_rptr (cp_of opened_dev)) = 16%nat
  /\ td_ring_ opened_dev !! Z.to_nat (num pair_1_open * 2) = Some (ring_of opened_dev 2)
  /\ size (ring_of opened_dev 2) <> 0
  /\ td_ring_ opened_dev !! Z.to_nat (num pair_1_open * 2 + 1) = Some (ring_of opened_dev 3)
  /\ size (ring_of opened_dev 3) <> 0
  /\ (forall k, 1 <= k <= 4 ->
        (c_wptr (cp_of opened_dev) + k) mod CMD_RING_SIZE <> c_rptr (cp_of opened_dev))
  /\ (8 <= 8)%nat
  /\ result_of ((r1 ← xmm7360_release 1; r2 ← xmm7360_open 8 1; mret (r1, r2)) opened_dev)
     = Ok (0, 0).
Proof.
  assert (H1 : qp opened_dev !! Z.to_nat 1 = Some pair_1_open) by by_compute.
  assert (H2 : open pair_1_open <> 0) by by_compute.
  assert (H3 : 0 <= num pair_1_open < 8) by by_compute.
  assert (H4 : bar0 opened_dev = true) by by_compute.
  assert (H5 : cp opened_dev = Some (cp_of opened_dev)) by by_compute.
  assert (H6 : cmd_ring_wf (cp_of opened_dev)) by (split; by_compute).
  assert (H6a : length (s_wptr (cp_of opened_dev)) = 16%nat) by by_compute.
  assert (H6b : length (s_rptr (cp_of opened_dev)) = 16%nat) by by_compute.
  assert (H7 : td_ring_ opened_dev !! Z.to_nat (num pair_1_open * 2)
               = Some (ring_of opened_dev 2)) by by_compute.
  assert (H8 : size (ring_of opened_dev 2) <> 0) by by_compute.
  assert (H9 : td_ring_ opened_dev !! Z.to_nat (num pair_1_open * 2 + 1)
               = Some (ring_of opened_dev 3)) by by_compute.
  assert (H10 : size (ring_of opened_dev 3) <> 0) by by_compute.
  assert (H11 : forall k, 1 <= k <= 4 ->
            (c_wptr (cp_of opened_dev) + k) mod CMD_RING_SIZE <> c_rptr (cp_of opened_dev)).
  { assert (Ew : c_wptr (cp_of opened_dev) = 2) by by_compute.
    assert (Er : c_rptr (cp_of opened_dev) = 0) by by_compute.
    rewrite Ew, Er. clear. intros k Hk. unfold CMD_RING_SIZE.
    rewrite Z.mod_small by lia. lia. }
  assert (H12 : (8 <= 8)%nat) by (apply Nat.le_refl).
  pose proof (qp_close_then_open opened_dev _ 1 pair_1_open _ _ 8
                H1 H2 H3 H4 H5 H6 H6a H6b H7 H8 H9 H10 H11 H12) as Hthm.
  exact (conj H1 (conj H2 (conj H3 (conj H4 (conj H5 (conj H6 (conj H6a (conj H6b
          (conj H7 (conj H8 (conj H9 (conj H10 (conj H11 (conj H12 (proj1 Hthm))))))))))))))).
Defined.

(** ** The receive ring between reads *)

(** X8.  The receive ring is kept in one shape by the two paths that move
    its write pointer.  [xmm7360_qp_start], run on a closed pair with
    room for two commands, leaves the receive ring [2n+1] well formed with its
    write pointer one slot behind [last_handled].  A read that finds data
    on a ring in that shape (with a delivered length that fits a page)
    returns normally (the overrun assertion of [xmm7360_td_ring_read]
    cannot fire) and leaves the ring in that shape again, with the read
    pointer and the capacity as they were: reads can follow one another. *)
Theorem rx_ring_invariant (s : xmm_dev) (c : control_page) (id : Z) (q : queue_pair) :
  qp s !! Z.to_nat id = Some q -> 0 <= num q < 8 -> bar0 s = true ->
  cp s = Some c ->
  let rx := num q * 2 + 1 in
  (forall (ra rb : td_ring) (budget : nat),
     open q = 0 -> cmd_ring_wf c ->
     length (s_wptr c) = 16%nat -> length (s_rptr c) = 16%nat ->
     td_ring_ s !! Z.to_nat (num q * 2) = Some ra -> size ra = 0 ->
     td_ring_ s !! Z.to_nat rx = Some rb -> size rb = 0 ->
     (c_wptr c + 1) mod CMD_RING_SIZE <> c_rptr c ->
     (c_wptr c + 2) mod CMD_RING_SIZE <> c_rptr c ->
     (8 <= budget)%nat ->
     rx_invariant (state_of (xmm7360_qp_start budget id s)) rx)
  /\ (forall (ring : td_ring) (w r : Z) (td : td_ring_entry) (nbytes : Z)
             (signal_pending : bool),
       ring_at s rx c ring w r -> ring_wf ring w ->
       (w + 1) mod size ring = last_handled ring ->
       r <> last_handled ring ->
       tds ring !! Z.to_nat (last_handled ring) = Some td ->
       0 <= td_length td <= page_size ring -> 0 <= nbytes < 2 ^ 64 ->
       let run := xmm7360_qp_read_user signal_pending id nbytes s in
       result_of run = Ok (Z.min (td_length td) nbytes)
       /\ rx_invariant (state_of run) rx
       /\ s_rptr (cp_of (state_of run)) !! Z.to_nat rx = Some r
       /\ size (ring_of (state_of run) rx) = size ring).
Proof.
  intros Hq Hn Hb Hc rx. split.
  - intros ra rb budget Hopen Hwf Hlw Hlr Hra Hsa Hrb Hsb Hroom1 Hroom2 Hbud.
    rewrite (qp_start_run s c id q ra rb budget Hq Hopen Hn Hb Hc Hwf Hlw Hlr
               Hra Hsa Hrb Hsb Hroom1 Hroom2 Hbud).
    unfold state_of. cbn [fst snd].
    destruct (after_qp_start_facts s c id q ra rb Hq Hn Hwf Hlw Hlr Hra Hrb)
      as (Fcp & _ & _ & Frx & _ & _ & Fwr & Frr & _).
    fold rx in Frx, Fwr, Frr.
    exists (cp_of (after_qp_start id q c s)),
           (posted 7 0 (fresh_ring 8 (dma_brk s + ring_footprint))), 7, 0.
    split; [split; assumption |].
    split.
    + exact (posted_wf 7 0 _ (fresh_ring_wf _)).
    + rewrite posted_size, posted_last_handled. reflexivity.
  - intros ring w r td nbytes signal_pending Hat Hwf Hinv Hdata Htd Hlen Hnb run.
    pose proof Hat as [_ Hrg Hw Hrp].
    pose proof Hwf as [Hpow Htds Hpages Hplen Hps Hwr Hlh].
    pose proof (pow2_size_pos _ Hpow) as Hpos.
    destruct (lookup_lt_is_Some_2 (pages ring) (Z.to_nat (last_handled ring)) ltac:(lia))
      as [page Hpage].
    assert (Hrun : run = (Ok (Z.min (td_length td) nbytes),
                          after_qp_read rx w c ring s,
                          [CopyToUser (take (Z.to_nat (Z.min (td_length td) nbytes)) page)]
                          ++ post_trace rx w (page_size ring) (last_handled ring)
                          ++ ding_trace c DOORBELL_TD))
      by exact (qp_read_user_run s c id q ring w r td page nbytes signal_pending
                  Hq Hn Hb Hat Hwf Hdata Hinv Htd Hpage Hlen Hnb).
    rewrite Hrun. unfold result_of, state_of. cbn [fst snd].
    assert (Hi : (Z.to_nat rx < length (td_ring_ s))%nat)
      by (apply lookup_lt_is_Some; eauto).
    set (ring' := set_last_handled ((last_handled ring + 1) mod size ring)
                    (ring_after_post w ring)).
    set (c' := set_s_wptr (<[Z.to_nat rx := last_handled ring]> (s_wptr c)) c).
    assert (Hat' : ring_at (after_qp_read rx w c ring s) rx c' ring' (last_handled ring) r).
    { split.
      - reflexivity.
      - unfold after_qp_read, with_ring, with_s_wptr. mreduce.
        apply list_lookup_insert_eq. rewrite length_insert. exact Hi.
      - unfold c'. mreduce. apply list_lookup_insert_eq, lookup_lt_is_Some. eauto.
      - exact Hrp. }
    assert (Hsz' : size ring' = size ring) by (apply ring_after_post_size).
    split; [reflexivity |].
    split; [| split].
    + exists c', ring', (last_handled ring), r.
      split; [exact Hat' |].
      pose proof (ring_wf_after_post ring w Hwf) as [A B C D E F G].
      split.
      * split; [exact A | exact B | exact C | exact D | exact E | |].
        -- rewrite Hsz'. exact Hlh.
        -- rewrite Hsz'. unfold ring'. mreduce. apply Z.mod_pos_bound. lia.
      * rewrite Hsz'. reflexivity.
    + destruct Hat' as [Hc' _ _ Hrp']. unfold cp_of. rewrite Hc'. exact Hrp'.
    + destruct Hat' as [_ Hr' _ _]. unfold ring_of. rewrite Hr'. exact Hsz'.
Qed.

Lemma rx_ring_invariant_witness :
  qp delivered_dev !! Z.to_nat 1 = Some pair_1_open /\ 0 <= num pair_1_open < 8
  /\ bar0 delivered_dev = true /\ cp delivered_dev = Some (cp_of delivered_dev)
  /\ ring_at delivered_dev (num pair_1_open * 2 + 1) (cp_of delivered_dev)
       (ring_of delivered_dev 3) 7 1
  /\ ring_wf (ring_of delivered_dev 3) 7
  /\ (7 + 1) mod size (ring_of delivered_dev 3) = last_handled (ring_of delivered_dev 3)
  /\ 1 <> last_handled (ring_of delivered_dev 3)
  /\ tds (ring_of delivered_dev 3) !! Z.to_nat (last_handled (ring_of delivered_dev 3))
     = Some delivered_td
  /\ 0 <= td_length delivered_td <= page_size (ring_of delivered_dev 3)
  /\ 0 <= 100 < 2 ^ 64
  /\ rx_invariant (state_of (xmm7360_qp_read_user false 1 100 delivered_dev))
       (num pair_1_open * 2 + 1).
Proof.
  assert (H1 : qp delivered_dev !! Z.to_nat 1 = Some pair_1_open) by by_compute.
  assert (H2 : 0 <= num pair_1_open < 8) by by_compute.
  assert (H3 : bar0 delivered_dev = true) by by_compute.
  assert (H3a : cp delivered_dev = Some (cp_of delivered_dev)) by by_compute.
  assert (H4 : ring_at delivered_dev (num pair_1_open * 2 + 1) (cp_of delivered_dev)
                 (ring_of delivered_dev 3) 7 1)
    by (split; by_compute).
  assert (H5 : ring_wf (ring_of delivered_dev 3) 7).
  { split.
    - exact pow2_size_8.
    - by_compute.
    - by_compute.
    - refine (bool_decide_unpack _ _). vm_compute. exact I.
    - by_compute.
    - by_compute.
    - by_compute. }
  assert (H6 : (7 + 1) mod size (ring_of delivered_dev 3)
               = last_handled (ring_of delivered_dev 3)) by by_compute.
  assert (H7 : 1 <> last_handled (ring_of delivered_dev 3)) by by_compute.
  assert (H8 : tds (ring_of delivered_dev 3)
                 !! Z.to_nat (last_handled (ring_of delivered_dev 3))
               = Some delivered_td) by by_compute.
  assert (H9 : 0 <= td_length delivered_td <= page_size (ring_of delivered_dev 3))
    by by_compute.
  assert (H10 : 0 <= 100 < 2 ^ 64) by lia.
  pose proof (proj2 (rx_ring_invariant delivered_dev (cp_of delivered_dev) 1 pair_1_open
                       H1 H2 H3 H3a)
                (ring_of delivered_dev 3) 7 1 delivered_td 100 false
                H4 H5 H6 H7 H8 H9 H10) as Hthm.
  exact (conj H1 (conj H2 (conj H3 (conj H3a (conj H4 (conj H5 (conj H6 (conj H7
          (conj H8 (conj H9 (conj H10 (proj1 (proj2 Hthm))))))))))))).
Defined.

(** ** A delivered length above the page size *)

(** X9.  [xmm7360_qp_read_user] takes the length of a delivery from the
    descriptor the modem wrote and bounds it only by the size of the
    caller's buffer, not by the size of the page: when the descriptor at
    [last_handled] carries a length above the page length and the caller's
    buffer is larger than the page as well, the copy to the caller runs
    past the end of the page.  Nothing of the ring has been touched at
    that point. *)
Theorem read_trusts_delivered_length (s : xmm_dev) (c : control_page) (id : Z)
    (q : queue_pair) (ring : td_ring) (w r : Z) (td : td_ring_entry) (page : list byte)
    (nbytes : Z) (signal_pending : bool) :
  qp s !! Z.to_nat id = Some q ->
  ring_at s (num q * 2 + 1) c ring w r ->
  r <> last_handled ring ->
  tds ring !! Z.to_nat (last_handled ring) = Some td ->
  pages ring !! Z.to_nat (last_handled ring) = Some page ->
  Z.of_nat (length page) < td_length td ->
  Z.of_nat (length page) < nbytes < 2 ^ 31 ->
  xmm7360_qp_read_user signal_pending id nbytes s = (Stop Oops, s, [])
  /\ Z.of_nat (length page) < Z.min (td_length td) nbytes.
Proof.
  intros Hq Hat Hdata Htd Hpage Hbig Hnb. pose proof Hat as [Hc Hrg Hw Hrp].
  split; [| lia].
  unfold xmm7360_qp_read_user.
  rewrite (bind_ok (get_qp id) _ s q s []) by (msimpl; rewrite Hq; reflexivity).
  cbv zeta.
  rewrite (bind_ok (wait_event_interruptible _ _) _ s 0 s []).
  2:{ unfold wait_event_interruptible. msimpl. rewrite Hc. mreduce. rewrite Hrp.
      mreduce. rewrite Hrg. mreduce.
      rewrite bool_decide_true by exact Hdata. reflexivity. }
  rewrite decide_False by (intros H; apply H; reflexivity).
  rewrite (bind_ok (get_ring _) _ s ring s []) by (msimpl; rewrite Hrg; reflexivity).
  rewrite (bind_ok (deref (tds ring !! _)) _ s td s []) by (rewrite Htd; reflexivity).
  rewrite (bind_ok (deref (pages ring !! _)) _ s page s []) by (rewrite Hpage; reflexivity).
  assert (Hcopy : copy_to_user page
                    (if decide (td_length td > nbytes) then s32 nbytes else td_length td) s
                  = (Stop Oops, s, [])).
  { unfold copy_to_user. destruct (decide (td_length td > nbytes)).
    - rewrite s32_small by lia. rewrite decide_False by lia. reflexivity.
    - rewrite decide_False by lia. reflexivity. }
  rewrite (bind_stop _ _ _ _ _ _ Hcopy). reflexivity.
Qed.

Lemma read_trusts_delivered_length_witness :
  qp overlong_dev !! Z.to_nat 1 = Some pair_1_open
  /\ ring_at overlong_dev (num pair_1_open * 2 + 1) (cp_of overlong_dev)
       (ring_of overlong_dev 3) 7 1
  /\ 1 <> last_handled (ring_of overlong_dev 3)
  /\ td_length <$> tds (ring_of overlong_dev 3)
                    !! Z.to_nat (last_handled (ring_of overlong_dev 3))
     = Some 0xffff
  /\ pages (ring_of overlong_dev 3) !! Z.to_nat (last_handled (ring_of overlong_dev 3))
     = Some delivered_page
  /\ Z.of_nat (length delivered_page) < 0xffff
  /\ Z.of_nat (length delivered_page) < 0x10000 < 2 ^ 31
  /\ result_of (xmm7360_qp_read_user false 1 0x10000 overlong_dev) = Stop Oops.
Proof.
  assert (H1 : qp overlong_dev !! Z.to_nat 1 = Some pair_1_open) by by_compute.
  assert (H2 : ring_at overlong_dev (num pair_1_open * 2 + 1) (cp_of overlong_dev)
                 (ring_of overlong_dev 3) 7 1) by (split; by_compute).
  assert (H3 : 1 <> last_handled (ring_of overlong_dev 3)) by by_compute.
  assert (H4 : tds (ring_of overlong_dev 3)
                 !! Z.to_nat (last_handled (ring_of overlong_dev 3))
               = Some {| td_addr := td_addr delivered_td; td_length := 0xffff;
                         td_flags := TD_FLAG_COMPLETE; td_unk := td_unk delivered_td |})
    by by_compute.
  assert (H4' : td_length <$> tds (ring_of overlong_dev 3)
                                !! Z.to_nat (last_handled (ring_of overlong_dev 3))
                = Some 0xffff) by by_compute.
  assert (H5 : pages (ring_of overlong_dev 3)
                 !! Z.to_nat (last_handled (ring_of overlong_dev 3))
               = Some delivered_page) by by_compute.
  assert (H6 : Z.of_nat (length delivered_page) < 0xffff) by by_compute.
  assert (H7 : Z.of_nat (length delivered_page) < 0x10000 < 2 ^ 31) by by_compute.
  destruct (read_trusts_delivered_length overlong_dev _ 1 pair_1_open _ 7 1 _ _ 0x10000
              false H1 H2 H3 H4 H5 H6 H7) as [Hrun _].
  assert (H8 : result_of (xmm7360_qp_read_user false 1 0x10000 overlong_dev) = Stop Oops)
    by (rewrite Hrun; reflexivity).
  exact (conj H1 (conj H2 (conj H3 (conj H4' (conj H5 (conj H6 (conj H7 H8))))))).
Defined.

(** ** Control-page handshake: every register behaviour *)

Lemma mmio_read_run bar reg v s :
  (if decide (bar = 0) then bar0 s else bar2 s) = true ->
  mmio_read bar reg v s = (Ok (u32 v), s, [MmioRead bar reg (u32 v)]).
Proof. intros H. unfold mmio_read. msimpl. rewrite H. reflexivity. Qed.

Lemma mmio_write_run bar reg v s :
  (if decide (bar = 0) then bar0 s else bar2 s) = true ->
  mmio_write bar reg v s = (Ok tt, s, [MmioWrite bar reg v]).
Proof. intros H. unfold mmio_write. msimpl. rewrite H. reflexivity. Qed.

(** The first poll when the register shows a nonzero value at its
    [j]-th read: [j] sleeps, and [timeout] is left above 0 *)
Lemma poll_mode_nonzero_ack (bar2_mode : nat -> Z) (j : nat) :
  forall (budget k : nat) (timeout : Z) (s : xmm_dev),
    bar2 s = true -> (j < budget)%nat -> Z.of_nat j < timeout ->
    (forall i, (i < j)%nat -> u32 (bar2_mode (k + i)%nat) = 0) ->
    u32 (bar2_mode (k + j)%nat) <> 0 ->
    poll_mode_nonzero bar2_mode budget k timeout s =
      (Ok (timeout - Z.of_nat j, S (k + j)), s,
       mode_polls bar2_mode j k ++ [MmioRead 2 BAR2_MODE (u32 (bar2_mode (k + j)%nat))]).
Proof.
  induction j as [| j IH]; intros budget k timeout s Hb Hbud Ht Hzero Hack.
  - destruct budget as [| budget]; [lia |]. cbn [poll_mode_nonzero mode_polls app].
    rewrite Nat.add_0_r in *.
    rewrite (bind_ok _ _ _ _ _ _ (mmio_read_run 2 BAR2_MODE (bar2_mode k) s Hb)).
    rewrite decide_False by exact Hack. unfold mret, M_ret.
    rewrite Z.sub_0_r. reflexivity.
  - destruct budget as [| budget]; [lia |]. cbn [poll_mode_nonzero mode_polls app].
    rewrite (bind_ok _ _ _ _ _ _ (mmio_read_run 2 BAR2_MODE (bar2_mode k) s Hb)).
    pose proof (Hzero 0%nat ltac:(lia)) as Hz. rewrite Nat.add_0_r in Hz.
    rewrite decide_True by exact Hz. cbv zeta.
    rewrite decide_True by lia.
    rewrite (bind_ok (msleep 10) _ s tt s [Msleep 10]) by reflexivity.
    rewrite (IH budget (S k) (timeout - 1) s Hb ltac:(lia) ltac:(lia)).
    + replace (S k + j)%nat with (k + S j)%nat by lia.
      replace (timeout - 1 - Z.of_nat j) with (timeout - Z.of_nat (S j)) by lia.
      rewrite Hz. reflexivity.
    + intros i Hi. replace (S k + i)%nat with (k + S i)%nat by lia. apply Hzero. lia.
    + replace (S k + j)%nat with (k + S j)%nat by lia. exact Hack.
Qed.

(** The first poll when the register stays 0: [n] reads, [n - 1] sleeps,
    and [timeout] is left at 0 *)
Lemma poll_mode_nonzero_expires (bar2_mode : nat -> Z) (n : nat) :
  forall (budget k : nat) (s : xmm_dev),
    bar2 s = true -> (n < budget)%nat ->
    (forall i, (i <= n)%nat -> u32 (bar2_mode (k + i)%nat) = 0) ->
    poll_mode_nonzero bar2_mode budget k (Z.of_nat (S n)) s =
      (Ok (0, S (k + n)), s,
       mode_polls bar2_mode n k ++ [MmioRead 2 BAR2_MODE 0]).
Proof.
  induction n as [| n IH]; intros budget k s Hb Hbud Hzero.
  - destruct budget as [| budget]; [lia |]. cbn [poll_mode_nonzero mode_polls app].
    rewrite (bind_ok _ _ _ _ _ _ (mmio_read_run 2 BAR2_MODE (bar2_mode k) s Hb)).
    pose proof (Hzero 0%nat ltac:(lia)) as Hz. rewrite Nat.add_0_r in Hz.
    rewrite decide_True by exact Hz. cbv zeta.
    change (Z.of_nat 1 - 1) with 0.
    rewrite decide_False by (intros H; apply H; reflexivity).
    rewrite Hz, Nat.add_0_r. reflexivity.
  - destruct budget as [| budget]; [lia |]. cbn [poll_mode_nonzero mode_polls app].
    rewrite (bind_ok _ _ _ _ _ _ (mmio_read_run 2 BAR2_MODE (bar2_mode k) s Hb)).
    pose proof (Hzero 0%nat ltac:(lia)) as Hz. rewrite Nat.add_0_r in Hz.
    rewrite decide_True by exact Hz. cbv zeta.
    rewrite decide_True by lia.
    rewrite (bind_ok (msleep 10) _ s tt s [Msleep 10]) by reflexivity.
    replace (Z.of_nat (S (S n)) - 1) with (Z.of_nat (S n)) by lia.
    rewrite (IH budget (S k) s Hb ltac:(lia)).
    + replace (S k + n)%nat with (k + S n)%nat by lia. rewrite Hz. reflexivity.
    + intros i Hi. replace (S k + i)%nat with (k + S i)%nat by lia. apply Hzero. lia.
Qed.

Lemma mode_polls_reads f n k :
  count_events (is_read_of BAR2_MODE) (mode_polls f n k) = n.
Proof.
  revert k. induction n as [| n IH]; intros k; [reflexivity |].
  cbn [mode_polls].
  change (MmioRead 2 BAR2_MODE (u32 (f k)) :: Msleep 10 :: mode_polls f n (S k))
    with ([MmioRead 2 BAR2_MODE (u32 (f k)); Msleep 10] ++ mode_polls f n (S k)).
  rewrite count_events_app, IH. reflexivity.
Qed.

Lemma mode_polls_sleeps f n k :
  count_events is_sleep (mode_polls f n k) = n.
Proof.
  revert k. induction n as [| n IH]; intros k; [reflexivity |].
  cbn [mode_polls].
  change (MmioRead 2 BAR2_MODE (u32 (f k)) :: Msleep 10 :: mode_polls f n (S k))
    with ([MmioRead 2 BAR2_MODE (u32 (f k)); Msleep 10] ++ mode_polls f n (S k)).
  rewrite count_events_app, IH. reflexivity.
Qed.

(** [xmm7360_cmd_ring_init] up to its first poll *)
Lemma cmd_ring_init_setup_run {B} (k : M B) (s : xmm_dev) :
  bar0 s = true -> bar2 s = true ->
  (phys ← dma_alloc_coherent sizeof_control_page;
   emit (Acquire R_control_page);;
   s0 ← get;
   put (set_cp_phys phys (set_cp (Some zero_control_page) s0));;
   c ← get_cp;
   put_cp (set_ctl {| ctl_status := phys + offsetof_status;
                      ctl_s_wptr := phys + offsetof_s_wptr;
                      ctl_s_rptr := phys + offsetof_s_rptr;
                      ctl_c_wptr := phys + offsetof_c_wptr;
                      ctl_c_rptr := phys + offsetof_c_rptr;
                      ctl_c_ring := phys + offsetof_c_ring;
                      c_ring_size := CMD_RING_SIZE |} c);;
   mmio_write 2 BAR2_CONTROL (u32 phys);;
   mmio_write 2 BAR2_CONTROLH (u32 (Z.shiftr phys 32));;
   mmio_write 0 BAR0_MODE 1;;
   k) s =
  (let '(res, s2, t2) := k (with_control_page (init_control_page (dma_brk s)) s) in
   (res, s2, init_setup_trace (dma_brk s) ++ t2)).
Proof.
  intros Hb0 Hb2. unfold dma_alloc_coherent. msimpl.
  repeat (first [ rewrite (decide_False (P := 2 = 0)) by discriminate
                | rewrite (decide_True (P := 0 = 0)) by reflexivity
                | rewrite Hb0 | rewrite Hb2 ];
          mreduce).
  unfold with_control_page, init_control_page, init_setup_trace. mreduce.
  destruct (k _) as [[res s2] t2]. reflexivity.
Qed.

Lemma held_mode_polls f n k acc :
  foldl held_step acc (mode_polls f n k) = acc.
Proof.
  revert k. induction n as [| n IH]; intros k; [reflexivity |].
  cbn [mode_polls foldl held_step]. apply IH.
Qed.

Lemma mode_polls_no_write f n k :
  Forall (fun e => forall bar reg v, e <> MmioWrite bar reg v) (mode_polls f n k).
Proof.
  revert k. induction n as [| n IH]; intros k; [constructor |].
  cbn [mode_polls]. constructor; [intros ? ? ? H; discriminate H |].
  constructor; [intros ? ? ? H; discriminate H |]. apply IH.
Qed.

Lemma cmd_ring_init_timeout_run (bar2_mode : nat -> Z) (signal_pending : bool)
    (s : xmm_dev) :
  bar0 s = true -> bar2 s = true ->
  (forall i, (i < 100)%nat -> u32 (bar2_mode i) = 0) ->
  xmm7360_cmd_ring_init bar2_mode signal_pending s =
    (Ok (- ETIMEDOUT), with_control_page (init_control_page (dma_brk s)) s,
     init_setup_trace (dma_brk s) ++ mode_polls bar2_mode 99 0 ++ [MmioRead 2 BAR2_MODE 0]).
Proof.
  intros Hb0 Hb2 Hzero. unfold xmm7360_cmd_ring_init.
  rewrite (cmd_ring_init_setup_run _ s Hb0 Hb2).
  pose proof (poll_mode_nonzero_expires bar2_mode 99 100 0
                (with_control_page (init_control_page (dma_brk s)) s) Hb2 ltac:(lia)
                ltac:(intros i Hi; apply Hzero; lia)) as Hpoll.
  change (Z.of_nat 100) with 100 in Hpoll.
  rewrite (bind_ok _ _ _ _ _ _ Hpoll).
  cbn [fst]. rewrite decide_True by reflexivity.
  unfold mret, M_ret. rewrite app_nil_r. reflexivity.
Qed.

(** X10.  When the mode register reads 0 at each of the first 100 reads,
    [xmm7360_cmd_ring_init] returns [-ETIMEDOUT] out of its first poll after
    exactly 100 reads and 99 sleeps of 10 ms.  By then it has allocated
    and installed the control page, written its bus address to the two
    control registers and written mode 1; it has written neither the four
    reserved registers nor mode 2, and it returns with the control page
    still allocated and installed (freeing it is left to the caller). *)
Theorem cmd_ring_init_first_poll_timeout (bar2_mode : nat -> Z) (signal_pending : bool)
    (s : xmm_dev) :
  bar0 s = true -> bar2 s = true ->
  (forall i, (i < 100)%nat -> u32 (bar2_mode i) = 0) ->
  let run := xmm7360_cmd_ring_init bar2_mode signal_pending s in
  run = (Ok (- ETIMEDOUT), with_control_page (init_control_page (dma_brk s)) s,
         [ Acquire R_control_page;
           MmioWrite 2 BAR2_CONTROL (u32 (dma_brk s));
           MmioWrite 2 BAR2_CONTROLH (u32 (Z.shiftr (dma_brk s) 32));
           MmioWrite 0 BAR0_MODE 1 ]
         ++ mode_polls bar2_mode 99 0 ++ [MmioRead 2 BAR2_MODE 0])
  /\ count_events (is_read_of BAR2_MODE) (trace_of run) = 100%nat
  /\ count_events is_sleep (trace_of run) = 99%nat
  /\ Forall (fun e => e ∉ [ MmioWrite 2 BAR2_BLANK0 0; MmioWrite 2 BAR2_BLANK1 0;
                             MmioWrite 2 BAR2_BLANK2 0; MmioWrite 2 BAR2_BLANK3 0;
                             MmioWrite 0 BAR0_MODE 2 ]) (trace_of run)
  /\ cp (state_of run) = Some (init_control_page (dma_brk s))
  /\ held (trace_of run) = [R_control_page].
Proof.
  intros Hb0 Hb2 Hzero run.
  assert (Hrun : run = (Ok (- ETIMEDOUT), with_control_page (init_control_page (dma_brk s)) s,
                        init_setup_trace (dma_brk s)
                        ++ mode_polls bar2_mode 99 0 ++ [MmioRead 2 BAR2_MODE 0]))
    by exact (cmd_ring_init_timeout_run bar2_mode signal_pending s Hb0 Hb2 Hzero).
  split; [exact Hrun |]. rewrite Hrun. unfold trace_of, state_of. cbn [fst snd].
  split; [| split; [| split; [| split]]].
  - rewrite !count_events_app, mode_polls_reads. reflexivity.
  - rewrite !count_events_app, mode_polls_sleeps. reflexivity.
  - assert (Hnot : forall e, (forall bar reg v, e <> MmioWrite bar reg v) ->
                      e ∉ [ MmioWrite 2 BAR2_BLANK0 0; MmioWrite 2 BAR2_BLANK1 0;
                            MmioWrite 2 BAR2_BLANK2 0; MmioWrite 2 BAR2_BLANK3 0;
                            MmioWrite 0 BAR0_MODE 2 ]).
    { intros e He Hin.
      repeat (apply elem_of_cons in Hin as [Hin | Hin]; [exact (He _ _ _ Hin) |]).
      apply elem_of_nil in Hin. exact Hin. }
    apply Forall_app. split.
    + unfold init_setup_trace.
      repeat (constructor;
              [ intros Hin;
                repeat (apply elem_of_cons in Hin as [Hin | Hin];
                        [ unfold BAR2_CONTROL, BAR2_CONTROLH, BAR2_BLANK0, BAR2_BLANK1,
                            BAR2_BLANK2, BAR2_BLANK3, BAR0_MODE in Hin;
                          congruence |]);
                apply elem_of_nil in Hin; exact Hin |]).
      constructor.
    + apply Forall_app. split.
      * eapply Forall_impl; [apply mode_polls_no_write |]. exact Hnot.
      * constructor; [| constructor]. apply Hnot. intros ? ? ? H. discriminate H.
  - reflexivity.
  - unfold held. rewrite !foldl_app, held_mode_polls. reflexivity.
Qed.

Lemma cmd_ring_init_first_poll_timeout_witness :
  bar0 (probed_dev kernel_ok 0x100000) = true
  /\ bar2 (probed_dev kernel_ok 0x100000) = true
  /\ (forall i, (i < 100)%nat -> u32 ((fun _ : nat => 0) i) = 0)
  /\ result_of (xmm7360_cmd_ring_init (fun _ => 0) false (probed_dev kernel_ok 0x100000))
     = Ok (- ETIMEDOUT).
Proof.
  assert (H1 : bar0 (probed_dev kernel_ok 0x100000) = true) by reflexivity.
  assert (H2 : bar2 (probed_dev kernel_ok 0x100000) = true) by reflexivity.
  assert (H3 : forall i, (i < 100)%nat -> u32 ((fun _ : nat => 0) i) = 0)
    by (intros i _; reflexivity).
  split; [exact H1 |]. split; [exact H2 |]. split; [exact H3 |].
  destruct (cmd_ring_init_first_poll_timeout (fun _ => 0) false _ H1 H2 H3) as [Hrun _].
  rewrite Hrun. reflexivity.
Defined.

Lemma shift_split_u64 x :
  0 <= x < 2 ^ 64 -> u32 x + 2 ^ 32 * u32 (Z.shiftr x 32) = x.
Proof.
  intros Hx. unfold u32. rewrite Z.shiftr_div_pow2 by lia.
  assert (Hq : 0 <= x / 2 ^ 32 < 2 ^ 32).
  { split; [apply Z.div_pos; lia |].
    apply Z.div_lt_upper_bound; [lia |]. change (2 ^ 32 * 2 ^ 32) with (2 ^ 64). lia. }
  rewrite (Z.mod_small (x / 2 ^ 32)) by exact Hq.
  pose proof (Z.div_mod x (2 ^ 32) ltac:(lia)). lia.
Qed.

(** X11.  Whatever the mode register shows, once one of its first 100 reads
    is nonzero, say read number [j], the handshake of
    [xmm7360_cmd_ring_init] runs to its end: [j] sleeps of 10 ms in the
    first poll, then the four reserved registers are cleared in order and
    mode 2 is written, then the register is read exactly once more,
    whatever it shows, and without a sleep, then the WAKEUP command is
    queued in slot 0 and the [0xf0] command in slot 1 and the command
    doorbell is rung; it does not return [-ETIMEDOUT].  The call then
    waits for the modem to consume the two commands: in a state where it
    has not, the caller sleeps, or gets [-ERESTARTSYS] if a signal is
    pending.  The two words written to the control registers are the low
    and the high half of the bus address of the control page. *)
Theorem cmd_ring_init_handshake (bar2_mode : nat -> Z) (signal_pending : bool)
    (s : xmm_dev) (j : nat) :
  bar0 s = true -> bar2 s = true -> (j < 100)%nat ->
  (forall i, (i < j)%nat -> u32 (bar2_mode i) = 0) ->
  u32 (bar2_mode j) <> 0 ->
  let phys := dma_brk s in
  let run := xmm7360_cmd_ring_init bar2_mode signal_pending s in
  run = (if signal_pending then Ok (- ERESTARTSYS) else Stop Sleeping,
         with_control_page (init_commands (init_control_page phys)) s,
         [ Acquire R_control_page;
           MmioWrite 2 BAR2_CONTROL (u32 phys);
           MmioWrite 2 BAR2_CONTROLH (u32 (Z.shiftr phys 32));
           MmioWrite 0 BAR0_MODE 1 ]
         ++ (mode_polls bar2_mode j 0 ++ [MmioRead 2 BAR2_MODE (u32 (bar2_mode j))])
         ++ [ MmioWrite 2 BAR2_BLANK0 0; MmioWrite 2 BAR2_BLANK1 0;
              MmioWrite 2 BAR2_BLANK2 0; MmioWrite 2 BAR2_BLANK3 0;
              MmioWrite 0 BAR0_MODE 2 ]
         ++ [MmioRead 2 BAR2_MODE (u32 (bar2_mode (S j)))]
         ++ submit_trace 0 CMD_WAKEUP 0 1 0 0
         ++ submit_trace 1 0xf0 0x80 0 0 0
         ++ [MmioWrite 0 BAR0_DOORBELL DOORBELL_CMD])
  /\ result_of run <> Ok (- ETIMEDOUT)
  /\ count_events (is_read_of BAR2_MODE) (trace_of run) = S (S j)
  /\ count_events is_sleep (trace_of run) = j
  /\ cmd_pending (cp_of (state_of run)) = 2
  /\ c_ring (cp_of (state_of run)) !! 0%nat = Some (submitted_entry CMD_WAKEUP 0 1 0 0)
  /\ c_ring (cp_of (state_of run)) !! 1%nat = Some (submitted_entry 0xf0 0x80 0 0 0)
  /\ (0 <= phys < 2 ^ 64 -> u32 phys + 2 ^ 32 * u32 (Z.shiftr phys 32) = phys).
Proof.
  intros Hb0 Hb2 Hj Hzero Hack phys run.
  set (c0 := init_control_page phys).
  set (s1 := with_control_page c0 s).
  assert (Hb0' : bar0 s1 = true) by exact Hb0.
  assert (Hb2' : bar2 s1 = true) by exact Hb2.
  assert (Hwf0 : cmd_ring_wf c0) by (split; [reflexivity | split; [reflexivity | reflexivity]]).
  set (c1 := after_submit CMD_WAKEUP 0 1 0 0 c0).
  set (c2 := after_submit 0xf0 0x80 0 0 0 c1).
  assert (Hrun : run = (if signal_pending then Ok (- ERESTARTSYS) else Stop Sleeping,
                        with_control_page (init_commands c0) s,
                        init_setup_trace phys
                        ++ (mode_polls bar2_mode j 0
                            ++ [MmioRead 2 BAR2_MODE (u32 (bar2_mode j))])
                        ++ init_enable_trace
                        ++ [MmioRead 2 BAR2_MODE (u32 (bar2_mode (S j)))]
                        ++ submit_trace 0 CMD_WAKEUP 0 1 0 0
                        ++ submit_trace 1 0xf0 0x80 0 0 0
                        ++ [MmioWrite 0 BAR0_DOORBELL DOORBELL_CMD])).
  { unfold run, xmm7360_cmd_ring_init.
    rewrite (cmd_ring_init_setup_run _ s Hb0 Hb2). fold phys c0 s1.
    pose proof (poll_mode_nonzero_ack bar2_mode j 100 0 100 s1 Hb2' Hj ltac:(lia)
                  Hzero Hack) as Hpoll.
    rewrite (bind_ok _ _ _ _ _ _ Hpoll). cbn [fst snd].
    rewrite decide_False by lia.
    rewrite (bind_ok _ _ _ _ _ _ (mmio_write_run 2 BAR2_BLANK0 0 s1 Hb2')).
    rewrite (bind_ok _ _ _ _ _ _ (mmio_write_run 2 BAR2_BLANK1 0 s1 Hb2')).
    rewrite (bind_ok _ _ _ _ _ _ (mmio_write_run 2 BAR2_BLANK2 0 s1 Hb2')).
    rewrite (bind_ok _ _ _ _ _ _ (mmio_write_run 2 BAR2_BLANK3 0 s1 Hb2')).
    rewrite (bind_ok _ _ _ _ _ _ (mmio_write_run 0 BAR0_MODE 2 s1 Hb0')).
    rewrite (bind_ok _ _ _ _ _ _ (poll_mode_two_once bar2_mode 99 (S (0 + j)) s1 Hb2')).
    cbn [fst snd].
    rewrite (decide_False (P := (if decide (u32 (bar2_mode (S (0 + j))) <> 2)
                                 then 99 else 100) = 0))
      by (destruct (decide (u32 (bar2_mode (S (0 + j))) <> 2)); discriminate).
    rewrite (bind_ok _ _ _ _ _ _
               (submit_ok s1 c0 CMD_WAKEUP 0 1 0 0 eq_refl Hwf0 ltac:(discriminate))).
    rewrite decide_False by (intros H; apply H; reflexivity).
    rewrite (bind_ok _ _ _ _ _ _
               (submit_ok (set_cp (Some c1) s1) c1 0xf0 0x80 0 0 0 eq_refl
                  (cmd_ring_wf_after_submit _ _ _ _ _ c0 Hwf0) ltac:(discriminate))).
    rewrite decide_False by (intros H; apply H; reflexivity).
    erewrite ding_run; [ | reflexivity | exact Hb0 ].
    assert (Hwait : xmm7360_cmd_ring_wait signal_pending
                      (set_cp (Some c2) (set_cp (Some c1) s1))
                    = (if signal_pending then Ok (- ERESTARTSYS) else Stop Sleeping,
                       set_cp (Some c2) (set_cp (Some c1) s1), [])).
    { unfold xmm7360_cmd_ring_wait, wait_event_interruptible. msimpl.
      rewrite bool_decide_false by discriminate.
      destruct signal_pending; reflexivity. }
    destruct signal_pending.
    - rewrite (bind_ok _ _ _ _ _ _ Hwait).
      rewrite decide_True by discriminate.
      unfold mret, M_ret, init_setup_trace, init_enable_trace. cbn [app].
      rewrite !app_nil_r. reflexivity.
    - rewrite (bind_stop _ _ _ _ _ _ Hwait).
      unfold init_setup_trace, init_enable_trace. cbn [app].
      rewrite !app_nil_r. reflexivity. }
  split; [exact Hrun |]. rewrite Hrun. unfold result_of, trace_of, state_of. cbn [fst snd].
  split; [destruct signal_pending; intros H; discriminate H |].
  split; [| split; [| split; [| split; [| split]]]].
  - rewrite !count_events_app, mode_polls_reads.
    change (count_events (is_read_of BAR2_MODE) (init_setup_trace phys)) with 0%nat.
    change (count_events (is_read_of BAR2_MODE) init_enable_trace) with 0%nat.
    change (count_events (is_read_of BAR2_MODE) [MmioRead 2 BAR2_MODE (u32 (bar2_mode j))])
      with 1%nat.
    change (count_events (is_read_of BAR2_MODE)
              [MmioRead 2 BAR2_MODE (u32 (bar2_mode (S j)))]) with 1%nat.
    change (count_events (is_read_of BAR2_MODE) (submit_trace 0 CMD_WAKEUP 0 1 0 0))
      with 0%nat.
    change (count_events (is_read_of BAR2_MODE) (submit_trace 1 0xf0 0x80 0 0 0))
      with 0%nat.
    change (count_events (is_read_of BAR2_MODE) [MmioWrite 0 BAR0_DOORBELL DOORBELL_CMD])
      with 0%nat.
    lia.
  - rewrite !count_events_app, mode_polls_sleeps.
    change (count_events is_sleep (init_setup_trace phys)) with 0%nat.
    change (count_events is_sleep init_enable_trace) with 0%nat.
    change (count_events is_sleep [MmioRead 2 BAR2_MODE (u32 (bar2_mode j))]) with 0%nat.
    change (count_events is_sleep [MmioRead 2 BAR2_MODE (u32 (bar2_mode (S j)))])
      with 0%nat.
    change (count_events is_sleep (submit_trace 0 CMD_WAKEUP 0 1 0 0)) with 0%nat.
    change (count_events is_sleep (submit_trace 1 0xf0 0x80 0 0 0)) with 0%nat.
    change (count_events is_sleep [MmioWrite 0 BAR0_DOORBELL DOORBELL_CMD]) with 0%nat.
    lia.
  - reflexivity.
  - reflexivity.
  - reflexivity.
  - apply shift_split_u64.
Qed.

Lemma cmd_ring_init_handshake_witness :
  bar0 (probed_dev kernel_ok 0x100000) = true
  /\ bar2 (probed_dev kernel_ok 0x100000) = true
  /\ (3 < 100)%nat
  /\ (forall i, (i < 3)%nat -> u32 ((fun k : nat => if (k <? 3)%nat then 0 else 1) i) = 0)
  /\ u32 ((fun k : nat => if (k <? 3)%nat then 0 else 1) 3%nat) <> 0
  /\ result_of (xmm7360_cmd_ring_init (fun k => if (k <? 3)%nat then 0 else 1) false
                  (probed_dev kernel_ok 0x100000)) = Stop Sleeping.
Proof.
  assert (H1 : bar0 (probed_dev kernel_ok 0x100000) = true) by reflexivity.
  assert (H2 : bar2 (probed_dev kernel_ok 0x100000) = true) by reflexivity.
  assert (H3 : (3 < 100)%nat) by lia.
  assert (H4 : forall i, (i < 3)%nat ->
                 u32 ((fun k : nat => if (k <? 3)%nat then 0 else 1) i) = 0).
  { intros i Hi. destruct i as [| [| [| i]]]; [reflexivity .. | lia]. }
  assert (H5 : u32 ((fun k : nat => if (k <? 3)%nat then 0 else 1) 3%nat) <> 0)
    by (intros H; discriminate H).
  split; [exact H1 |]. split; [exact H2 |]. split; [exact H3 |].
  split; [exact H4 |]. split; [exact H5 |].
  destruct (cmd_ring_init_handshake (fun k => if (k <? 3)%nat then 0 else 1) false _ 3
              H1 H2 H3 H4 H5) as [Hrun _].
  rewrite Hrun. reflexivity.
Defined.

(** ** Freeing the control page *)

(** X12.  [xmm7360_cmd_ring_free] never fails and can be repeated: it
    writes mode 0 if the first register window is mapped, releases the
    control page if there is one, and leaves [xmm->cp] NULL and everything
    else as it was.  A second call releases nothing, so the control page is
    released at most once.  After it, the doorbell and the command ring are
    out of reach: [xmm7360_ding] and [xmm7360_cmd_ring_submit] dereference
    the NULL pointer. *)
Theorem cmd_ring_free_idempotent (s : xmm_dev) :
  let mode0 := if bar0 s then [MmioWrite 0 BAR0_MODE 0] else [] in
  let freed := set_cp None s in
  xmm7360_cmd_ring_free s =
    (Ok tt, freed,
     mode0 ++ match cp s with Some _ => [Release R_control_page] | None => [] end)
  /\ xmm7360_cmd_ring_free freed = (Ok tt, freed, mode0)
  /\ (forall bell, xmm7360_ding bell freed = (Stop Oops, freed, []))
  /\ (forall cmd parm len ptr extra,
        xmm7360_cmd_ring_submit cmd parm len ptr extra freed = (Stop Oops, freed, [])).
Proof.
  intros mode0 freed. unfold mode0, freed.
  split; [| split; [| split]].
  - unfold xmm7360_cmd_ring_free. msimpl.
    destruct (bar0 s) eqn:Hb; mreduce.
    + rewrite (decide_True (P := 0 = 0)) by reflexivity. rewrite Hb. mreduce.
      destruct (cp s); reflexivity.
    + destruct (cp s); reflexivity.
  - unfold xmm7360_cmd_ring_free. msimpl.
    destruct (bar0 s) eqn:Hb; mreduce.
    + rewrite (decide_True (P := 0 = 0)) by reflexivity. rewrite Hb. mreduce.
      reflexivity.
    + reflexivity.
  - intros bell. reflexivity.
  - intros. reflexivity.
Qed.

(** ** Teardown *)

Lemma remove_cdevs_run (n : nat) :
  forall (i : Z) (s : xmm_dev),
    0 <= i -> (Z.to_nat i + n <= length (qp s))%nat ->
    remove_cdevs n i s
    = (Ok tt, s, cdev_releases (take n (drop (Z.to_nat i) (qp s))) i).
Proof.
  induction n as [| n IH]; intros i s Hi Hlen; [reflexivity |].
  cbn [remove_cdevs].
  destruct (lookup_lt_is_Some_2 (qp s) (Z.to_nat i) ltac:(lia)) as [q Hq].
  rewrite (bind_ok (get_qp i) _ s q s []) by (msimpl; rewrite Hq; reflexivity).
  rewrite (drop_S _ _ _ Hq). cbn [take cdev_releases].
  assert (Hstep : (if qp_xmm q then emit (Release (R_cdev i)) else mret tt) s
                  = (Ok tt, s, if qp_xmm q then [Release (R_cdev i)] else []))
    by (destruct (qp_xmm q); reflexivity).
  rewrite (bind_ok _ _ _ _ _ _ Hstep).
  rewrite (IH (i + 1) s ltac:(lia) ltac:(lia)).
  replace (Z.to_nat (i + 1)) with (S (Z.to_nat i)) by lia.
  reflexivity.
Qed.

Lemma free_irqs_run (n : nat) :
  forall (i : Z) (s : xmm_dev),
    0 <= i -> (Z.to_nat i + n <= length (irq s))%nat ->
    free_irqs n i s
    = (Ok tt, s, irq_releases (take n (drop (Z.to_nat i) (irq s))) i).
Proof.
  induction n as [| n IH]; intros i s Hi Hlen; [reflexivity |].
  cbn [free_irqs].
  destruct (lookup_lt_is_Some_2 (irq s) (Z.to_nat i) ltac:(lia)) as [v Hv].
  rewrite (bind_ok get _ s s s []) by reflexivity.
  rewrite (bind_ok (deref _) _ s v s []) by (rewrite Hv; reflexivity).
  rewrite (drop_S _ _ _ Hv). cbn [take irq_releases].
  assert (Hstep : (if decide (v <> 0) then emit (Release (R_irq i)) else mret tt) s
                  = (Ok tt, s, if decide (v <> 0) then [Release (R_irq i)] else []))
    by (destruct (decide (v <> 0)); reflexivity).
  rewrite (bind_ok _ _ _ _ _ _ Hstep).
  rewrite (IH (i + 1) s ltac:(lia) ltac:(lia)).
  replace (Z.to_nat (i + 1)) with (S (Z.to_nat i)) by lia.
  reflexivity.
Qed.

Lemma cmd_ring_free_run (s : xmm_dev) :
  xmm7360_cmd_ring_free s =
    (Ok tt, set_cp None s,
     (if bar0 s then [MmioWrite 0 BAR0_MODE 0] else [])
     ++ match cp s with Some _ => [Release R_control_page] | None => [] end).
Proof.
  unfold xmm7360_cmd_ring_free. msimpl.
  destruct (bar0 s) eqn:Hb; mreduce.
  - rewrite (decide_True (P := 0 = 0)) by reflexivity. rewrite Hb. mreduce.
    destruct (cp s); reflexivity.
  - destruct (cp s); reflexivity.
Qed.

Lemma remove_run (s : xmm_dev) :
  drvdata s = true -> length (qp s) = 8%nat -> length (irq s) = 4%nat ->
  xmm7360_remove s =
    (Ok tt, set_cp None s,
     cdev_releases (qp s) 0
     ++ ((if bar0 s then [MmioWrite 0 BAR0_MODE 0] else [])
         ++ match cp s with Some _ => [Release R_control_page] | None => [] end)
     ++ irq_releases (irq s) 0
     ++ remove_tail_trace).
Proof.
  intros Hd Hq Hi. unfold xmm7360_remove.
  rewrite (bind_ok get _ s s s []) by reflexivity. rewrite Hd.
  pose proof (remove_cdevs_run 8 0 s ltac:(lia) ltac:(rewrite Hq; cbn; lia)) as H1.
  change (Z.to_nat 0) with 0%nat in H1. rewrite drop_0, take_ge in H1 by lia.
  rewrite (bind_ok _ _ _ _ _ _ H1).
  rewrite (bind_ok _ _ _ _ _ _ (cmd_ring_free_run s)).
  pose proof (free_irqs_run 4 0 (set_cp None s) ltac:(lia)
                ltac:(cbn [irq set_cp]; rewrite Hi; cbn; lia)) as H2.
  change (Z.to_nat 0) with 0%nat in H2. cbn [irq set_cp] in H2.
  rewrite drop_0, take_ge in H2 by lia.
  rewrite (bind_ok _ _ _ _ _ _ H2).
  unfold emit. msimpl. unfold remove_tail_trace.
  rewrite <- !app_assoc. reflexivity.
Qed.

Lemma cdev_releases_only l : forall i,
  Forall (fun e => exists n, e = Release (R_cdev n)) (cdev_releases l i).
Proof.
  induction l as [| q l IH]; intros i; [constructor |].
  cbn [cdev_releases]. apply Forall_app. split; [| apply IH].
  destruct (qp_xmm q); [| constructor].
  constructor; [eexists; reflexivity | constructor].
Qed.

Lemma irq_releases_only l : forall i,
  Forall (fun e => exists n, e = Release (R_irq n)) (irq_releases l i).
Proof.
  induction l as [| v l IH]; intros i; [constructor |].
  cbn [irq_releases]. apply Forall_app. split; [| apply IH].
  destruct (decide (v <> 0)); [| constructor].
  constructor; [eexists; reflexivity | constructor].
Qed.

(** X13.  [xmm7360_remove] looks the device structure up in the PCI
    device; when [pci_set_drvdata] has not run it dereferences NULL.
    Otherwise it returns normally and does exactly this, in order: a cdev
    is deleted for every pair whose back pointer is set; mode 0 is written
    if the first window is mapped; the control page is released if there
    is one; every nonzero interrupt number is freed; the interrupt
    vectors, both regions, the device enable and the structure are
    released.  It never unmaps a register window, stores nothing to the
    memory shared with the modem (so no RING_CLOSE is queued), and leaves
    the rings and the open flags of the pairs as they were: only
    [xmm->cp] changes, to NULL. *)
Theorem remove_spec (s : xmm_dev) :
  let run := xmm7360_remove s in
  (drvdata s = false -> run = (Stop Oops, s, []))
  /\ (drvdata s = true -> length (qp s) = 8%nat -> length (irq s) = 4%nat ->
      run = (Ok tt, set_cp None s,
             cdev_releases (qp s) 0
             ++ ((if bar0 s then [MmioWrite 0 BAR0_MODE 0] else [])
                 ++ match cp s with Some _ => [Release R_control_page] | None => [] end)
             ++ irq_releases (irq s) 0
             ++ [ Release R_irq_vectors; Release (R_region 0); Release (R_region 2);
                  Release R_enabled; Release R_xmm ])
      /\ Forall (fun e => (forall bar, e <> Release (R_iomap bar))
                          /\ (forall l v, e <> Store l v)
                          /\ (forall ring slot data, e <> StorePage ring slot data))
           (trace_of run)
      /\ td_ring_ (state_of run) = td_ring_ s
      /\ qp (state_of run) = qp s).
Proof.
  intros run. split.
  - intros Hd. unfold run, xmm7360_remove.
    rewrite (bind_ok get _ s s s []) by reflexivity. rewrite Hd. reflexivity.
  - intros Hd Hq Hi. pose proof (remove_run s Hd Hq Hi) as Hrun. fold run in Hrun.
    split; [exact Hrun |]. rewrite Hrun. unfold trace_of, state_of. cbn [fst snd].
    split; [| split; reflexivity].
    assert (Hrel : forall e r, e = Release r -> (forall bar, r <> R_iomap bar) ->
              (forall bar, e <> Release (R_iomap bar))
              /\ (forall l v, e <> Store l v)
              /\ (forall ring slot data, e <> StorePage ring slot data)).
    { intros e r -> Hr. split; [| split].
      - intros bar H. injection H as H. exact (Hr bar H).
      - intros l v H. discriminate H.
      - intros ring slot data H. discriminate H. }
    repeat (apply Forall_app; split).
    + eapply Forall_impl; [apply cdev_releases_only |].
      intros e [n ->]. apply (Hrel _ (R_cdev n) eq_refl). intros bar H. discriminate H.
    + destruct (bar0 s); constructor; [| constructor].
      split; [| split]; intros; intros H; discriminate H.
    + destruct (cp s); constructor; [| constructor].
      apply (Hrel _ R_control_page eq_refl). intros bar H. discriminate H.
    + eapply Forall_impl; [apply irq_releases_only |].
      intros e [n ->]. apply (Hrel _ (R_irq n) eq_refl). intros bar H. discriminate H.
    + unfold remove_tail_trace.
      repeat (constructor;
              [ eapply Hrel; [reflexivity | intros bar H; discriminate H] |]).
      constructor.
Qed.

Lemma remove_spec_witness :
  drvdata opened_dev = true /\ length (qp opened_dev) = 8%nat
  /\ length (irq opened_dev) = 4%nat
  /\ result_of (xmm7360_remove opened_dev) = Ok tt
  /\ size (ring_of (state_of (xmm7360_remove opened_dev)) 3) = 8.
Proof.
  assert (H1 : drvdata opened_dev = true) by by_compute.
  assert (H2 : length (qp opened_dev) = 8%nat) by by_compute.
  assert (H3 : length (irq opened_dev) = 4%nat) by by_compute.
  destruct (remove_spec opened_dev) as [_ Hok].
  destruct (Hok H1 H2 H3) as (Hrun & _ & Hrings & _).
  assert (H4 : result_of (xmm7360_remove opened_dev) = Ok tt)
    by (rewrite Hrun; reflexivity).
  assert (H5 : size (ring_of (state_of (xmm7360_remove opened_dev)) 3) = 8)
    by (unfold ring_of; rewrite Hrings; by_compute).
  exact (conj H1 (conj H2 (conj H3 (conj H4 H5)))).
Defined.

(** ** Probe: the paths around the boot wait *)

Section BootReady.

Variable bar2_status : nat -> Z.

(** The boot-wait loop when the status register shows the ready value at
    its [j]-th read *)
Lemma poll_status_ready (j : nat) :
  forall (n j0 : nat) (st : Z) (s : xmm_dev),
    bar2 s = true -> (j < n)%nat ->
    (forall i, (i < j)%nat -> still_booting (bar2_status (j0 + i))) ->
    u32 (bar2_status (j0 + j)) = 0x600df00d ->
    poll_status bar2_status n j0 st s =
      (Ok (Some 0x600df00d), s,
       boot_polls bar2_status j j0 ++ [MmioRead 2 BAR2_STATUS 0x600df00d]).
Proof.
  induction j as [| j IH]; intros n j0 st s Hb Hlt Hboot Hready.
  - destruct n as [| n]; [lia |]. cbn [poll_status boot_polls app].
    rewrite Nat.add_0_r in Hready.
    rewrite (bind_ok _ _ _ _ _ _ (mmio_read_run 2 BAR2_STATUS (bar2_status j0) s Hb)).
    rewrite Hready. rewrite decide_True by reflexivity. reflexivity.
  - destruct n as [| n]; [lia |]. cbn [poll_status boot_polls app].
    destruct (Hboot 0%nat ltac:(lia)) as [Hnr Hnc]. rewrite Nat.add_0_r in Hnr, Hnc.
    rewrite (bind_ok _ _ _ _ _ _ (mmio_read_run 2 BAR2_STATUS (bar2_status j0) s Hb)).
    rewrite decide_False by exact Hnr. rewrite decide_False by exact Hnc.
    rewrite (bind_ok (mdelay 200) _ s tt s [Mdelay 200]) by reflexivity.
    rewrite (IH n (S j0) (u32 (bar2_status j0)) s Hb ltac:(lia)).
    + reflexivity.
    + intros i Hi. replace (S j0 + i)%nat with (j0 + S i)%nat by lia.
      apply Hboot. lia.
    + replace (S j0 + j)%nat with (j0 + S j)%nat by lia. exact Hready.
Qed.

End BootReady.

(** [xmm7360_probe] from its start to the handshake, when the kernel
    services succeed and the modem reports ready *)
Lemma probe_ready_run (k : kernel_calls) (bar2_status bar2_mode : nat -> Z)
    (signal_pending : bool) (s : xmm_dev) (polls : list event) :
  kernel_succeeds k ->
  poll_status bar2_status 100 0 0 (probed_dev k (dma_brk s))
    = (Ok (Some 0x600df00d), probed_dev k (dma_brk s), polls) ->
  xmm7360_probe k bar2_status bar2_mode signal_pending s =
    (let '(res, s2, t2) :=
       (ret ← xmm7360_cmd_ring_init bar2_mode signal_pending;
        if decide (ret <> 0) then fail ret
        else ret ← create_cdevs k 8 0;
             if decide (ret <> 0) then fail ret else mret ret)
         (probed_dev k (dma_brk s)) in
     (res, s2, probe_setup_trace ++ polls ++ t2)).
Proof.
  intros (Hen & Hr0 & Hr2 & Hvec & Hirq) Hpoll.
  assert (Hq : forall i, 0 <= i < 4 -> request_irq k i = 0)
    by (intros i Hi; apply (Hirq i Hi)).
  unfold xmm7360_probe. rewrite Hen, Hr0, Hr2.
  rewrite (decide_False (P := pci_alloc_irq_vectors k < 0)) by lia.
  do 16 mstep.
  erewrite bind_ok by (apply request_irqs_run; [exact Hq | reflexivity]).
  do 3 mstep.
  erewrite bind_ok by exact Hpoll.
  cbv beta iota.
  rewrite decide_False by (intros H; apply H; reflexivity).
  destruct ((xmm7360_cmd_ring_init bar2_mode signal_pending ≫= _) _) as [[res s2] t2].
  reflexivity.
Qed.

(** X14.  When the kernel services succeed and the modem reports ready at
    its [j]-th status read, but its mode register then stays 0 for 100
    reads, [xmm7360_probe] fails with [-ETIMEDOUT], the result of
    [xmm7360_cmd_ring_init].  Before it returns, [xmm7360_remove] writes
    mode 0, releases the control page that the failed handshake had left
    allocated, and releases the interrupts, the interrupt vectors, the
    regions, the device enable and the structure; the two register-window
    mappings are what remains held. *)
Theorem probe_handshake_timeout (k : kernel_calls) (bar2_status bar2_mode : nat -> Z)
    (signal_pending : bool) (s : xmm_dev) (j : nat) :
  kernel_succeeds k -> (j < 100)%nat ->
  (forall i, (i < j)%nat -> still_booting (bar2_status i)) ->
  u32 (bar2_status j) = 0x600df00d ->
  (forall i, (i < 100)%nat -> u32 (bar2_mode i) = 0) ->
  let brk := dma_brk s in
  let run := xmm7360_probe k bar2_status bar2_mode signal_pending s in
  run = (Ok (- ETIMEDOUT),
         set_cp None (with_control_page (init_control_page brk) (probed_dev k brk)),
         probe_setup_trace
         ++ (boot_polls bar2_status j 0 ++ [MmioRead 2 BAR2_STATUS 0x600df00d])
         ++ (init_setup_trace brk ++ mode_polls bar2_mode 99 0 ++ [MmioRead 2 BAR2_MODE 0])
         ++ [ MmioWrite 0 BAR0_MODE 0; Release R_control_page;
              Release (R_irq 0); Release (R_irq 1); Release (R_irq 2); Release (R_irq 3);
              Release R_irq_vectors; Release (R_region 0); Release (R_region 2);
              Release R_enabled; Release R_xmm ])
  /\ cp (state_of run) = None
  /\ held (trace_of run) = [R_iomap 0; R_iomap 2]
  /\ count_events (is_read_of BAR2_STATUS) (trace_of run) = S j
  /\ count_events (is_read_of BAR2_MODE) (trace_of run) = 100%nat.
Proof.
  intros Hk Hj Hboot Hready Hzero brk run.
  pose proof Hk as (_ & _ & _ & _ & Hirq).
  set (s1 := with_control_page (init_control_page brk) (probed_dev k brk)).
  assert (Hteardown : xmm7360_remove s1
            = (Ok tt, set_cp None s1,
               [ MmioWrite 0 BAR0_MODE 0; Release R_control_page;
                 Release (R_irq 0); Release (R_irq 1); Release (R_irq 2); Release (R_irq 3);
                 Release R_irq_vectors; Release (R_region 0); Release (R_region 2);
                 Release R_enabled; Release R_xmm ])).
  { rewrite (remove_run s1 eq_refl eq_refl eq_refl).
    unfold s1, with_control_page, probed_dev. mreduce.
    cbn [irq_releases replicate cdev_releases zero_queue_pair qp_xmm app].
    rewrite !decide_True by (apply Hirq; lia). reflexivity. }
  assert (Hrun : run = (Ok (- ETIMEDOUT), set_cp None s1,
                        probe_setup_trace
                        ++ (boot_polls bar2_status j 0
                            ++ [MmioRead 2 BAR2_STATUS 0x600df00d])
                        ++ (init_setup_trace brk ++ mode_polls bar2_mode 99 0
                            ++ [MmioRead 2 BAR2_MODE 0])
                        ++ [ MmioWrite 0 BAR0_MODE 0; Release R_control_page;
                             Release (R_irq 0); Release (R_irq 1); Release (R_irq 2);
                             Release (R_irq 3);
                             Release R_irq_vectors; Release (R_region 0);
                             Release (R_region 2); Release R_enabled; Release R_xmm ])).
  { unfold run.
    rewrite (probe_ready_run k bar2_status bar2_mode signal_pending s _ Hk
               (poll_status_ready bar2_status j 100 0 0 (probed_dev k (dma_brk s))
                  eq_refl Hj Hboot Hready)).
    rewrite (bind_ok _ _ _ _ _ _
               (cmd_ring_init_timeout_run bar2_mode signal_pending (probed_dev k brk)
                  eq_refl eq_refl Hzero)).
    rewrite decide_True by discriminate.
    unfold fail. fold s1. rewrite (bind_ok _ _ _ _ _ _ Hteardown).
    unfold mret, M_ret. rewrite app_nil_r. reflexivity. }
  split; [exact Hrun |]. rewrite Hrun. unfold trace_of, state_of. cbn [fst snd].
  split; [reflexivity |].
  split; [| split].
  - unfold held. rewrite !foldl_app, held_boot_polls, held_mode_polls. reflexivity.
  - rewrite !count_events_app, boot_polls_reads.
    change (count_events (is_read_of BAR2_STATUS) probe_setup_trace) with 0%nat.
    change (count_events (is_read_of BAR2_STATUS) [MmioRead 2 BAR2_STATUS 0x600df00d])
      with 1%nat.
    change (count_events (is_read_of BAR2_STATUS) (init_setup_trace brk)) with 0%nat.
    assert (E : forall n i, count_events (is_read_of BAR2_STATUS)
                              (mode_polls bar2_mode n i) = 0%nat).
    { induction n as [| n IH]; intros i; [reflexivity |]. cbn [mode_polls].
      change (MmioRead 2 BAR2_MODE (u32 (bar2_mode i)) :: Msleep 10
              :: mode_polls bar2_mode n (S i))
        with ([MmioRead 2 BAR2_MODE (u32 (bar2_mode i)); Msleep 10]
              ++ mode_polls bar2_mode n (S i)).
      rewrite count_events_app, IH. reflexivity. }
    rewrite E. count_closed. lia.
  - rewrite !count_events_app, mode_polls_reads.
    assert (E : forall n i, count_events (is_read_of BAR2_MODE)
                              (boot_polls bar2_status n i) = 0%nat).
    { induction n as [| n IH]; intros i; [reflexivity |]. cbn [boot_polls].
      change (MmioRead 2 BAR2_STATUS (u32 (bar2_status i)) :: Mdelay 200
              :: boot_polls bar2_status n (S i))
        with ([MmioRead 2 BAR2_STATUS (u32 (bar2_status i)); Mdelay 200]
              ++ boot_polls bar2_status n (S i)).
      rewrite count_events_app, IH. reflexivity. }
    rewrite E.
    change (count_events (is_read_of BAR2_MODE) probe_setup_trace) with 0%nat.
    change (count_events (is_read_of BAR2_MODE) (init_setup_trace brk)) with 0%nat.
    count_closed. lia.
Qed.

Lemma probe_handshake_timeout_witness :
  kernel_succeeds kernel_ok /\ (2 < 100)%nat
  /\ (forall i, (i < 2)%nat ->
        still_booting ((fun j : nat => if (j <? 2)%nat then 0 else 0x600df00d) i))
  /\ u32 ((fun j : nat => if (j <? 2)%nat then 0 else 0x600df00d) 2%nat) = 0x600df00d
  /\ (forall i, (i < 100)%nat -> u32 ((fun _ : nat => 0) i) = 0)
  /\ result_of (xmm7360_probe kernel_ok (fun j => if (j <? 2)%nat then 0 else 0x600df00d)
                  (fun _ => 0) false (kzalloc_xmm_dev 0x100000)) = Ok (- ETIMEDOUT).
Proof.
  assert (Hk : kernel_succeeds kernel_ok).
  { repeat split; try reflexivity; try discriminate.
    cbn [pci_irq_vector kernel_ok]. lia. }
  assert (H2 : (2 < 100)%nat) by lia.
  assert (H3 : forall i, (i < 2)%nat ->
            still_booting ((fun j : nat => if (j <? 2)%nat then 0 else 0x600df00d) i)).
  { intros i Hi. destruct i as [| [| i]]; [split; discriminate .. | lia]. }
  assert (H4 : u32 ((fun j : nat => if (j <? 2)%nat then 0 else 0x600df00d) 2%nat)
               = 0x600df00d) by reflexivity.
  assert (H5 : forall i, (i < 100)%nat -> u32 ((fun _ : nat => 0) i) = 0)
    by (intros i _; reflexivity).
  split; [exact Hk |]. split; [exact H2 |]. split; [exact H3 |].
  split; [exact H4 |]. split; [exact H5 |].
  destruct (probe_handshake_timeout kernel_ok _ (fun _ => 0) false
              (kzalloc_xmm_dev 0x100000) 2 Hk H2 H3 H4 H5) as [Hrun _].
  rewrite Hrun. reflexivity.
Defined.

(** X15.  When a kernel service that [xmm7360_probe] calls before
    [pci_set_drvdata] fails (enabling the device, requesting region 0 or 2,
    allocating the interrupt vectors, or requesting one of the four
    interrupts), the probe does not return the error code.  It jumps to
    [fail], where [xmm7360_remove] looks for the device structure in the
    PCI device, finds NULL and dereferences it.  Nothing that was acquired
    up to the failure is released: the events of the run are an initial
    part of the acquisitions of a successful setup. *)
Theorem probe_early_failure (k : kernel_calls) (bar2_status bar2_mode : nat -> Z)
    (signal_pending : bool) (s : xmm_dev) :
  pci_enable_device k <> 0
  \/ pci_request_region k 0 <> 0
  \/ pci_request_region k 2 <> 0
  \/ pci_alloc_irq_vectors k < 0
  \/ (exists i, 0 <= i < 4 /\ request_irq k i <> 0) ->
  let run := xmm7360_probe k bar2_status bar2_mode signal_pending s in
  result_of run = Stop Oops
  /\ drvdata (state_of run) = false
  /\ (exists n, (0 < n <= 10)%nat /\ trace_of run = take n probe_setup_trace)
  /\ R_xmm ∈ held (trace_of run).
Proof.
  intros Hfail run.
  assert (Hgoal : forall (x : res Z * xmm_dev * list event) (n : nat),
            (0 < n <= 10)%nat ->
            result_of x = Stop Oops ->
            trace_of x = take n probe_setup_trace ->
            drvdata (state_of x) = false ->
            result_of x = Stop Oops
            /\ drvdata (state_of x) = false
            /\ (exists n, (0 < n <= 10)%nat /\ trace_of x = take n probe_setup_trace)
            /\ R_xmm ∈ held (trace_of x)).
  { intros x n Hn Hres Htr Hd.
    split; [exact Hres |]. split; [exact Hd |].
    split; [exists n; split; [exact Hn | exact Htr] |].
    rewrite Htr.
    destruct n as [| [| [| [| [| [| [| [| [| [| [| n]]]]]]]]]]]; try lia;
      unfold held, probe_setup_trace; cbn [firstn foldl held_step app];
      apply elem_of_cons; left; reflexivity. }
  unfold run. clear run. unfold xmm7360_probe.
  destruct (decide (pci_enable_device k = 0)) as [E1 | E1].
  2:{ rewrite decide_True by exact E1.
      apply (Hgoal _ 1%nat); [lia | reflexivity | reflexivity | reflexivity]. }
  rewrite E1. rewrite (decide_False (P := 0 <> 0)) by (intros H; apply H; reflexivity).
  destruct (decide (pci_request_region k 0 = 0)) as [E2 | E2].
  2:{ rewrite decide_True by exact E2.
      apply (Hgoal _ 2%nat); [lia | reflexivity | reflexivity | reflexivity]. }
  rewrite E2. rewrite (decide_False (P := 0 <> 0)) by (intros H; apply H; reflexivity).
  destruct (decide (pci_request_region k 2 = 0)) as [E3 | E3].
  2:{ rewrite decide_True by exact E3.
      apply (Hgoal _ 4%nat); [lia | reflexivity | reflexivity | reflexivity]. }
  rewrite E3. rewrite (decide_False (P := 0 <> 0)) by (intros H; apply H; reflexivity).
  destruct (decide (pci_alloc_irq_vectors k < 0)) as [E4 | E4].
  { apply (Hgoal _ 6%nat); [lia | reflexivity | reflexivity | reflexivity]. }
  cbn [request_irqs]. change (0 + 1) with 1. change (1 + 1) with 2. change (2 + 1) with 3.
  destruct (request_irq k 0) as [| p | p] eqn:Q0;
    [| apply (Hgoal _ 7%nat); [lia | reflexivity | reflexivity | reflexivity] ..].
  destruct (request_irq k 1) as [| p | p] eqn:Q1;
    [| apply (Hgoal _ 8%nat); [lia | reflexivity | reflexivity | reflexivity] ..].
  destruct (request_irq k 2) as [| p | p] eqn:Q2;
    [| apply (Hgoal _ 9%nat); [lia | reflexivity | reflexivity | reflexivity] ..].
  destruct (request_irq k 3) as [| p | p] eqn:Q3;
    [| apply (Hgoal _ 10%nat); [lia | reflexivity | reflexivity | reflexivity] ..].
  exfalso.
  destruct Hfail as [H | [H | [H | [H | (i & Hi & H)]]]]; try contradiction.
  assert (i = 0 \/ i = 1 \/ i = 2 \/ i = 3) as [-> | [-> | [-> | ->]]] by lia;
    congruence.
Qed.

Lemma probe_early_failure_witness :
  (pci_enable_device kernel_no_device <> 0
   \/ pci_request_region kernel_no_device 0 <> 0
   \/ pci_request_region kernel_no_device 2 <> 0
   \/ pci_alloc_irq_vectors kernel_no_device < 0
   \/ (exists i, 0 <= i < 4 /\ request_irq kernel_no_device i <> 0))
  /\ result_of (xmm7360_probe kernel_no_device (fun _ => 0x600df00d) (fun _ => 2) false
                  (kzalloc_xmm_dev 0x100000)) = Stop Oops.
Proof.
  assert (H1 : pci_enable_device kernel_no_device <> 0
               \/ pci_request_region kernel_no_device 0 <> 0
               \/ pci_request_region kernel_no_device 2 <> 0
               \/ pci_alloc_irq_vectors kernel_no_device < 0
               \/ (exists i, 0 <= i < 4 /\ request_irq kernel_no_device i <> 0))
    by (left; intros H; discriminate H).
  split; [exact H1 |].
  exact (proj1 (probe_early_failure kernel_no_device (fun _ => 0x600df00d) (fun _ => 2)
                  false (kzalloc_xmm_dev 0x100000) H1)).
Defined.

(** ** Creating the character devices *)

Section Cdevs.

Variable k : kernel_calls.

Lemma create_cdev_run (i : Z) (s : xmm_dev) :
  xmm7360_create_cdev k i s =
    (Ok (cdev_device_add k i),
     set_qp (<[Z.to_nat i := fresh_pair i]> (qp s)) s,
     if decide (cdev_device_add k i <> 0) then [] else [Acquire (R_cdev i)]).
Proof.
  unfold xmm7360_create_cdev. rewrite (bind_ok (put_qp i _) _ s tt _ []) by reflexivity.
  cbv zeta. destruct (decide (cdev_device_add k i <> 0)) as [H | H]; [reflexivity |].
  assert (E : cdev_device_add k i = 0) by (destruct (decide (cdev_device_add k i = 0)); tauto).
  rewrite E. reflexivity.
Qed.

Lemma create_cdevs_ok_run (n : nat) :
  forall (i : Z) (s : xmm_dev),
    (forall d, 0 <= d < Z.of_nat n -> cdev_device_add k (i + d) = 0) ->
    create_cdevs k n i s
    = (Ok 0, set_qp (init_pairs n i (qp s)) s, cdev_acquires n i).
Proof.
  induction n as [| n IH]; intros i s Hok.
  - cbn [create_cdevs init_pairs cdev_acquires]. destruct s; reflexivity.
  - cbn [create_cdevs init_pairs cdev_acquires].
    rewrite (bind_ok _ _ _ _ _ _ (create_cdev_run i s)).
    pose proof (Hok 0 ltac:(lia)) as H0. rewrite Z.add_0_r in H0. rewrite H0.
    rewrite !(decide_False (P := 0 <> 0)) by (intros H; apply H; reflexivity).
    rewrite (IH (i + 1) _).
    + reflexivity.
    + intros d Hd. replace (i + 1 + d) with (i + (d + 1)) by lia. apply Hok. lia.
Qed.

Lemma create_cdevs_fail_run (m : nat) :
  forall (n : nat) (i : Z) (s : xmm_dev),
    (m < n)%nat ->
    (forall d, 0 <= d < Z.of_nat m -> cdev_device_add k (i + d) = 0) ->
    cdev_device_add k (i + Z.of_nat m) <> 0 ->
    create_cdevs k n i s
    = (Ok (cdev_device_add k (i + Z.of_nat m)),
       set_qp (init_pairs (S m) i (qp s)) s, cdev_acquires m i).
Proof.
  induction m as [| m IH]; intros n i s Hlt Hok Hfail.
  - destruct n as [| n]; [lia |]. cbn [create_cdevs init_pairs cdev_acquires].
    rewrite Z.add_0_r in *.
    rewrite (bind_ok _ _ _ _ _ _ (create_cdev_run i s)).
    rewrite !decide_True by exact Hfail. reflexivity.
  - destruct n as [| n]; [lia |]. cbn [create_cdevs cdev_acquires].
    rewrite (bind_ok _ _ _ _ _ _ (create_cdev_run i s)).
    pose proof (Hok 0 ltac:(lia)) as H0. rewrite Z.add_0_r in H0. rewrite H0.
    rewrite !(decide_False (P := 0 <> 0)) by (intros H; apply H; reflexivity).
    rewrite (IH n (i + 1) _ ltac:(lia)).
    + replace (i + 1 + Z.of_nat m) with (i + Z.of_nat (S m)) by lia. reflexivity.
    + intros d Hd. replace (i + 1 + d) with (i + (d + 1)) by lia. apply Hok. lia.
    + replace (i + 1 + Z.of_nat m) with (i + Z.of_nat (S m)) by lia. exact Hfail.
Qed.

End Cdevs.

Lemma init_pairs_length n : forall i l, length (init_pairs n i l) = length l.
Proof.
  induction n as [| n IH]; intros i l; [reflexivity |].
  cbn [init_pairs]. rewrite IH, length_insert. reflexivity.
Qed.

Lemma init_pairs_lookup n :
  forall (i : Z) (l : list queue_pair) (x : Z),
    0 <= i -> 0 <= x -> (Z.to_nat i + n <= length l)%nat ->
    init_pairs n i l !! Z.to_nat x
    = if decide (i <= x < i + Z.of_nat n) then Some (fresh_pair x) else l !! Z.to_nat x.
Proof.
  induction n as [| n IH]; intros i l x Hi Hx Hlen.
  - cbn [init_pairs]. rewrite decide_False by lia. reflexivity.
  - cbn [init_pairs]. rewrite (IH (i + 1) _ x ltac:(lia) Hx)
      by (rewrite length_insert; lia).
    destruct (decide (i + 1 <= x < i + 1 + Z.of_nat n)) as [H1 | H1].
    + rewrite decide_True by lia. reflexivity.
    + destruct (decide (x = i)) as [-> | Hne].
      * rewrite decide_True by lia. apply list_lookup_insert_eq. lia.
      * rewrite decide_False by lia. apply list_lookup_insert_ne. lia.
Qed.

Lemma cdev_releases_elem (l : list queue_pair) :
  forall (i : Z) (n : nat) (q : queue_pair),
    l !! n = Some q -> qp_xmm q = true ->
    Release (R_cdev (i + Z.of_nat n)) ∈ cdev_releases l i.
Proof.
  induction l as [| q0 l IH]; intros i n q Hl Hq; [discriminate Hl |].
  cbn [cdev_releases]. apply elem_of_app. destruct n as [| n].
  - left. injection Hl as ->. rewrite Hq, Z.add_0_r. apply elem_of_cons. left. reflexivity.
  - right. replace (i + Z.of_nat (S n)) with (i + 1 + Z.of_nat n) by lia.
    apply (IH _ _ q); assumption.
Qed.

Lemma cdev_acquires_elem n : forall (i x : Z),
  Acquire (R_cdev x) ∈ cdev_acquires n i -> i <= x < i + Z.of_nat n.
Proof.
  induction n as [| n IH]; intros i x Hin.
  - apply elem_of_nil in Hin. contradiction.
  - cbn [cdev_acquires] in Hin. apply elem_of_cons in Hin as [Hin | Hin].
    + injection Hin as ->. lia.
    + apply IH in Hin. lia.
Qed.

(** X16.  The loop of [xmm7360_probe] that creates the eight character
    devices, on a device structure with eight pairs:
    - when every [cdev_device_add] succeeds it returns 0 and leaves pair
      [n] with its back pointer set, [num = n] and [open = 0], for every
      [n] from 0 to 7, having added the devices in that order;
    - when [cdev_device_add] fails first for pair [j] it returns that
      error at once: pairs 0 to [j] are set up (pair [j] included, whose
      device was not added), the pairs after [j] are untouched, and devices
      0 to [j - 1] are the ones added.  The teardown that follows
      ([xmm7360_remove], reached through [fail]) goes by the back pointer:
      it deletes the device of pair [j] too, which was never added. *)
Theorem create_cdevs_spec (k : kernel_calls) (s : xmm_dev) :
  length (qp s) = 8%nat ->
  let run := create_cdevs k 8 0 s in
  ((forall i, 0 <= i < 8 -> cdev_device_add k i = 0) ->
     result_of run = Ok 0
     /\ qp (state_of run)
        = (fun n => {| qp_xmm := true; num := n; open := 0 |}) <$> [0; 1; 2; 3; 4; 5; 6; 7]
     /\ trace_of run = (fun n => Acquire (R_cdev n)) <$> [0; 1; 2; 3; 4; 5; 6; 7])
  /\ (forall j, 0 <= j < 8 ->
        (forall i, 0 <= i < j -> cdev_device_add k i = 0) ->
        cdev_device_add k j <> 0 ->
        result_of run = Ok (cdev_device_add k j)
        /\ (forall i, 0 <= i <= j ->
              qp (state_of run) !! Z.to_nat i
              = Some {| qp_xmm := true; num := i; open := 0 |})
        /\ (forall i, j < i < 8 -> qp (state_of run) !! Z.to_nat i = qp s !! Z.to_nat i)
        /\ (forall i, Acquire (R_cdev i) ∈ trace_of run <-> 0 <= i < j)
        /\ (drvdata s = true -> length (irq s) = 4%nat ->
            Release (R_cdev j) ∈ trace_of (xmm7360_remove (state_of run)))).
Proof.
  intros Hlen run. split.
  - intros Hok.
    assert (Hrun : run = (Ok 0, set_qp (init_pairs 8 0 (qp s)) s, cdev_acquires 8 0)).
    { apply create_cdevs_ok_run. intros d Hd. apply Hok. lia. }
    rewrite Hrun. unfold result_of, state_of, trace_of. cbn [fst snd]. mreduce.
    split; [reflexivity |]. split; [| reflexivity].
    destruct (qp s) as [| q0 [| q1 [| q2 [| q3 [| q4 [| q5 [| q6 [| q7 [| q8 l]]]]]]]]];
      try discriminate Hlen.
    reflexivity.
  - intros j Hj Hok Hfail.
    assert (Hrun : run = (Ok (cdev_device_add k j),
                          set_qp (init_pairs (S (Z.to_nat j)) 0 (qp s)) s,
                          cdev_acquires (Z.to_nat j) 0)).
    { pose proof (create_cdevs_fail_run k (Z.to_nat j) 8 0 s ltac:(lia)) as H.
      rewrite Z2Nat.id in H by lia. cbn [Z.add] in H.
      apply H; [| exact Hfail]. intros d Hd. apply Hok. lia. }
    rewrite Hrun. unfold result_of, state_of, trace_of. cbn [fst snd]. mreduce.
    assert (Hlook : forall x, 0 <= x ->
              init_pairs (S (Z.to_nat j)) 0 (qp s) !! Z.to_nat x
              = if decide (0 <= x < 0 + Z.of_nat (S (Z.to_nat j)))
                then Some (fresh_pair x) else qp s !! Z.to_nat x).
    { intros x Hx. apply init_pairs_lookup; [lia | exact Hx |].
      rewrite Hlen. change (Z.to_nat 0) with 0%nat. lia. }
    split; [reflexivity |]. split; [| split; [| split]].
    + intros i Hi. rewrite Hlook by lia. rewrite decide_True by lia. reflexivity.
    + intros i Hi. rewrite Hlook by lia. rewrite decide_False by lia. reflexivity.
    + intros i. split.
      * intros Hin. apply cdev_acquires_elem in Hin. lia.
      * intros Hi. clear -Hi Hj.
        assert (G : forall n b x, b <= x < b + Z.of_nat n ->
                      Acquire (R_cdev x) ∈ cdev_acquires n b).
        { induction n as [| n IH]; intros b x Hx; [lia |].
          cbn [cdev_acquires]. apply elem_of_cons.
          destruct (decide (x = b)) as [-> | Hne]; [left; reflexivity |].
          right. apply IH. lia. }
        apply G. lia.
    + intros Hd Hirq.
      set (s' := set_qp (init_pairs (S (Z.to_nat j)) 0 (qp s)) s).
      assert (Hq' : length (qp s') = 8%nat)
        by (unfold s'; mreduce; rewrite init_pairs_length; exact Hlen).
      rewrite (remove_run s' Hd Hq' Hirq). unfold trace_of. cbn [snd].
      apply elem_of_app. left.
      pose proof (cdev_releases_elem (qp s') 0 (Z.to_nat j) (fresh_pair j)) as H.
      rewrite Z2Nat.id in H by lia. cbn [Z.add] in H. apply H; [| reflexivity].
      unfold s'. mreduce. rewrite Hlook by lia. rewrite decide_True by lia. reflexivity.
Qed.

Lemma create_cdevs_spec_witness :
  length (qp (probed_dev kernel_cdev_2_fails 0x100000)) = 8%nat
  /\ 0 <= 2 < 8
  /\ (forall i, 0 <= i < 2 -> cdev_device_add kernel_cdev_2_fails i = 0)
  /\ cdev_device_add kernel_cdev_2_fails 2 <> 0
  /\ result_of (create_cdevs kernel_cdev_2_fails 8 0 (probed_dev kernel_cdev_2_fails 0x100000))
     = Ok (- ENOMEM).
Proof.
  assert (H1 : length (qp (probed_dev kernel_cdev_2_fails 0x100000)) = 8%nat)
    by reflexivity.
  assert (H2 : 0 <= 2 < 8) by lia.
  assert (H3 : forall i, 0 <= i < 2 -> cdev_device_add kernel_cdev_2_fails i = 0).
  { intros i Hi. cbn [cdev_device_add kernel_cdev_2_fails].
    rewrite decide_False by lia. reflexivity. }
  assert (H4 : cdev_device_add kernel_cdev_2_fails 2 <> 0) by (intros H; discriminate H).
  destruct (create_cdevs_spec kernel_cdev_2_fails _ H1) as [_ Hfail].
  destruct (Hfail 2 H2 H3 H4) as [Hres _].
  exact (conj H1 (conj H2 (conj H3 (conj H4 Hres)))).
Defined.

(** ** The interrupt handler *)

Lemma wake_open_pairs_spec (s : xmm_dev) (n : nat) :
  forall (id : Z),
    0 <= id -> (Z.to_nat id + n <= length (qp s))%nat ->
    exists woken,
      wake_open_pairs n id s = (Ok tt, woken)
      /\ forall i, WQ_qp i ∈ woken <->
                   id <= i < id + Z.of_nat n
                   /\ exists q, qp s !! Z.to_nat i = Some q /\ open q <> 0.
Proof.
  induction n as [| n IH]; intros id Hid Hlen.
  - exists []. split; [reflexivity |]. intros i. split.
    + intros H. apply elem_of_nil in H. contradiction.
    + intros [H _]. lia.
  - cbn [wake_open_pairs].
    destruct (lookup_lt_is_Some_2 (qp s) (Z.to_nat id) ltac:(lia)) as [q Hq].
    rewrite Hq.
    destruct (IH (id + 1) ltac:(lia) ltac:(lia)) as (woken & Hrun & Hw).
    rewrite Hrun.
    exists (if decide (open q <> 0) then WQ_qp id :: woken else woken).
    split; [reflexivity |].
    intros i. destruct (decide (open q <> 0)) as [Ho | Ho].
    + rewrite elem_of_cons, Hw. split.
      * intros [E | [Hr Hex]]; [| split; [lia | exact Hex]].
        injection E as ->. split; [lia |]. exists q. split; assumption.
      * intros [Hr Hex]. destruct (decide (i = id)) as [-> | Hne];
          [left; reflexivity | right; split; [lia | exact Hex]].
    + rewrite Hw. split.
      * intros [Hr Hex]. split; [lia | exact Hex].
      * intros [Hr Hex]. split; [| exact Hex].
        destruct (decide (i = id)) as [-> | Hne]; [| lia].
        destruct Hex as (q' & Hq' & Ho'). rewrite Hq in Hq'. injection Hq' as <-.
        contradiction.
Qed.

(** With a control page in place [xmm7360_dump] has no effect *)
Lemma xmm7360_dump_run (s : xmm_dev) (c : control_page) :
  cp s = Some c -> length (s_wptr c) = 16%nat -> length (s_rptr c) = 16%nat ->
  xmm7360_dump s = (Ok tt, s, []).
Proof.
  intros Hc Hlw Hlr.
  destruct (lookup_lt_is_Some_2 (s_rptr c) 2 ltac:(lia)) as [r2 Hr2].
  destruct (lookup_lt_is_Some_2 (s_wptr c) 2 ltac:(lia)) as [w2 Hw2].
  destruct (lookup_lt_is_Some_2 (s_rptr c) 3 ltac:(lia)) as [r3 Hr3].
  destruct (lookup_lt_is_Some_2 (s_wptr c) 3 ltac:(lia)) as [w3 Hw3].
  unfold xmm7360_dump. msimpl.
  change (Z.to_nat 2) with 2%nat. change (Z.to_nat 3) with 3%nat.
  repeat (first [rewrite Hc | rewrite Hr2 | rewrite Hw2 | rewrite Hr3 | rewrite Hw3];
          mreduce).
  reflexivity.
Qed.

(** X17.  [xmm7360_irq0] wakes the device wait queue first and then reads
    the control page for its log line.  When [xmm->cp] is NULL, as it is
    from [request_irq] until [xmm7360_cmd_ring_init] has allocated the
    page and again after [xmm7360_cmd_ring_free], the handler dereferences
    NULL.  With a control page in place it returns [IRQ_HANDLED], having
    woken after the device queue the queues of exactly the pairs that are
    open. *)
Theorem irq0_spec (s : xmm_dev) :
  (cp s = None -> xmm7360_irq0 s = (Stop Oops, [WQ_xmm]))
  /\ (forall c, cp s = Some c ->
        length (s_wptr c) = 16%nat -> length (s_rptr c) = 16%nat ->
        length (qp s) = 8%nat ->
        exists woken,
          xmm7360_irq0 s = (Ok IRQ_HANDLED, WQ_xmm :: woken)
          /\ forall i, WQ_qp i ∈ woken <->
                       0 <= i < 8 /\ exists q, qp s !! Z.to_nat i = Some q /\ open q <> 0).
Proof.
  split.
  - intros Hc. unfold xmm7360_irq0, xmm7360_dump. msimpl. rewrite Hc. reflexivity.
  - intros c Hc Hlw Hlr Hq.
    pose proof (xmm7360_dump_run s c Hc Hlw Hlr) as Hdump.
    destruct (wake_open_pairs_spec s 8 0 ltac:(lia) ltac:(rewrite Hq; cbn; lia))
      as (woken & Hrun & Hw).
    exists woken. split.
    + unfold xmm7360_irq0. rewrite Hdump, Hrun. reflexivity.
    + intros i. rewrite Hw. change (0 + Z.of_nat 8) with 8. reflexivity.
Qed.

Lemma irq0_spec_witness :
  cp (probed_dev kernel_ok 0x100000) = None
  /\ xmm7360_irq0 (probed_dev kernel_ok 0x100000) = (Stop Oops, [WQ_xmm])
  /\ cp opened_dev = Some (cp_of opened_dev)
  /\ xmm7360_irq0 opened_dev = (Ok IRQ_HANDLED, [WQ_xmm; WQ_qp 1]).
Proof.
  assert (H1 : cp (probed_dev kernel_ok 0x100000) = None) by reflexivity.
  assert (H2 : cp opened_dev = Some (cp_of opened_dev)) by by_compute.
  split; [exact H1 |].
  split; [exact (proj1 (irq0_spec (probed_dev kernel_ok 0x100000)) H1) |].
  split; [exact H2 |]. by_compute.
Defined.

(** ** Creating a ring *)

Lemma pow2_size_cases n :
  pow2_size n <-> n ∈ [1; 2; 4; 8; 16; 32; 64; 128].
Proof.
  split.
  - intros (k & Hk & ->).
    assert (k = 0 \/ k = 1 \/ k = 2 \/ k = 3 \/ k = 4 \/ k = 5 \/ k = 6 \/ k = 7)
      as [-> | [-> | [-> | [-> | [-> | [-> | [-> | ->]]]]]]] by lia;
      refine (bool_decide_unpack _ _); vm_compute; exact I.
  - intros Hin.
    repeat (apply elem_of_cons in Hin as [-> | Hin];
            [ first [ exists 0; split; [lia | reflexivity]
                    | exists 1; split; [lia | reflexivity]
                    | exists 2; split; [lia | reflexivity]
                    | exists 3; split; [lia | reflexivity]
                    | exists 4; split; [lia | reflexivity]
                    | exists 5; split; [lia | reflexivity]
                    | exists 6; split; [lia | reflexivity]
                    | exists 7; split; [lia | reflexivity] ] |]).
    apply elem_of_nil in Hin. contradiction.
Qed.

(** The test [size & (size - 1)] on a [u8] value *)
Lemma pow2_test_u8 n :
  0 <= n < 2 ^ 8 -> (Z.land n (n - 1) = 0 <-> n = 0 \/ pow2_size n).
Proof.
  intros Hn. rewrite pow2_size_cases.
  assert (Hall : forallb (fun m : nat =>
                    bool_decide (Z.land (Z.of_nat m) (Z.of_nat m - 1) = 0
                                 <-> Z.of_nat m = 0
                                     \/ Z.of_nat m ∈ [1; 2; 4; 8; 16; 32; 64; 128]))
                   (seq 0 256) = true) by (vm_compute; reflexivity).
  rewrite forallb_forall in Hall.
  specialize (Hall (Z.to_nat n) ltac:(apply in_seq; lia)).
  rewrite Z2Nat.id in Hall by lia.
  apply bool_decide_eq_true in Hall. exact Hall.
Qed.

Lemma page_addrs_length n : forall base psize, length (page_addrs n base psize) = n.
Proof.
  induction n as [| n IH]; intros base psize; [reflexivity |].
  cbn [page_addrs length]. rewrite IH. reflexivity.
Qed.

Lemma page_addrs_lookup n : forall (base psize : Z) (i : nat),
  (i < n)%nat -> page_addrs n base psize !! i = Some (base + Z.of_nat i * psize).
Proof.
  induction n as [| n IH]; intros base psize i Hi; [lia |].
  cbn [page_addrs]. destruct i as [| i].
  - cbn. f_equal. lia.
  - cbn [lookup list_lookup]. rewrite (IH _ _ i) by lia. f_equal. lia.
Qed.

Lemma td_ring_create_any_size_run s c rid ring0 nsize :
  cp s = Some c -> bar0 s = true -> cmd_ring_wf c ->
  (c_wptr c + 1) mod CMD_RING_SIZE <> c_rptr c ->
  td_ring_ s !! Z.to_nat rid = Some ring0 -> size ring0 = 0 ->
  Z.land nsize (nsize - 1) = 0 ->
  (Z.to_nat rid < length (s_wptr c))%nat ->
  (Z.to_nat rid < length (s_rptr c))%nat ->
  xmm7360_td_ring_create rid nsize s =
    (Ok tt, after_create rid nsize c s, create_trace rid nsize c s).
Proof.
  intros Hc Hb Hwf Hroom Hr Hsz Hpow Hlw Hlr.
  destruct (lookup_lt_is_Some_2 _ _ Hlw) as [w0 Hw0].
  destruct (lookup_lt_is_Some_2 _ _ Hlr) as [r0 Hr0].
  unfold xmm7360_td_ring_create, dma_alloc_coherent. msimpl.
  rewrite Hr. mreduce.
  rewrite bool_decide_false by (intros H; apply H; exact Hsz).
  rewrite bool_decide_false by (intros H; apply H; exact Hpow).
  mreduce. rewrite alloc_pages_run. mreduce.
  rewrite Hc. mreduce. rewrite Hw0. mreduce. rewrite Hr0. mreduce.
  erewrite submit_ok; [ | mreduce; reflexivity | exact Hwf | exact Hroom ].
  mreduce.
  erewrite ding_run_end; [ | mreduce; reflexivity | mreduce; exact Hb ].
  unfold after_create, create_trace, reset_ptrs, fresh_ring, with_ring, ding_trace.
  mreduce. cbn [cp_status after_submit set_c_wptr set_c_ring].
  reflexivity.
Qed.

(** X18.  The two guards of [xmm7360_td_ring_create], for a capacity that
    arrives as a [u8]: a ring that already exists stops the call at
    [BUG_ON(ring->size)], and on an absent ring a capacity with
    [size & (size - 1)] nonzero stops it at the second [BUG_ON]; in both
    cases nothing has been allocated, stored or queued.  The second test
    lets through exactly the powers of two from 1 to 128 and the value 0. *)
Theorem td_ring_create_guards (s : xmm_dev) (rid : Z) (ring : td_ring) (nsize : Z) :
  td_ring_ s !! Z.to_nat rid = Some ring -> 0 <= nsize < 2 ^ 8 ->
  (size ring <> 0 ->
     xmm7360_td_ring_create rid nsize s = (Stop (BUG Bug_ring_exists), s, []))
  /\ (size ring = 0 -> nsize <> 0 -> ~ pow2_size nsize ->
      xmm7360_td_ring_create rid nsize s = (Stop (BUG Bug_size_not_pow2), s, []))
  /\ (Z.land nsize (nsize - 1) = 0 <-> nsize = 0 \/ pow2_size nsize).
Proof.
  intros Hr Hn. pose proof (pow2_test_u8 nsize Hn) as Htest.
  split; [| split; [| exact Htest]].
  - intros Hsz. unfold xmm7360_td_ring_create.
    rewrite (bind_ok (get_ring rid) _ s ring s []) by (msimpl; rewrite Hr; reflexivity).
    rewrite (bool_decide_true (size ring <> 0)) by exact Hsz. reflexivity.
  - intros Hsz Hnz Hnp. unfold xmm7360_td_ring_create.
    rewrite (bind_ok (get_ring rid) _ s ring s []) by (msimpl; rewrite Hr; reflexivity).
    rewrite (bool_decide_false (size ring <> 0)) by (intros H; apply H; exact Hsz).
    rewrite (bind_ok (BUG_ON false _) _ s tt s []) by reflexivity.
    rewrite bool_decide_true by (intros H; apply Htest in H; tauto).
    reflexivity.
Qed.

Lemma td_ring_create_guards_witness :
  td_ring_ opened_dev !! Z.to_nat 3 = Some (ring_of opened_dev 3)
  /\ 0 <= 8 < 2 ^ 8
  /\ size (ring_of opened_dev 3) <> 0
  /\ xmm7360_td_ring_create 3 8 opened_dev = (Stop (BUG Bug_ring_exists), opened_dev, []).
Proof.
  assert (H1 : td_ring_ opened_dev !! Z.to_nat 3 = Some (ring_of opened_dev 3))
    by by_compute.
  assert (H2 : 0 <= 8 < 2 ^ 8) by lia.
  assert (H3 : size (ring_of opened_dev 3) <> 0) by by_compute.
  split; [exact H1 |]. split; [exact H2 |]. split; [exact H3 |].
  exact (proj1 (td_ring_create_guards opened_dev 3 _ 8 H1 H2) H3).
Defined.

Lemma fresh_ring_any_size_wf nsize base :
  pow2_size nsize -> ring_wf (fresh_ring nsize base) 0.
Proof.
  intros Hpow. pose proof (pow2_size_pos _ Hpow) as Hpos.
  split.
  - exact Hpow.
  - cbn [fresh_ring tds size]. rewrite length_fmap, page_addrs_length. reflexivity.
  - cbn [fresh_ring pages size]. apply length_replicate.
  - cbn [fresh_ring pages page_size]. apply Forall_replicate. apply length_replicate.
  - cbn [fresh_ring page_size]. lia.
  - cbn [fresh_ring size]. lia.
  - cbn [fresh_ring size last_handled]. lia.
Qed.

(** X19.  What [xmm7360_td_ring_create] builds for a power-of-two capacity
    [n] on an absent ring, when the command ring has room, whatever bus
    addresses the allocations return.  The ring gets [n] descriptors, [n]
    pages and [n] page addresses; descriptor [i] carries the bus address
    recorded for page [i] in [pages_phys], with length and flags 0, and
    page [i] is 4096 zeroed bytes.  Both ring pointers in the control page
    are reset to 0 (write pointer first), then one RING_OPEN command with
    the ring id, the capacity, the address [tds_phys] of the descriptor
    array and [extra = 0x60] is queued at the command write pointer, which
    moves on by one, and the command doorbell is rung.  The ring it leaves
    is well formed, with [last_handled = 0]; the other rings are as they
    were. *)
Theorem td_ring_create_spec (s : xmm_dev) (c : control_page) (rid : Z)
    (ring0 : td_ring) (nsize : Z) :
  cp s = Some c -> bar0 s = true -> cmd_ring_wf c ->
  (c_wptr c + 1) mod CMD_RING_SIZE <> c_rptr c ->
  td_ring_ s !! Z.to_nat rid = Some ring0 -> size ring0 = 0 ->
  pow2_size nsize ->
  (Z.to_nat rid < length (s_wptr c))%nat ->
  (Z.to_nat rid < length (s_rptr c))%nat ->
  let run := xmm7360_td_ring_create rid nsize s in
  let ring := ring_of (state_of run) rid in
  result_of run = Ok tt
  /\ trace_of run
     = [Store (L_s_wptr rid) 0; Store (L_s_rptr rid) 0]
       ++ submit_trace (c_wptr c) CMD_RING_OPEN rid nsize (tds_phys ring) 0x60
       ++ ding_trace c DOORBELL_CMD
  /\ size ring = nsize /\ page_size ring = 0x1000 /\ last_handled ring = 0
  /\ ring_wf ring 0
  /\ length (tds ring) = Z.to_nat nsize
  /\ length (pages ring) = Z.to_nat nsize
  /\ length (pages_phys ring) = Z.to_nat nsize
  /\ (forall i, 0 <= i < nsize ->
        exists a,
          pages_phys ring !! Z.to_nat i = Some a
          /\ tds ring !! Z.to_nat i
             = Some {| td_addr := a; td_length := 0; td_flags := 0; td_unk := 0 |}
          /\ pages ring !! Z.to_nat i = Some (replicate 4096 x00))
  /\ s_wptr (cp_of (state_of run)) !! Z.to_nat rid = Some 0
  /\ s_rptr (cp_of (state_of run)) !! Z.to_nat rid = Some 0
  /\ c_ring (cp_of (state_of run)) !! Z.to_nat (c_wptr c)
     = Some (submitted_entry CMD_RING_OPEN rid nsize (tds_phys ring) 0x60)
  /\ c_wptr (cp_of (state_of run)) = (c_wptr c + 1) mod CMD_RING_SIZE
  /\ c_rptr (cp_of (state_of run)) = c_rptr c
  /\ (forall j, j <> Z.to_nat rid ->
        td_ring_ (state_of run) !! j = td_ring_ s !! j).
Proof.
  intros Hc Hb Hwf Hroom Hr Hsz Hpow Hlw Hlr run ring.
  pose proof (pow2_size_pos _ Hpow) as Hpos.
  assert (Hland : Z.land nsize (nsize - 1) = 0).
  { rewrite land_pow2_mod by exact Hpow. apply Z.mod_same. lia. }
  pose proof (td_ring_create_any_size_run s c rid ring0 nsize
                Hc Hb Hwf Hroom Hr Hsz Hland Hlw Hlr) as Hrun.
  fold run in Hrun.
  set (base := dma_brk s) in *.
  assert (Hi : (Z.to_nat rid < length (td_ring_ s))%nat)
    by (apply lookup_lt_is_Some; eauto).
  assert (Hring : ring = fresh_ring nsize base).
  { unfold ring. rewrite Hrun. unfold state_of, ring_of, after_create, with_ring.
    cbn [fst snd]. mreduce. rewrite list_lookup_insert_eq by exact Hi. reflexivity. }
  assert (Hcp : cp_of (state_of run)
                = after_submit CMD_RING_OPEN rid nsize base 0x60 (reset_ptrs rid c)).
  { rewrite Hrun. reflexivity. }
  assert (Hrings : td_ring_ (state_of run)
                   = <[Z.to_nat rid := fresh_ring nsize base]> (td_ring_ s)).
  { rewrite Hrun. reflexivity. }
  destruct Hwf as [Hlc Hw].
  rewrite Hring, Hcp, Hrings. rewrite Hrun. unfold result_of, trace_of. cbn [fst snd].
  split; [reflexivity |]. split; [reflexivity |].
  do 3 (split; [reflexivity |]).
  split; [exact (fresh_ring_any_size_wf nsize base Hpow) |].
  split; [cbn [fresh_ring tds]; rewrite length_fmap; apply page_addrs_length |].
  split; [cbn [fresh_ring pages]; apply length_replicate |].
  split; [cbn [fresh_ring pages_phys]; apply page_addrs_length |].
  split; [| split; [| split; [| split; [| split; [| split]]]]].
  - intros i Hi'.
    assert (Hlt : (Z.to_nat i < Z.to_nat nsize)%nat) by lia.
    pose proof (page_addrs_lookup (Z.to_nat nsize) (base + sizeof_td_ring_entry * nsize)
                  4096 (Z.to_nat i) Hlt) as Haddr.
    eexists. cbn [fresh_ring tds pages pages_phys].
    split; [exact Haddr |].
    split; [rewrite list_lookup_fmap, Haddr; reflexivity |].
    apply lookup_replicate. split; [reflexivity | exact Hlt].
  - unfold after_submit, reset_ptrs. mreduce. apply list_lookup_insert_eq. exact Hlw.
  - unfold after_submit, reset_ptrs. mreduce. apply list_lookup_insert_eq. exact Hlr.
  - unfold after_submit, reset_ptrs. mreduce. apply list_lookup_insert_eq.
    rewrite Hlc. unfold CMD_RING_SIZE in *. lia.
  - reflexivity.
  - reflexivity.
  - intros j Hj. apply list_lookup_insert_ne. congruence.
Qed.

Lemma td_ring_create_spec_witness :
  cp attached_dev = Some zero_control_page /\ bar0 attached_dev = true
  /\ cmd_ring_wf zero_control_page
  /\ (c_wptr zero_control_page + 1) mod CMD_RING_SIZE <> c_rptr zero_control_page
  /\ td_ring_ attached_dev !! Z.to_nat 4 = Some zero_td_ring /\ size zero_td_ring = 0
  /\ pow2_size 8
  /\ (Z.to_nat 4 < length (s_wptr zero_control_page))%nat
  /\ (Z.to_nat 4 < length (s_rptr zero_control_page))%nat
  /\ result_of (xmm7360_td_ring_create 4 8 attached_dev) = Ok tt.
Proof.
  assert (H1 : cp attached_dev = Some zero_control_page) by reflexivity.
  assert (H2 : bar0 attached_dev = true) by reflexivity.
  assert (H3 : cmd_ring_wf zero_control_page) by (split; by_compute).
  assert (H4 : (c_wptr zero_control_page + 1) mod CMD_RING_SIZE
               <> c_rptr zero_control_page) by by_compute.
  assert (H5 : td_ring_ attached_dev !! Z.to_nat 4 = Some zero_td_ring) by reflexivity.
  assert (H6 : size zero_td_ring = 0) by reflexivity.
  assert (H8 : (Z.to_nat 4 < length (s_wptr zero_control_page))%nat) by (cbn; lia).
  assert (H9 : (Z.to_nat 4 < length (s_rptr zero_control_page))%nat) by (cbn; lia).
  pose proof (proj1 (td_ring_create_spec attached_dev zero_control_page 4 zero_td_ring 8
                       H1 H2 H3 H4 H5 H6 pow2_size_8 H8 H9)) as H10.
  exact (conj H1 (conj H2 (conj H3 (conj H4 (conj H5 (conj H6 (conj pow2_size_8
          (conj H8 (conj H9 H10))))))))).
Defined.

(** ** Independence of the queue pairs *)

Lemma others_untouched_intro (id n : Z) (s s' : xmm_dev) (c : control_page)
    (q' : queue_pair) (r1 r2 r3 : td_ring) (v1 v2 v3 v4 v5 : Z) :
  cp s = Some c ->
  (qp s' = qp s \/ qp s' = <[Z.to_nat id := q']> (qp s)) ->
  (td_ring_ s' = td_ring_ s
   \/ td_ring_ s' = <[Z.to_nat (n * 2) := r1]> (td_ring_ s)
   \/ td_ring_ s' = <[Z.to_nat (n * 2 + 1) := r1]> (td_ring_ s)
   \/ td_ring_ s' = <[Z.to_nat (n * 2 + 1) := r2]> (<[Z.to_nat (n * 2) := r1]> (td_ring_ s))
   \/ td_ring_ s' = <[Z.to_nat (n * 2 + 1) := r3]>
                      (<[Z.to_nat (n * 2 + 1) := r2]>
                         (<[Z.to_nat (n * 2) := r1]> (td_ring_ s)))) ->
  (s_wptr (cp_of s') = s_wptr c
   \/ s_wptr (cp_of s') = <[Z.to_nat (n * 2) := v1]> (s_wptr c)
   \/ s_wptr (cp_of s') = <[Z.to_nat (n * 2 + 1) := v1]> (s_wptr c)
   \/ s_wptr (cp_of s') = <[Z.to_nat (n * 2 + 1) := v3]>
                            (<[Z.to_nat (n * 2 + 1) := v2]>
                               (<[Z.to_nat (n * 2) := v1]> (s_wptr c)))) ->
  (s_rptr (cp_of s') = s_rptr c
   \/ s_rptr (cp_of s') = <[Z.to_nat (n * 2 + 1) := v5]>
                            (<[Z.to_nat (n * 2) := v4]> (s_rptr c))) ->
  others_untouched id n s s'.
Proof.
  intros Hc Hq Hr Hw Hrp. unfold others_untouched, cp_of at 2 4. rewrite Hc.
  cbn [default from_option]. unfold Datatypes.id. split.
  - intros i Hi. destruct Hq as [-> | ->]; [reflexivity |].
    apply list_lookup_insert_ne. congruence.
  - intros rid H1 H2. split; [| split].
    + destruct Hr as [-> | [-> | [-> | [-> | ->]]]];
        rewrite ?list_lookup_insert_ne by congruence; reflexivity.
    + destruct Hw as [-> | [-> | [-> | ->]]];
        rewrite ?list_lookup_insert_ne by congruence; reflexivity.
    + destruct Hrp as [-> | ->];
        rewrite ?list_lookup_insert_ne by congruence; reflexivity.
Qed.

(** X20.  The queue pairs do not disturb one another.  Opening, closing,
    writing to and reading from pair [id] (rings [2n] and [2n+1]), each run
    under the conditions in which it succeeds, leave alone every other
    entry of [xmm->qp], every other ring with its descriptors and pages,
    and the write and read pointers of every other ring in the control
    page.  What the pairs share, and what does change, is the command ring
    and the allocator. *)
Theorem queue_pairs_independent (s : xmm_dev) (c : control_page) (id : Z) (q : queue_pair) :
  qp s !! Z.to_nat id = Some q -> 0 <= num q < 8 -> bar0 s = true ->
  cp s = Some c -> cmd_ring_wf c ->
  let tx := num q * 2 in
  let rx := num q * 2 + 1 in
  (forall (ra rb : td_ring) (budget : nat),
     open q = 0 ->
     length (s_wptr c) = 16%nat -> length (s_rptr c) = 16%nat ->
     td_ring_ s !! Z.to_nat tx = Some ra -> size ra = 0 ->
     td_ring_ s !! Z.to_nat rx = Some rb -> size rb = 0 ->
     (c_wptr c + 1) mod CMD_RING_SIZE <> c_rptr c ->
     (c_wptr c + 2) mod CMD_RING_SIZE <> c_rptr c ->
     (8 <= budget)%nat ->
     result_of (xmm7360_qp_start budget id s) = Ok 0
     /\ others_untouched id (num q) s (state_of (xmm7360_qp_start budget id s)))
  /\ (forall (ra rb : td_ring),
        open q <> 0 ->
        td_ring_ s !! Z.to_nat tx = Some ra -> size ra <> 0 ->
        td_ring_ s !! Z.to_nat rx = Some rb -> size rb <> 0 ->
        (c_wptr c + 1) mod CMD_RING_SIZE <> c_rptr c ->
        (c_wptr c + 2) mod CMD_RING_SIZE <> c_rptr c ->
        result_of (xmm7360_qp_stop id s) = Ok 0
        /\ others_untouched id (num q) s (state_of (xmm7360_qp_stop id s)))
  /\ (forall (ring : td_ring) (w r : Z) (data : list byte) (offset : Z),
        ring_at s tx c ring w r -> ring_wf ring w ->
        0 <= offset -> offset + Z.of_nat (length data) < 2 ^ 63 ->
        (w + 1) mod size ring <> r -> Z.of_nat (length data) <= page_size ring ->
        let run := xmm7360_write id data (Z.of_nat (length data)) offset s in
        result_of run = Ok (Z.of_nat (length data), offset + Z.of_nat (length data))
        /\ others_untouched id (num q) s (state_of run))
  /\ (forall (ring : td_ring) (w r : Z) (td : td_ring_entry) (nbytes offset : Z)
             (signal_pending : bool),
        ring_at s rx c ring w r -> ring_wf ring w ->
        r <> last_handled ring -> (w + 1) mod size ring = last_handled ring ->
        tds ring !! Z.to_nat (last_handled ring) = Some td ->
        0 <= td_length td <= page_size ring -> 0 <= nbytes < 2 ^ 64 ->
        let run := xmm7360_qp_read_user signal_pending id nbytes s in
        result_of run = Ok (Z.min (td_length td) nbytes)
        /\ others_untouched id (num q) s (state_of run)).
Proof.
  intros Hq Hn Hb Hc Hwf tx rx.
  set (z := {| td_addr := 0; td_length := 0; td_flags := 0; td_unk := 0 |}).
  split; [| split; [| split]].
  - intros ra rb budget Hopen Hlw Hlr Hra Hsa Hrb Hsb Hroom1 Hroom2 Hbud.
    rewrite (qp_start_run s c id q ra rb budget Hq Hopen Hn Hb Hc Hwf Hlw Hlr
               Hra Hsa Hrb Hsb Hroom1 Hroom2 Hbud).
    unfold result_of, state_of. cbn [fst snd]. split; [reflexivity |].
    eapply (others_untouched_intro id (num q) s _ c (set_open 1 q));
      [ exact Hc
      | right; reflexivity
      | do 4 right; reflexivity
      | do 3 right; reflexivity
      | right; reflexivity ].
  - intros ra rb Hopen Hra Hsa Hrb Hsb Hroom1 Hroom2.
    rewrite (qp_stop_run s c id q ra rb Hq Hopen Hn Hb Hc Hwf Hra Hsa Hrb Hsb
               Hroom1 Hroom2).
    unfold result_of, state_of. cbn [fst snd]. split; [reflexivity |].
    eapply (others_untouched_intro id (num q) s _ c (set_open 0 q)
              _ _ zero_td_ring 0 0 0 0 0);
      [ exact Hc
      | right; reflexivity
      | do 3 right; left; reflexivity
      | left; reflexivity
      | left; reflexivity ].
  - intros ring w r data offset Hat Hring Hoff Hoff2 Hnf Hlen run.
    pose proof Hring as [Hsz _ _ _ _ _ _].
    assert (Hu0 : u8 tx = tx) by (apply u8_small; unfold tx; lia).
    assert (Hfullrun : xmm7360_td_ring_full tx s = (Ok 0, s, [])).
    { rewrite (td_ring_full_run s tx c ring w r Hat).
      rewrite advance_is_mod by exact Hsz. rewrite decide_False by exact Hnf.
      reflexivity. }
    assert (Hrun : run = (Ok (Z.of_nat (length data), offset + Z.of_nat (length data)),
                          with_s_wptr tx ((w + 1) mod size ring) c
                            (with_ring tx (ring_after_write w data ring) s),
                          (StorePage tx w data
                           :: post_trace tx w (Z.of_nat (length data))
                                ((w + 1) mod size ring))
                          ++ ding_trace c DOORBELL_TD ++ [])).
    { unfold run, xmm7360_write, xmm7360_qp_write_user.
      erewrite bind_ok.
      2:{ rewrite (bind_ok (get_qp id) _ s q s []) by (msimpl; rewrite Hq; reflexivity).
          fold tx. rewrite Hu0. rewrite (bind_ok _ _ _ _ _ _ Hfullrun).
          rewrite decide_False by (intros H; apply H; reflexivity).
          rewrite (bind_ok _ _ _ _ _ _
                     (td_ring_write_run true s tx c ring w r data Hat Hring Hlen
                        (even_ring_id _) Hnf)).
          erewrite ding_run; [ | reflexivity | exact Hb ].
          reflexivity. }
      cbv zeta. change (s32 0) with 0.
      rewrite decide_False by (intros H; apply H; reflexivity).
      unfold mret, M_ret. rewrite !s64_small by lia.
      rewrite !app_nil_r. reflexivity. }
    rewrite Hrun. unfold result_of, state_of. cbn [fst snd]. split; [reflexivity |].
    eapply (others_untouched_intro id (num q) s _ c q
              _ zero_td_ring zero_td_ring _ 0 0 0 0);
      [ exact Hc
      | left; reflexivity
      | right; left; reflexivity
      | right; left; reflexivity
      | left; reflexivity ].
  - intros ring w r td nbytes offset signal_pending Hat Hring Hdata Hinv Htd Hlen Hnb run.
    pose proof Hring as [Hpow Htds Hpages _ _ _ Hlh].
    pose proof (pow2_size_pos _ Hpow) as Hpos.
    destruct (lookup_lt_is_Some_2 (pages ring) (Z.to_nat (last_handled ring)) ltac:(lia))
      as [page Hpage].
    unfold run.
    rewrite (qp_read_user_run s c id q ring w r td page nbytes signal_pending
               Hq Hn Hb Hat Hring Hdata Hinv Htd Hpage Hlen Hnb).
    unfold result_of, state_of. cbn [fst snd]. split; [reflexivity |].
    eapply (others_untouched_intro id (num q) s _ c q
              _ zero_td_ring zero_td_ring _ 0 0 0 0);
      [ exact Hc
      | left; reflexivity
      | right; right; left;
        unfold after_qp_read, with_ring, with_s_wptr; mreduce;
        rewrite list_insert_insert_eq; reflexivity
      | right; right; left; reflexivity
      | left; reflexivity ].
Qed.

Lemma queue_pairs_independent_witness :
  qp opened_dev !! Z.to_nat 1 = Some pair_1_open /\ 0 <= num pair_1_open < 8
  /\ bar0 opened_dev = true /\ cp opened_dev = Some (cp_of opened_dev)
  /\ cmd_ring_wf (cp_of opened_dev)
  /\ ring_at opened_dev (num pair_1_open * 2) (cp_of opened_dev) (ring_of opened_dev 2) 0 0
  /\ ring_wf (ring_of opened_dev 2) 0
  /\ 0 <= 10 /\ 10 + Z.of_nat (length [x41; x54; x0d]) < 2 ^ 63
  /\ (0 + 1) mod size (ring_of opened_dev 2) <> 0
  /\ Z.of_nat (length [x41; x54; x0d]) <= page_size (ring_of opened_dev 2)
  /\ others_untouched 1 (num pair_1_open) opened_dev
       (state_of (xmm7360_write 1 [x41; x54; x0d] (Z.of_nat (length [x41; x54; x0d])) 10
                    opened_dev)).
Proof.
  assert (H1 : qp opened_dev !! Z.to_nat 1 = Some pair_1_open) by by_compute.
  assert (H2 : 0 <= num pair_1_open < 8) by by_compute.
  assert (H3 : bar0 opened_dev = true) by by_compute.
  assert (H4 : cp opened_dev = Some (cp_of opened_dev)) by by_compute.
  assert (H5 : cmd_ring_wf (cp_of opened_dev)) by (split; by_compute).
  assert (H6 : 0 <= 10) by lia.
  assert (H7 : 10 + Z.of_nat (length [x41; x54; x0d]) < 2 ^ 63) by by_compute.
  assert (H8 : (0 + 1) mod size (ring_of opened_dev 2) <> 0) by by_compute.
  assert (H9 : Z.of_nat (length [x41; x54; x0d]) <= page_size (ring_of opened_dev 2))
    by by_compute.
  destruct (queue_pairs_independent opened_dev (cp_of opened_dev) 1 pair_1_open
              H1 H2 H3 H4 H5) as (_ & _ & Hwrite & _).
  destruct (Hwrite (ring_of opened_dev 2) 0 0 [x41; x54; x0d] 10
              opened_dev_ring_at_2 opened_dev_ring_wf_2 H6 H7 H8 H9) as [_ Hframe].
  exact (conj H1 (conj H2 (conj H3 (conj H4 (conj H5 (conj opened_dev_ring_at_2
          (conj opened_dev_ring_wf_2 (conj H6 (conj H7 (conj H8 (conj H9 Hframe))))))))))).
Defined.
